(** * Credential and session lifecycle of the e-movers backend

    A shallow embedding of [src/modules/auth/auth.service.ts] (class
    [AuthService]), of the logout handler of
    [src/modules/auth/auth.controller.ts], and of the classes [MailService]
    and [RedisService] the service calls (both are in
    [src/modules/storage-size/dto/create-storage-feature.dto.ts]).  The
    service file holds the class twice; the embedding follows the first one,
    which works with one-time codes as the DTOs of [dto/] do (the second
    still mails signed links).

    - The [users] table of the Prisma migrations is a list of rows
      ([User.t]), searched by its unique columns and updated by id.
    - Timestamps ([Date]) are milliseconds since the epoch, in [Z].  One
      service call reads the clock once: the call takes [now].
    - Asynchronous calls are sequenced by [await]; the embedding is a state
      and exception monad over the store, the Redis cache and the outbox of
      the mail service.  A thrown exception keeps the writes made before it,
      as the source has no transaction.
    - bcrypt and the JWT service are external libraries: they are the
      operations of the class [Crypto].  The SMTP transport of nodemailer is
      the operation of the class [Transporter], and the two string methods
      that follow the Unicode tables of the engine are those of [Js.Strings].
    - [crypto.randomInt] draws from the CSPRNG; the draw is the argument
      [rnd] of the calls that need one. *)

From Stdlib Require Import ZArith String Ascii List Bool Lia.
From stdpp Require Import base option gmap strings.
Import ListNotations.

Set Warnings "-register-all".
Local Open Scope string_scope.
Local Open Scope Z_scope.

(** ** JavaScript strings and numbers *)

Module Js.

(** [String.prototype.toLowerCase] and [String.prototype.trim] work on UTF-16
    code units with the case mapping and the white space of Unicode.  The
    service only passes their results on, so they are operations of a class:
    what is proved holds for the methods of the engine, whatever they do to a
    string. *)
Class Strings := {
  toLowerCase : string -> string;
  trim : string -> string
}.

(** The two methods on strings of ASCII characters, for the examples. *)
Definition lower_ascii (c : ascii) : ascii :=
  let n := nat_of_ascii c in
  if (65 <=? n)%nat && (n <=? 90)%nat then ascii_of_nat (n + 32) else c.

Fixpoint ascii_toLowerCase (s : string) : string :=
  match s with
  | EmptyString => EmptyString
  | String c r => String (lower_ascii c) (ascii_toLowerCase r)
  end.

(** Truthiness of a string that may be [null] or [undefined]. *)
Definition truthy (s : option string) : bool :=
  match s with
  | None => false
  | Some EmptyString => false
  | Some _ => true
  end.

(** [a || b] on strings. *)
Definition or_else (a : option string) (b : string) : string :=
  if truthy a then default b a else b.

Definition is_space (c : ascii) : bool :=
  let n := nat_of_ascii c in
  (n =? 32)%nat || ((9 <=? n)%nat && (n <=? 13)%nat).

Fixpoint trimStart (s : string) : string :=
  match s with
  | EmptyString => EmptyString
  | String c r => if is_space c then trimStart r else s
  end.

Fixpoint trimEnd (s : string) : string :=
  match s with
  | EmptyString => EmptyString
  | String c r =>
      match trimEnd r with
      | EmptyString => if is_space c then EmptyString else String c EmptyString
      | r' => String c r'
      end
  end.

Definition ascii_trim (s : string) : string := trimEnd (trimStart s).

Fixpoint drop (n : nat) (s : string) : string :=
  match n, s with
  | O, _ => s
  | S n', String _ r => drop n' r
  | S _, EmptyString => EmptyString
  end.

(** [s.replace(pat, rep)] with a string pattern: the first occurrence. *)
Fixpoint replace (pat rep s : string) : string :=
  if String.prefix pat s then rep +:+ drop (String.length pat) s
  else match s with
       | EmptyString => EmptyString
       | String c r => String c (replace pat rep r)
       end.

(** [s.split(' ')[0]] and [s.split(' ').slice(1).join(' ')]. *)
Fixpoint beforeSpace (s : string) : string :=
  match s with
  | EmptyString => EmptyString
  | String c r => if (nat_of_ascii c =? 32)%nat then EmptyString
                  else String c (beforeSpace r)
  end.

Fixpoint afterSpace (s : string) : string :=
  match s with
  | EmptyString => EmptyString
  | String c r => if (nat_of_ascii c =? 32)%nat then r else afterSpace r
  end.

Definition digit (d : Z) : ascii := ascii_of_nat (48 + Z.to_nat d).

Fixpoint digits (fuel : nat) (n : Z) (acc : string) : string :=
  let acc' := String (digit (n mod 10)) acc in
  match fuel with
  | O => acc'
  | S f => if n <? 10 then acc' else digits f (n / 10) acc'
  end.

(** [Number.prototype.toString] on an integer. *)
Definition toString (n : Z) : string :=
  if n <? 0 then String "-" (digits (Z.to_nat (Z.log2 (- n))) (- n) "")
  else digits (Z.to_nat (Z.log2 n)) n "".

Definition is_digit (c : ascii) : bool :=
  let n := nat_of_ascii c in (48 <=? n)%nat && (n <=? 57)%nat.

Fixpoint all_digits (s : string) : bool :=
  match s with
  | EmptyString => true
  | String c r => is_digit c && all_digits r
  end.

Fixpoint parseDigits (s : string) (acc : Z) : Z :=
  match s with
  | EmptyString => acc
  | String c r => parseDigits r (10 * acc + (Z.of_nat (nat_of_ascii c) - 48))
  end.

(** The integer a string of decimal digits denotes. *)
Definition parseInt (s : string) : option Z :=
  match s with
  | EmptyString => None
  | _ => if all_digits s then Some (parseDigits s 0) else None
  end.

End Js.

(** ** The [users] table *)

Inductive UserRole := USER | ADMIN.
Inductive UserStatus := ACTIVE | SUSPENDED | PENDING_VERIFICATION.

Module User.

Record t := mk {
  id : Z;
  email : string;
  password : string;
  name : string;
  firstName : option string;
  lastName : option string;
  phone : option string;
  role : UserRole;
  status : UserStatus;
  emailVerified : bool;
  emailVerificationToken : option string;
  resetPasswordToken : option string;
  resetPasswordExpires : option Z;
  mfaEnabled : bool;
  mfaSecret : option string;
  lastLoginAt : option Z;
  googleId : option string;
  profilePicture : option string;
  createdAt : Z;
  updatedAt : Z;
  isEmail : bool;
  isNotification : bool;
  fcmToken : option string
}.

(** The fields a [data] object of [prisma.user.update] can write. *)
Definition set_password v '(mk a b _ d e f g h i j k l m n o p q r s t u w x) :=
  mk a b v d e f g h i j k l m n o p q r s t u w x.
Definition set_status v '(mk a b c d e f g h _ j k l m n o p q r s t u w x) :=
  mk a b c d e f g h v j k l m n o p q r s t u w x.
Definition set_emailVerified v '(mk a b c d e f g h i _ k l m n o p q r s t u w x) :=
  mk a b c d e f g h i v k l m n o p q r s t u w x.
Definition set_emailVerificationToken v '(mk a b c d e f g h i j _ l m n o p q r s t u w x) :=
  mk a b c d e f g h i j v l m n o p q r s t u w x.
Definition set_resetPasswordToken v '(mk a b c d e f g h i j k _ m n o p q r s t u w x) :=
  mk a b c d e f g h i j k v m n o p q r s t u w x.
Definition set_resetPasswordExpires v '(mk a b c d e f g h i j k l _ n o p q r s t u w x) :=
  mk a b c d e f g h i j k l v n o p q r s t u w x.
Definition set_lastLoginAt v '(mk a b c d e f g h i j k l m n o _ q r s t u w x) :=
  mk a b c d e f g h i j k l m n o v q r s t u w x.
Definition set_googleId v '(mk a b c d e f g h i j k l m n o p _ r s t u w x) :=
  mk a b c d e f g h i j k l m n o p v r s t u w x.
Definition set_profilePicture v '(mk a b c d e f g h i j k l m n o p q _ s t u w x) :=
  mk a b c d e f g h i j k l m n o p q v s t u w x.
Definition set_updatedAt v '(mk a b c d e f g h i j k l m n o p q r s _ u w x) :=
  mk a b c d e f g h i j k l m n o p q r s v u w x.
Definition set_fcmToken v '(mk a b c d e f g h i j k l m n o p q r s t u w _) :=
  mk a b c d e f g h i j k l m n o p q r s t u w v.

(** An update that leaves the unique columns of the row alone. *)
Record keeps_identity (f : t -> t) : Prop := {
  keeps_id : forall u, id (f u) = id u;
  keeps_email : forall u, email (f u) = email u
}.

End User.

(** ** Values, exceptions and the world the service runs in *)

(** Object literals returned to the HTTP layer. *)
Inductive JsValue :=
| JNull
| JBool (b : bool)
| JNum (n : Z)
| JStr (s : string)
| JObj (fields : list (string * JsValue)).

Definition JOptStr (s : option string) : JsValue :=
  match s with Some v => JStr v | None => JNull end.

Definition JRole (r : UserRole) : JsValue :=
  JStr (match r with USER => "USER" | ADMIN => "ADMIN" end).

Definition keys (v : JsValue) : list string :=
  match v with JObj fs => map fst fs | _ => [] end.

Fixpoint assoc (k : string) (fs : list (string * JsValue)) : option JsValue :=
  match fs with
  | [] => None
  | (k', v) :: r => if String.eqb k k' then Some v else assoc k r
  end.

Definition field (k : string) (v : JsValue) : option JsValue :=
  match v with JObj fs => assoc k fs | _ => None end.

(** The [{ status, message }] envelope. *)
Definition envelope (st msg : string) : JsValue :=
  JObj [("status", JStr st); ("message", JStr msg)].

Inductive Exception :=
| UnauthorizedException (msg : string)
| ConflictException (msg : string)
| BadRequestException (msg : string)
| NotFoundException (msg : string)
| JsonWebTokenError (msg : string)
| TokenExpiredError
| PrismaClientError (code : string)
| Error (msg : string).

Inductive Result (A : Type) :=
| Ok (a : A)
| Throw (e : Exception).
Arguments Ok {A} a.
Arguments Throw {A} e.

(** The messages [MailService] builds: the template and what is filled in. *)
Inductive Mail :=
| OTPEmail (to name otp : string)
| EmailVerificationOTP (to otp firstName : string)
| WelcomeEmail (to name : string).

(** An entry of the cache of [RedisService]: the value and the time it
    expires at, in milliseconds; [None] is [Infinity]. *)
Record RedisEntry := { value : string; expiresAt : option Z }.

Record World := {
  users : list User.t;
  nextId : Z;
  redis : gmap string RedisEntry;
  outbox : list Mail
}.

Definition with_users (us : list User.t) (w : World) : World :=
  {| users := us; nextId := nextId w; redis := redis w; outbox := outbox w |}.

Definition M (A : Type) : Type := World -> Result A * World.

Definition ret {A} (a : A) : M A := fun w => (Ok a, w).
Definition throw {A} (e : Exception) : M A := fun w => (Throw e, w).
Definition bind {A B} (m : M A) (k : A -> M B) : M B :=
  fun w => match m w with
           | (Ok a, w') => k a w'
           | (Throw e, w') => (Throw e, w')
           end.
(** [try { m } catch (error) { h error }] *)
Definition try_catch {A} (m : M A) (h : Exception -> M A) : M A :=
  fun w => match m w with
           | (Ok a, w') => (Ok a, w')
           | (Throw e, w') => h e w'
           end.

Notation "'let!' x ':=' m 'in' k" := (bind m (fun x => k))
  (at level 10, x pattern, m at level 100, k at level 200).
Notation "m ';;;' k" := (bind m (fun _ => k))
  (at level 100, k at level 200, right associativity).

(** ** The store: [prisma.user]

    The table is the one of the migrations: [id] is its primary key, taken
    from a sequence, and [email] and [googleId] each carry a unique index
    ([users_email_key], [users_googleId_key]); rows without a [googleId] do
    not clash with each other. *)

Module Prisma.

Definition byEmail (e : string) (u : User.t) : bool := String.eqb (User.email u) e.
Definition byId (i : Z) (u : User.t) : bool := User.id u =? i.
Definition byGoogleId (g : string) (u : User.t) : bool :=
  bool_decide (User.googleId u = Some g).

Definition findUnique (p : User.t -> bool) : M (option User.t) :=
  fun w => (Ok (find p (users w)), w).

Definition patch (i : Z) (f : User.t -> User.t) (u : User.t) : User.t :=
  if byId i u then f u else u.

(** The unique indexes on an update of row [i] from [old] to [new]: a column
    the update changes must not take a value another row holds. *)
Definition clash (i : Z) (old new : User.t) (rows : list User.t) : bool :=
  (negb (String.eqb (User.email new) (User.email old))
   && existsb (fun v => negb (byId i v) && byEmail (User.email new) v) rows)
  || match User.googleId new with
     | Some g => negb (bool_decide (User.googleId old = Some g))
                 && existsb (fun v => negb (byId i v) && byGoogleId g v) rows
     | None => false
     end.

(** The write of an update: the row must exist, and the unique indexes must
    allow its new content. *)
Definition write (i : Z) (f : User.t -> User.t) : M User.t :=
  fun w => match find (byId i) (users w) with
           | None => (Throw (PrismaClientError "P2025"), w)
           | Some u =>
               if clash i u (f u) (users w)
               then (Throw (PrismaClientError "P2002"), w)
               else (Ok (f u), with_users (map (patch i f) (users w)) w)
           end.

(** [update({ where: { id }, data })].  The column [updatedAt] is [NOT NULL]
    without a default in the migration and no [create] of the sources names
    it: it is the [@updatedAt] field of the model, which the client sets to
    the time of every update before the fields of [data] are written. *)
Definition update (now : Z) (i : Z) (data : User.t -> User.t) : M User.t :=
  write i (fun u => data (User.set_updatedAt now u)).

(** The unique indexes on a new row. *)
Definition taken (u : User.t) (rows : list User.t) : bool :=
  match find (byEmail (User.email u)) rows with
  | Some _ => true
  | None => match User.googleId u with
            | Some g => existsb (byGoogleId g) rows
            | None => false
            end
  end.

(** [create({ data })]: the id comes from the sequence of the table, which
    moves on even when a unique index rejects the row; [data] gives the
    defaults of the columns it does not name. *)
Definition create (data : Z -> User.t) : M User.t :=
  fun w => let u := data (nextId w) in
           if taken u (users w)
           then (Throw (PrismaClientError "P2002"),
                 {| users := users w; nextId := nextId w + 1;
                    redis := redis w; outbox := outbox w |})
           else (Ok u, {| users := users w ++ [u]; nextId := nextId w + 1;
                          redis := redis w; outbox := outbox w |}).

End Prisma.

(** ** The collaborators *)

(** nodemailer: [transporter.sendMail(mailOptions)] at the time [now], for
    the given attempt at the message.  [None] when the server takes the
    message, the message of the error the promise rejects with otherwise. *)
Class Transporter := {
  transporter_sendMail : Z -> Mail -> nat -> option string
}.

(** The outbox lists the messages handed to the transporter, each once,
    whether or not the server took it. *)
Definition submit (m : Mail) : M unit :=
  fun w => (Ok tt, {| users := users w; nextId := nextId w; redis := redis w;
                      outbox := outbox w ++ [m] |}).

Module MailService.
Section Service.

Context {smtp : Transporter}.

(** The loop of [sendMail]: [left] attempts remain, the next is number
    [attempt]; a failed attempt is retried, the last one gives [false]. *)
Fixpoint attempts (left attempt : nat) (now : Z) (m : Mail) : bool :=
  match left with
  | O => false
  | S left' =>
      match transporter_sendMail now m attempt with
      | None => true
      | Some _ => attempts left' (S attempt) now m
      end
  end.

(** [sendMail(options)]: up to [maxRetries = 3] attempts, never an
    exception. *)
Definition sendMail (now : Z) (m : Mail) : M bool :=
  submit m ;;; ret (attempts 3 1 now m).

(** [sendEmailVerificationOTP(email, otp, firstName?)]: the greeting names
    [firstName || '']. *)
Definition sendEmailVerificationOTP (now : Z) (email otp : string)
  (firstName : option string) : M bool :=
  try_catch
    (sendMail now (EmailVerificationOTP email otp (Js.or_else firstName "")) ;;; ret true)
    (fun error => ret false).

Definition sendWelcomeEmail (now : Z) (email firstName : string) : M bool :=
  sendMail now (WelcomeEmail email firstName).

(** [sendOTPEmail(to, name, otp)]: one attempt, and no handler around it. *)
Definition sendOTPEmail (now : Z) (to name otp : string) : M unit :=
  let mailOptions := OTPEmail to name otp in
  submit mailOptions ;;;
  match transporter_sendMail now mailOptions 1 with
  | None => ret tt
  | Some msg => throw (Error msg)
  end.

End Service.
End MailService.

Module RedisService.

(** [entry.expiresAt < now] *)
Definition stale (now : Z) (entry : RedisEntry) : bool :=
  match expiresAt entry with
  | Some t => t <? now
  | None => false
  end.

Definition cleanupExpired (now : Z) (cache : gmap string RedisEntry)
  : gmap string RedisEntry :=
  filter (fun kv => stale now (snd kv) = false) cache.

(** [set(key, value, ttlSeconds)]: without a TTL, or with the TTL 0, the entry
    never expires; the entries that have expired are then removed. *)
Definition set (key val : string) (ttlSeconds : option Z) (now : Z) : M unit :=
  fun w =>
    let expiresAt :=
      match ttlSeconds with
      | Some s => if s =? 0 then None else Some (now + s * 1000)
      | None => None
      end in
    (Ok tt, {| users := users w; nextId := nextId w;
               redis := cleanupExpired now
                          (<[key := {| value := val; expiresAt := expiresAt |}]> (redis w));
               outbox := outbox w |}).


End RedisService.

(** The environment read through [ConfigService.get]. *)
Record Config := {
  JWT_EXPIRATION : option Z;
  JWT_EXPIRES_IN : option string;
  JWT_REFRESH_SECRET : option string;
  JWT_REFRESH_EXPIRES_IN : option string
}.

(** [configService.get(key, defaultValue)] *)
Definition config_get {A} (v : option A) (d : A) : A := default d v.

Record JwtPayload := { sub : Z; jwt_email : string; jwt_role : UserRole }.

(** What [jwtService.verify] hands back: [Number(payload.sub)] ([None] when
    it is not a number) and the [exp] claim, in seconds. *)
Record Verified := { sub_number : option Z; exp : Z }.

(** bcrypt and the JWT service.  [jwt_sign payload secret expiresIn now]
    signs with the secret of the module when [secret] is [None];
    [jwt_exp] reads the expiry claim of a token, in seconds since the epoch. *)
Class Crypto := {
  bcrypt_hash : string -> Z -> Z -> string;
  bcrypt_compare : string -> string -> bool;
  jwt_sign : JwtPayload -> option string -> string -> Z -> string;
  jwt_verify : string -> option string -> Z -> Result Verified;
  jwt_exp : string -> option Z
}.

(** ** Request bodies

    Of the classes of [dto/] only some are in the sources; the others have the
    fields the service reads. *)

Record LoginDto := {
  login_email : string; login_password : string; login_fcmToken : option string
}.

Record RegisterDto := {
  reg_email : string; reg_password : string;
  reg_firstName : string; reg_lastName : string; reg_phone : option string
}.

Record ChangePasswordDto := { currentPassword : string; cp_newPassword : string }.

Record ForgotPasswordDto := { forgot_email : string }.

Record ResetPasswordDto := {
  reset_email : string; reset_otp : string;
  newPassword : string; confirmPassword : string
}.

Record GoogleUserData := {
  g_email : string; g_name : string;
  g_googleId : string; g_profilePicture : option string;
  g_role : UserRole; g_emailVerified : bool
}.

(** [@Length(min, max)] of class-validator, as on [ResetPasswordDto.otp]. *)
Definition Length (min max : nat) (s : string) : bool :=
  (min <=? String.length s)%nat && (String.length s <=? max)%nat.

(** ** One-time codes *)

(** [crypto.randomInt(min, max)]: the draw [rnd] of the CSPRNG reduced to the
    range, [min] included and [max] excluded. *)
Definition randomInt (rnd min max : Z) : Z := min + rnd mod (max - min).

(** [generateOTP] *)
Definition generateOTP (rnd : Z) : string := Js.toString (randomInt rnd 1000 9999).

(** ** [AuthService] *)

Module Tokens.
Record t := { accessToken : string; refreshToken : string }.
End Tokens.

Definition lift {A} (r : Result A) : M A := fun w => (r, w).

Definition minutes (n : Z) : Z := n * 60 * 1000.

Module AuthService.
Section Service.

Context {crypto : Crypto} {js : Js.Strings} {smtp : Transporter} (cfg : Config).

Definition comparePasswords (plainText hashed : string) : bool :=
  bcrypt_compare plainText hashed.

Definition generateTokens (now : Z) (user : User.t) : M Tokens.t :=
  let payload := {| sub := User.id user; jwt_email := User.email user;
                    jwt_role := User.role user |} in
  let access := jwt_sign payload None (config_get (JWT_EXPIRES_IN cfg) "15m") now in
  let refreshSecret := JWT_REFRESH_SECRET cfg in
  if negb (Js.truthy refreshSecret)
  then throw (Error "JWT_REFRESH_SECRET is not configured")
  else
    let refresh := jwt_sign payload refreshSecret
                     (config_get (JWT_REFRESH_EXPIRES_IN cfg) "7d") now in
    ret {| Tokens.accessToken := access; Tokens.refreshToken := refresh |}.

Definition validateUser (email password : string) : M (option User.t) :=
  let! user := Prisma.findUnique (Prisma.byEmail (Js.toLowerCase email)) in
  match user with
  | Some u => ret (if bcrypt_compare password (User.password u) then Some u else None)
  | None => ret None
  end.

(** The [user] object of the login response. *)
Definition login_user (user : User.t) : JsValue :=
  JObj [("id", JNum (User.id user));
        ("email", JStr (User.email user));
        ("firstname", JOptStr (User.firstName user));
        ("lastname", JOptStr (User.lastName user));
        ("role", JRole (User.role user));
        ("emailVerified", JBool (User.emailVerified user));
        ("mfaEnabled", JBool (User.mfaEnabled user));
        ("isEmail", JBool (User.isEmail user));
        ("isNotification", JBool (User.isNotification user));
        ("profilePicture", JOptStr (User.profilePicture user))].

Definition login (now rnd : Z) (loginDto : LoginDto) : M JsValue :=
  let email := login_email loginDto in
  let password := login_password loginDto in
  let fcmToken := login_fcmToken loginDto in
  let! found := Prisma.findUnique (Prisma.byEmail email) in
  match found with
  | None => throw (UnauthorizedException "No account found with this email.")
  | Some user =>
    if negb (User.emailVerified user)
    then throw (UnauthorizedException
                  "Email not verified. Please check your email for verification OTP.")
    else
      let isPasswordValid := comparePasswords password (User.password user) in
      if negb isPasswordValid
      then throw (UnauthorizedException "Incorrect password.")
      else
        (if Js.truthy fcmToken
         then Prisma.update now (User.id user) (User.set_fcmToken fcmToken) ;;; ret tt
         else ret tt) ;;;
        if User.mfaEnabled user
        then
          let otp := generateOTP rnd in
          Prisma.update now (User.id user)
            (fun u => User.set_resetPasswordExpires (Some (now + minutes 5))
                        (User.set_resetPasswordToken (Some otp) u)) ;;;
          MailService.sendOTPEmail now (User.email user) (User.name user) otp ;;;
          ret (JObj [("message", JStr "OTP sent to your email for verification.");
                     ("mfaRequired", JBool true);
                     ("email", JStr (User.email user))])
        else
          Prisma.update now (User.id user) (User.set_lastLoginAt (Some now)) ;;;
          let! tokens := generateTokens now user in
          ret (JObj [("status", JStr "success");
                     ("message", JStr "Successfully logged in.");
                     ("user", login_user user);
                     ("accessToken", JStr (Tokens.accessToken tokens));
                     ("refreshToken", JStr (Tokens.refreshToken tokens))])
  end.

Definition sendOtp (now rnd : Z) (email : string) : M JsValue :=
  let! found := Prisma.findUnique (Prisma.byEmail email) in
  match found with
  | None => throw (BadRequestException "User not found.")
  | Some user =>
    let otp := generateOTP rnd in
    Prisma.update now (User.id user)
      (fun u => User.set_resetPasswordExpires (Some (now + minutes 5))
                  (User.set_resetPasswordToken (Some otp) u)) ;;;
    MailService.sendOTPEmail now (User.email user) (User.name user) otp ;;;
    ret (envelope "success" "OTP sent successfully.")
  end.

(** [!stored || stored !== otp] *)
Definition mismatch (stored : option string) (otp : string) : bool :=
  negb (Js.truthy stored) || negb (bool_decide (stored = Some otp)).

(** [expires && expires < new Date()] *)
Definition expired (expires : option Z) (now : Z) : bool :=
  match expires with
  | Some t => t <? now
  | None => false
  end.

Definition verifyOtp_user (user : User.t) : JsValue :=
  JObj [("id", JNum (User.id user));
        ("email", JStr (User.email user));
        ("role", JRole (User.role user));
        ("emailVerified", JBool (User.emailVerified user));
        ("mfaEnabled", JBool (User.mfaEnabled user));
        ("isEmail", JBool (User.isEmail user));
        ("isNotification", JBool (User.isNotification user))].

Definition verifyOtp (now : Z) (email otp : string) : M JsValue :=
  let! found := Prisma.findUnique (Prisma.byEmail email) in
  match found with
  | None => throw (BadRequestException "User not found.")
  | Some user =>
    if mismatch (User.resetPasswordToken user) otp
    then throw (UnauthorizedException "Invalid or expired OTP.")
    else if expired (User.resetPasswordExpires user) now
    then throw (UnauthorizedException "OTP expired.")
    else
      Prisma.update now (User.id user)
        (fun u => User.set_lastLoginAt (Some now)
                    (User.set_resetPasswordExpires None
                       (User.set_resetPasswordToken None u))) ;;;
      let! tokens := generateTokens now user in
      ret (JObj [("status", JStr "success");
                 ("message", JStr "OTP verified successfully.");
                 ("user", verifyOtp_user user);
                 ("accessToken", JStr (Tokens.accessToken tokens));
                 ("refreshToken", JStr (Tokens.refreshToken tokens))])
  end.

Definition register (now rnd salt : Z) (registerDto : RegisterDto) : M JsValue :=
  let! existingUser :=
    Prisma.findUnique (Prisma.byEmail (Js.toLowerCase (reg_email registerDto))) in
  match existingUser with
  | Some _ => throw (ConflictException "User with this email already exists")
  | None =>
    let hashedPassword := bcrypt_hash (reg_password registerDto) 12 salt in
    let otp := generateOTP rnd in
    let! user := Prisma.create (fun i =>
      {| User.id := i;
         User.email := Js.toLowerCase (reg_email registerDto);
         User.password := hashedPassword;
         User.name := Js.trim (reg_firstName registerDto +:+ " " +:+ reg_lastName registerDto);
         User.firstName := Some (reg_firstName registerDto);
         User.lastName := Some (reg_lastName registerDto);
         User.phone := reg_phone registerDto;
         User.role := USER;
         User.status := PENDING_VERIFICATION;
         User.emailVerified := false;
         User.emailVerificationToken := Some otp;
         User.resetPasswordToken := None;
         User.resetPasswordExpires := Some (now + minutes 10);
         User.mfaEnabled := false;
         User.mfaSecret := None;
         User.lastLoginAt := None;
         User.googleId := None;
         User.profilePicture := None;
         User.createdAt := now;
         User.updatedAt := now;
         User.isEmail := true;
         User.isNotification := true;
         User.fcmToken := None |}) in
    (if User.isEmail user
     then MailService.sendEmailVerificationOTP now (User.email user) otp
            (Some (reg_firstName registerDto)) ;;; ret tt
     else ret tt) ;;;
    ret (JObj [("status", JStr "success");
               ("message", JStr "Registration successful. Please check your email for verification OTP.");
               ("userId", JNum (User.id user))])
  end.

Definition verifyEmail (now : Z) (email otp : string) : M JsValue :=
  let! found := Prisma.findUnique (Prisma.byEmail (Js.toLowerCase email)) in
  match found with
  | None => throw (BadRequestException "User not found")
  | Some user =>
    if User.emailVerified user
    then ret (envelope "success" "Email already verified")
    else if mismatch (User.emailVerificationToken user) otp
    then throw (BadRequestException "Invalid OTP")
    else if expired (User.resetPasswordExpires user) now
    then throw (BadRequestException "OTP expired. Please request a new one.")
    else
      Prisma.update now (User.id user)
        (fun u => User.set_updatedAt now
                    (User.set_resetPasswordExpires None
                       (User.set_emailVerificationToken None
                          (User.set_status ACTIVE
                             (User.set_emailVerified true u))))) ;;;
      MailService.sendWelcomeEmail now (User.email user)
        (Js.or_else (User.firstName user) (User.name user)) ;;;
      ret (envelope "success" "Email verified successfully")
  end.

Definition resendEmailVerificationOTP (now rnd : Z) (email : string) : M JsValue :=
  let! found := Prisma.findUnique (Prisma.byEmail (Js.toLowerCase email)) in
  match found with
  | None => throw (BadRequestException "User not found")
  | Some user =>
    if User.emailVerified user
    then ret (envelope "success" "Email already verified")
    else
      let otp := generateOTP rnd in
      Prisma.update now (User.id user)
        (fun u => User.set_resetPasswordExpires (Some (now + minutes 10))
                    (User.set_emailVerificationToken (Some otp) u)) ;;;
      MailService.sendEmailVerificationOTP now (User.email user) otp
        (Some (Js.or_else (User.firstName user) (User.name user))) ;;;
      ret (envelope "success" "Verification OTP sent successfully.")
  end.

Definition changePassword (now salt : Z) (userId : Z) (dto : ChangePasswordDto)
  : M JsValue :=
  let! found := Prisma.findUnique (Prisma.byId userId) in
  match found with
  | None => throw (UnauthorizedException "User not found")
  | Some user =>
    let isCurrentPasswordValid := bcrypt_compare (currentPassword dto) (User.password user) in
    if negb isCurrentPasswordValid
    then throw (UnauthorizedException "Current password is incorrect")
    else
      let hashedNewPassword := bcrypt_hash (cp_newPassword dto) 12 salt in
      Prisma.update now userId
        (fun u => User.set_updatedAt now (User.set_password hashedNewPassword u)) ;;;
      ret (envelope "success" "Password changed successfully")
  end.

Definition forgotPassword (now rnd : Z) (dto : ForgotPasswordDto) : M JsValue :=
  let! found := Prisma.findUnique (Prisma.byEmail (Js.toLowerCase (forgot_email dto))) in
  match found with
  | None =>
    ret (envelope "success"
           "If an account with this email exists, a password reset OTP has been sent.")
  | Some user =>
    let otp := generateOTP rnd in
    Prisma.update now (User.id user)
      (fun u => User.set_resetPasswordExpires (Some (now + minutes 10))
                  (User.set_resetPasswordToken (Some otp) u)) ;;;
    (if User.isEmail user
     then MailService.sendEmailVerificationOTP now (User.email user) otp
            (Some (Js.or_else (User.firstName user) (User.name user))) ;;; ret tt
     else ret tt) ;;;
    ret (envelope "success"
           "If an account with this email exists, a password reset OTP has been sent.")
  end.

Definition resetPassword (now salt : Z) (dto : ResetPasswordDto) : M JsValue :=
  if negb (String.eqb (newPassword dto) (confirmPassword dto))
  then throw (BadRequestException "Passwords do not match")
  else
    let! found := Prisma.findUnique (Prisma.byEmail (Js.toLowerCase (reset_email dto))) in
    match found with
    | None => throw (BadRequestException "User not found")
    | Some user =>
      if mismatch (User.resetPasswordToken user) (reset_otp dto)
      then throw (BadRequestException "Invalid OTP")
      else if expired (User.resetPasswordExpires user) now
      then throw (BadRequestException "OTP expired. Please request a new one.")
      else
        let hashedPassword := bcrypt_hash (newPassword dto) 12 salt in
        Prisma.update now (User.id user)
          (fun u => User.set_updatedAt now
                      (User.set_resetPasswordExpires None
                         (User.set_resetPasswordToken None
                            (User.set_password hashedPassword u)))) ;;;
        ret (envelope "success" "Password reset successfully")
    end.

(** The [try] block ends in [return this.generateTokens(user)]: the promise
    is returned, not awaited, so what [generateTokens] throws is not caught. *)
Definition refreshToken (now : Z) (token : string) : M Tokens.t :=
  let! user :=
    try_catch
      (let! payload := lift (jwt_verify token (JWT_REFRESH_SECRET cfg) now) in
       let! found :=
         match sub_number payload with
         | Some i => Prisma.findUnique (Prisma.byId i)
         | None => throw (PrismaClientError "PrismaClientValidationError")
         end in
       match found with
       | None => throw (UnauthorizedException "User not found")
       | Some user =>
         Prisma.update now (User.id user) (User.set_lastLoginAt (Some now)) ;;;
         ret user
       end)
      (fun error => throw (UnauthorizedException "Invalid refresh token")) in
  generateTokens now user.

Definition logout (now : Z) (userId : Z) (token : string) : M JsValue :=
  let ttl := config_get (JWT_EXPIRATION cfg) 3600 in
  RedisService.set ("blacklist:" +:+ token) "true" (Some ttl) now ;;;
  ret (envelope "success" "Logged out successfully").


Definition findUserById (id : Z) : M (option User.t) :=
  Prisma.findUnique (Prisma.byId id).

Definition updateGoogleId (now : Z) (userId : Z) (googleId : string)
  (picture : option string) : M User.t :=
  Prisma.update now userId
    (fun u => match picture with
              | Some p => User.set_profilePicture (Some p) (User.set_googleId (Some googleId) u)
              | None => User.set_googleId (Some googleId) u
              end).

Definition createGoogleUser (now : Z) (userData : GoogleUserData) : M User.t :=
  Prisma.create (fun i =>
    {| User.id := i;
       User.email := g_email userData;
       User.password := "";
       User.name := g_name userData;
       User.firstName := Some (Js.beforeSpace (g_name userData));
       User.lastName := Some (Js.afterSpace (g_name userData));
       User.phone := None;
       User.role := g_role userData;
       User.status := ACTIVE;
       User.emailVerified := g_emailVerified userData;
       User.emailVerificationToken := None;
       User.resetPasswordToken := None;
       User.resetPasswordExpires := None;
       User.mfaEnabled := false;
       User.mfaSecret := None;
       User.lastLoginAt := None;
       User.googleId := Some (g_googleId userData);
       User.profilePicture := g_profilePicture userData;
       User.createdAt := now;
       User.updatedAt := now;
       User.isEmail := true;
       User.isNotification := true;
       User.fcmToken := None |}).

Definition findUserByEmail (email : string) : M (option User.t) :=
  Prisma.findUnique (Prisma.byEmail email).

End Service.
End AuthService.

(** ** [AuthController.logout] *)

Module AuthController.
Section Controller.

Variable cfg : Config.

(** [authorization] is the header of the request, when it is there. *)
Definition logout (now : Z) (userId : Z) (authorization : option string) : M JsValue :=
  let token := option_map (Js.replace "Bearer " "") authorization in
  if negb (Js.truthy token)
  then throw (UnauthorizedException "Token not found")
  else AuthService.logout cfg now userId (default "" token).

End Controller.
End AuthController.

(** ** A concrete instance of the collaborators

    Tokens are [exp.sub.secret] in clear, a hash is [salt$plaintext]: enough
    to run the service on examples. *)

Module Demo.

Fixpoint before (c : ascii) (s : string) : string :=
  match s with
  | EmptyString => EmptyString
  | String d r => if Ascii.eqb c d then EmptyString else String d (before c r)
  end.

Fixpoint after (c : ascii) (s : string) : option string :=
  match s with
  | EmptyString => None
  | String d r => if Ascii.eqb c d then Some r else after c r
  end.

Definition seconds (expiresIn : string) : Z :=
  if String.eqb expiresIn "15m" then 900
  else if String.eqb expiresIn "7d" then 604800
  else 3600.

Definition secret_of (secret : option string) : string := default "JWT_SECRET" secret.

Definition sign (p : JwtPayload) (secret : option string) (expiresIn : string) (now : Z)
  : string :=
  Js.toString (now / 1000 + seconds expiresIn) +:+ "." +:+ Js.toString (sub p)
    +:+ "." +:+ secret_of secret.

Definition claims (token : string) : option (Z * Z * string) :=
  e ← Js.parseInt (before "." token);
  r ← after "." token;
  s ← Js.parseInt (before "." r);
  k ← after "." r;
  Some (e, s, k).

Definition verify (token : string) (secret : option string) (now : Z) : Result Verified :=
  match claims token with
  | None => Throw (JsonWebTokenError "jwt malformed")
  | Some (e, s, k) =>
      if negb (String.eqb k (secret_of secret))
      then Throw (JsonWebTokenError "invalid signature")
      else if e <=? now / 1000 then Throw TokenExpiredError
      else Ok {| sub_number := Some s; exp := e |}
  end.

#[global] Instance crypto : Crypto := {|
  bcrypt_hash plain rounds salt := Js.toString salt +:+ "$" +:+ plain;
  bcrypt_compare plain hashed := bool_decide (after "$" hashed = Some plain);
  jwt_sign := sign;
  jwt_verify := verify;
  jwt_exp token := fst <$> (fst <$> claims token)
|}.

(** The addresses and names of the examples are ASCII. *)
#[global] Instance strings : Js.Strings := {|
  Js.toLowerCase := Js.ascii_toLowerCase;
  Js.trim := Js.ascii_trim
|}.

(** A server that takes every message. *)
#[global] Instance smtp : Transporter := {|
  transporter_sendMail now m attempt := None
|}.

Definition cfg : Config := {|
  JWT_EXPIRATION := None;
  JWT_EXPIRES_IN := None;
  JWT_REFRESH_SECRET := Some "refresh";
  JWT_REFRESH_EXPIRES_IN := None
|}.

Definition empty : World :=
  {| users := []; nextId := 1; redis := ∅; outbox := [] |}.

Definition alice : RegisterDto := {|
  reg_email := "Alice@Example.com"; reg_password := "Passw0rd!";
  reg_firstName := "Alice"; reg_lastName := "Liddell"; reg_phone := None
|}.

Definition alice_login : LoginDto := {|
  login_email := "alice@example.com"; login_password := "Passw0rd!";
  login_fcmToken := None
|}.

(** Alice has registered at time 0; her code is 1234. *)
Definition registered : World := snd (AuthService.register 0 234 7 alice empty).

Definition alice_pending : User.t :=
  User.mk 1 "alice@example.com" "7$Passw0rd!" "Alice Liddell"
    (Some "Alice") (Some "Liddell") None USER PENDING_VERIFICATION false
    (Some "1234") None (Some 600000) false None None None None 0 0 true true None.

Definition alice_active : User.t :=
  User.mk 1 "alice@example.com" "7$Passw0rd!" "Alice Liddell"
    (Some "Alice") (Some "Liddell") None USER ACTIVE true
    None None None false None None None None 0 1000 true true None.

(** She has verified her address one second later. *)
Definition verified : World :=
  snd (AuthService.verifyEmail 1000 "alice@example.com" "1234" registered).

(** She has asked for a login code, 5678. *)
Definition awaiting : World :=
  snd (AuthService.sendOtp 2000 4678 "alice@example.com" verified).

(** Instead of verifying, she asked for a password reset: code 5678. *)
Definition resetting : World :=
  snd (AuthService.forgotPassword 1000 4678 {| forgot_email := "alice@example.com" |}
         registered).

Definition alice_reset : ResetPasswordDto := {|
  reset_email := "alice@example.com"; reset_otp := "5678";
  newPassword := "Secret123"; confirmPassword := "Secret123"
|}.

(** After the reset request she verified her address after all: the reset
    code stays, the shared expiry is gone. *)
Definition lingering : World :=
  snd (AuthService.verifyEmail 2000 "alice@example.com" "1234" resetting).

(** Or she reset her password first: the registration code stays, the shared
    expiry is gone. *)
Definition stale : World := snd (AuthService.resetPassword 2000 9 alice_reset resetting).

End Demo.

(** ** Notions the properties are stated with *)

(** The rows the updates of the service leave; each is stamped with the time
    of the update first. *)

(** The row after the update of a successful [verifyOtp]. *)
Definition consumed (now : Z) (u : User.t) : User.t :=
  User.set_lastLoginAt (Some now)
    (User.set_resetPasswordExpires None
       (User.set_resetPasswordToken None (User.set_updatedAt now u))).

(** The row after [login] has stored the FCM token of the request, when it
    carries one. *)
Definition registered_device (now : Z) (fcm : option string) (u : User.t) : User.t :=
  if Js.truthy fcm then User.set_fcmToken fcm (User.set_updatedAt now u) else u.

(** The row after [login] (second factor), [sendOtp] or [forgotPassword] has
    stored the code [otp]. *)
Definition challenged (now : Z) (fcm : option string) (otp : string) (expires : Z)
  (u : User.t) : User.t :=
  User.set_resetPasswordExpires (Some expires)
    (User.set_resetPasswordToken (Some otp)
       (User.set_updatedAt now (registered_device now fcm u))).

(** The row after [login] without a second factor. *)
Definition logged_in (now : Z) (fcm : option string) (u : User.t) : User.t :=
  User.set_lastLoginAt (Some now) (User.set_updatedAt now (registered_device now fcm u)).

(** The row after the update of a successful [verifyEmail]. *)
Definition activated (now : Z) (u : User.t) : User.t :=
  User.set_updatedAt now
    (User.set_resetPasswordExpires None
       (User.set_emailVerificationToken None
          (User.set_status ACTIVE
             (User.set_emailVerified true (User.set_updatedAt now u))))).

Definition reset_message : string :=
  "If an account with this email exists, a password reset OTP has been sent.".




(** A well-formed code: four decimal digits that read as [n]. *)
Definition four_digits (s : string) (n : Z) : bool :=
  (String.length s =? 4)%nat && Js.all_digits s
  && bool_decide (Js.parseInt s = Some n) && Length 4 4 s.

(** The calls a client can make, with the clock and the random draws each one
    reads. *)
Inductive Call :=
| Login (now rnd : Z) (dto : LoginDto)
| SendOtp (now rnd : Z) (email : string)
| VerifyOtp (now : Z) (email otp : string)
| Register (now rnd salt : Z) (dto : RegisterDto)
| VerifyEmail (now : Z) (email otp : string)
| ResendEmailVerificationOTP (now rnd : Z) (email : string)
| ChangePassword (now salt userId : Z) (dto : ChangePasswordDto)
| ForgotPassword (now rnd : Z) (dto : ForgotPasswordDto)
| ResetPassword (now salt : Z) (dto : ResetPasswordDto)
| RefreshToken (now : Z) (token : string)
| Logout (now userId : Z) (authorization : option string)
| UpdateGoogleId (now userId : Z) (googleId : string) (picture : option string)
| CreateGoogleUser (now : Z) (userData : GoogleUserData).

(** The outcome of a computation, its value dropped. *)
Definition outcome {A} (m : M A) : M unit := bind m (fun _ => ret tt).

Section Run.

Context {crypto : Crypto} {js : Js.Strings} {smtp : Transporter} (cfg : Config).

Definition run (c : Call) : M unit :=
  match c with
  | Login now rnd dto => outcome (AuthService.login cfg now rnd dto)
  | SendOtp now rnd email => outcome (AuthService.sendOtp now rnd email)
  | VerifyOtp now email otp => outcome (AuthService.verifyOtp cfg now email otp)
  | Register now rnd salt dto => outcome (AuthService.register now rnd salt dto)
  | VerifyEmail now email otp => outcome (AuthService.verifyEmail now email otp)
  | ResendEmailVerificationOTP now rnd email =>
      outcome (AuthService.resendEmailVerificationOTP now rnd email)
  | ChangePassword now salt userId dto =>
      outcome (AuthService.changePassword now salt userId dto)
  | ForgotPassword now rnd dto => outcome (AuthService.forgotPassword now rnd dto)
  | ResetPassword now salt dto => outcome (AuthService.resetPassword now salt dto)
  | RefreshToken now token => outcome (AuthService.refreshToken cfg now token)
  | Logout now userId authorization =>
      outcome (AuthController.logout cfg now userId authorization)
  | UpdateGoogleId now userId googleId picture =>
      outcome (AuthService.updateGoogleId now userId googleId picture)
  | CreateGoogleUser now userData => outcome (AuthService.createGoogleUser now userData)
  end.

(** A sequence of calls, one after the other, with the outcome of each. *)
Fixpoint run_all (cs : list Call) (w : World) : list (Result unit) * World :=
  match cs with
  | [] => ([], w)
  | c :: cs' =>
      let (r, w1) := run c w in
      let (rs, w2) := run_all cs' w1 in
      (r :: rs, w2)
  end.

End Run.

(** [c] is a call of [verifyEmail] for the address [e] that returned
    normally. *)
Definition verifies {js : Js.Strings} (e : string) (cr : Call * Result unit) : Prop :=
  exists now email otp,
    fst cr = VerifyEmail now email otp /\ Js.toLowerCase email = e /\ snd cr = Ok tt.

(** The primary key: ids are distinct and below the next value of the
    sequence. *)
Definition wf (w : World) : Prop :=
  NoDup (map User.id (users w)) /\ Forall (fun u => User.id u < nextId w) (users w).

Definition pending (u : User.t) : Prop :=
  User.status u = PENDING_VERIFICATION /\ User.emailVerified u = false.

(** From [w] to [w']: the key is kept, and every row an address finds is still
    found by it, with the verification state it had. *)
Definition evolves (w w' : World) : Prop :=
  (wf w -> wf w') /\
  forall e u, find (Prisma.byEmail e) (users w) = Some u ->
    exists u', find (Prisma.byEmail e) (users w') = Some u'
               /\ User.id u' = User.id u
               /\ User.status u' = User.status u
               /\ User.emailVerified u' = User.emailVerified u.

(** A computation all of whose runs are related by [R]. *)
Definition maintains (R : World -> World -> Prop) {A} (m : M A) : Prop :=
  forall w, R w (snd (m w)).

(** An update that leaves the verification state alone. *)
Definition discreet (f : User.t -> User.t) : Prop :=
  User.keeps_identity f /\
  forall u, User.status (f u) = User.status u
            /\ User.emailVerified (f u) = User.emailVerified u.

(** An update that leaves the two unique columns of the row alone. *)
Definition steady (f : User.t -> User.t) : Prop :=
  forall u, User.email (f u) = User.email u /\ User.googleId (f u) = User.googleId u.

(** The world once the message [m] has been handed to the transporter. *)
Definition posted (m : Mail) (w : World) : World :=
  {| users := users w; nextId := nextId w; redis := redis w;
     outbox := outbox w ++ [m] |}.

(** What [sendOTPEmail] leaves its caller with: the value [a] of the rest of
    the handler when the server takes the message [m], the error of the
    transporter otherwise. *)
Definition delivery {smtp : Transporter} {A} (now : Z) (m : Mail) (a : A) : Result A :=
  match transporter_sendMail now m 1 with
  | None => Ok a
  | Some msg => Throw (Error msg)
  end.

(** ** [GoogleAuthService] and the Google callback of [AuthController] *)

(** [error.message] *)
Definition message (x : Exception) : string :=
  match x with
  | UnauthorizedException m | ConflictException m | BadRequestException m
  | NotFoundException m | JsonWebTokenError m | Error m => m
  | TokenExpiredError => "jwt expired"
  | PrismaClientError code => code
  end.

Module GoogleAuthService.

(** What [ticket.getPayload()] of google-auth-library holds; the fields the
    service asserts with [!] are taken as present. *)
Record TokenPayload := {
  tp_email : string;
  tp_email_verified : option bool;
  tp_name : string;
  tp_picture : string;
  tp_given_name : option string;
  tp_family_name : option string;
  tp_locale : option string;
  tp_sub : string
}.

Record GoogleTokenPayload := {
  email : string;
  email_verified : bool;
  name : string;
  picture : string;
  given_name : option string;
  family_name : option string;
  locale : option string;
  sub : string
}.

(** [client.verifyIdToken({ idToken, audience })] followed by
    [ticket.getPayload()]: the OAuth2 client of the library, bound to the
    configured client id. *)
Class Client := { verifyIdToken : string -> Result (option TokenPayload) }.

Section Service.

Context {client : Client}.

Definition verifyToken (token : string) : M GoogleTokenPayload :=
  try_catch
    (let! payload := lift (verifyIdToken token) in
     match payload with
     | None => throw (UnauthorizedException "Invalid Google token")
     | Some payload =>
       if negb (default false (tp_email_verified payload))
       then throw (UnauthorizedException "Google email not verified")
       else ret {| email := tp_email payload;
                   email_verified := default false (tp_email_verified payload);
                   name := tp_name payload;
                   picture := tp_picture payload;
                   given_name := tp_given_name payload;
                   family_name := tp_family_name payload;
                   locale := tp_locale payload;
                   sub := tp_sub payload |}
     end)
    (fun error =>
       throw (UnauthorizedException ("Failed to verify Google token: " +:+ message error))).

End Service.
End GoogleAuthService.

Record GoogleAuthDto := { google_token : string; google_role : option UserRole }.

Module GoogleCallback.
Section Controller.

Context {crypto : Crypto} {js : Js.Strings} {smtp : Transporter}
        {client : GoogleAuthService.Client} (cfg : Config).

Definition google_user (user : User.t) (picture : string) : JsValue :=
  JObj [("id", JNum (User.id user));
        ("email", JStr (User.email user));
        ("name", JStr (User.name user));
        ("role", JRole (User.role user));
        ("profilePicture", JStr picture)].

(** [AuthController.googleCallback] *)
Definition googleCallback (now : Z) (googleAuthDto : GoogleAuthDto) : M JsValue :=
  let! googleUser := GoogleAuthService.verifyToken (google_token googleAuthDto) in
  let! existingUser :=
    AuthService.findUserByEmail (GoogleAuthService.email googleUser) in
  match existingUser with
  | Some existingUser =>
    (if negb (bool_decide (User.googleId existingUser
                           = Some (GoogleAuthService.sub googleUser)))
     then AuthService.updateGoogleId now (User.id existingUser)
            (GoogleAuthService.sub googleUser)
            (Some (GoogleAuthService.picture googleUser)) ;;; ret tt
     else ret tt) ;;;
    let! tokens := AuthService.generateTokens cfg now existingUser in
    ret (JObj [("message", JStr "Login successful");
               ("user", google_user existingUser (GoogleAuthService.picture googleUser));
               ("accessToken", JStr (Tokens.accessToken tokens));
               ("refreshToken", JStr (Tokens.refreshToken tokens))])
  | None =>
    let role := default USER (google_role googleAuthDto) in
    let! newUser := AuthService.createGoogleUser now
      {| g_email := GoogleAuthService.email googleUser;
         g_name := GoogleAuthService.name googleUser;
         g_googleId := GoogleAuthService.sub googleUser;
         g_profilePicture := Some (GoogleAuthService.picture googleUser);
         g_role := role;
         g_emailVerified := GoogleAuthService.email_verified googleUser |} in
    let! tokens := AuthService.generateTokens cfg now newUser in
    ret (JObj [("message", JStr "Registration successful");
               ("user", google_user newUser (GoogleAuthService.picture googleUser));
               ("accessToken", JStr (Tokens.accessToken tokens));
               ("refreshToken", JStr (Tokens.refreshToken tokens));
               ("isNewUser", JBool true)])
  end.

End Controller.
End GoogleCallback.

(** A Google client for the examples: the id token [bob] is Bob's, verified;
    [carol] is Carol's, whose address Google has not verified; any other
    token is refused. *)
Module DemoGoogle.

Definition bob : GoogleAuthService.TokenPayload := {|
  GoogleAuthService.tp_email := "bob@example.com";
  GoogleAuthService.tp_email_verified := Some true;
  GoogleAuthService.tp_name := "Bob Builder";
  GoogleAuthService.tp_picture := "bob.png";
  GoogleAuthService.tp_given_name := Some "Bob";
  GoogleAuthService.tp_family_name := Some "Builder";
  GoogleAuthService.tp_locale := None;
  GoogleAuthService.tp_sub := "g-1001"
|}.

Definition carol : GoogleAuthService.TokenPayload := {|
  GoogleAuthService.tp_email := "carol@example.com";
  GoogleAuthService.tp_email_verified := None;
  GoogleAuthService.tp_name := "Carol";
  GoogleAuthService.tp_picture := "";
  GoogleAuthService.tp_given_name := None;
  GoogleAuthService.tp_family_name := None;
  GoogleAuthService.tp_locale := None;
  GoogleAuthService.tp_sub := "g-1002"
|}.

(** Alice's Google identity, for the address she registered with. *)
Definition alice : GoogleAuthService.TokenPayload := {|
  GoogleAuthService.tp_email := "alice@example.com";
  GoogleAuthService.tp_email_verified := Some true;
  GoogleAuthService.tp_name := "Alice Liddell";
  GoogleAuthService.tp_picture := "alice.png";
  GoogleAuthService.tp_given_name := Some "Alice";
  GoogleAuthService.tp_family_name := Some "Liddell";
  GoogleAuthService.tp_locale := None;
  GoogleAuthService.tp_sub := "g-1000"
|}.

#[global] Instance client : GoogleAuthService.Client := {|
  GoogleAuthService.verifyIdToken token :=
    if String.eqb token "bob" then Ok (Some bob)
    else if String.eqb token "carol" then Ok (Some carol)
    else if String.eqb token "alice" then Ok (Some alice)
    else if String.eqb token "empty" then Ok None
    else Throw (Error "Wrong number of segments in token")
|}.

End DemoGoogle.

(** Rows no call of the service can produce (nothing sets [mfaEnabled] or
    clears [isEmail]), for the examples that need them. *)
Module Examples.

(** Dave logs in with a second factor. *)
Definition dave : User.t :=
  User.mk 2 "dave@example.com" "3$hunter22" "Dave" (Some "Dave") None None USER ACTIVE
    true None None None true None None None None 0 0 true true None.

(** Erin has switched mails off. *)
Definition erin : User.t :=
  User.mk 3 "erin@example.com" "5$correct horse" "Erin" (Some "Erin") None None USER
    ACTIVE true None None None false None None None None 0 0 false true None.

Definition world : World :=
  {| users := [Demo.alice_active; dave; erin]; nextId := 4; redis := ∅; outbox := [] |}.

Definition dave_login : LoginDto := {|
  login_email := "dave@example.com"; login_password := "hunter22";
  login_fcmToken := Some "fcm-token-1"
|}.

(** A mail server that refuses every message. *)
Definition offline : Transporter := {|
  transporter_sendMail now m attempt := Some "connect ECONNREFUSED 127.0.0.1:587"
|}.

(** A deployment that forgot [JWT_REFRESH_SECRET]. *)
Definition unconfigured : Config := {|
  JWT_EXPIRATION := Some 900;
  JWT_EXPIRES_IN := None;
  JWT_REFRESH_SECRET := None;
  JWT_REFRESH_EXPIRES_IN := None
|}.

End Examples.

(** ** Further notions *)

(** The row after a successful [resetPassword] call. *)
Definition reset_to (now : Z) (hash : string) (u : User.t) : User.t :=
  User.set_updatedAt now
    (User.set_resetPasswordExpires None
       (User.set_resetPasswordToken None
          (User.set_password hash (User.set_updatedAt now u)))).

(** The row after a successful [changePassword] call. *)
Definition changed_to (now : Z) (hash : string) (u : User.t) : User.t :=
  User.set_updatedAt now (User.set_password hash (User.set_updatedAt now u)).

(** The row after [resendEmailVerificationOTP] has stored the code [otp]. *)
Definition reissued (now : Z) (otp : string) (expires : Z) (u : User.t) : User.t :=
  User.set_resetPasswordExpires (Some expires)
    (User.set_emailVerificationToken (Some otp) (User.set_updatedAt now u)).

(** The row after [updateGoogleId]. *)
Definition linked (now : Z) (googleId : string) (picture : option string) (u : User.t)
  : User.t :=
  match picture with
  | Some p => User.set_profilePicture (Some p)
                (User.set_googleId (Some googleId) (User.set_updatedAt now u))
  | None => User.set_googleId (Some googleId) (User.set_updatedAt now u)
  end.

(** No row carries the Google id [g]; no row but the one with the id of [u]
    does. *)
Definition unclaimed (g : string) (w : World) : Prop :=
  forall v, In v (users w) -> User.googleId v <> Some g.

Definition only_of (g : string) (u : User.t) (w : World) : Prop :=
  forall v, In v (users w) -> User.googleId v = Some g -> User.id v = User.id u.

(** Every stored address is in lower case. *)
Definition lower_case_addresses {js : Js.Strings} (w : World) : Prop :=
  Forall (fun u => Js.toLowerCase (User.email u) = User.email u) (users w).

(** The two keys of the table: ids and addresses are distinct. *)
Definition sound (w : World) : Prop :=
  wf w /\ NoDup (map User.email (users w)).

(** From [w] to [w']: the keys are kept, no row is lost, and the row an
    address finds is related by [P] to the one it found. *)
Definition follows (P : User.t -> User.t -> Prop) (w w' : World) : Prop :=
  (sound w -> sound w') /\
  (length (users w) <= length (users w'))%nat /\
  forall e u, find (Prisma.byEmail e) (users w) = Some u ->
    exists u', find (Prisma.byEmail e) (users w') = Some u' /\ P u u'.

(** What no call of the service writes. *)
Definition same_identity (u u' : User.t) : Prop :=
  User.id u' = User.id u /\ User.email u' = User.email u
  /\ User.role u' = User.role u /\ User.mfaEnabled u' = User.mfaEnabled u
  /\ User.createdAt u' = User.createdAt u.

Definition same_password (u u' : User.t) : Prop := User.password u' = User.password u.

(** The exceptions with which a handler turns a request down. *)
Definition rejection (x : Exception) : bool :=
  match x with
  | UnauthorizedException _ | ConflictException _ | BadRequestException _
  | NotFoundException _ => true
  | _ => false
  end.

(** A computation that has written nothing when it turns the request down;
    one that never turns it down; one that never writes. *)
Definition tidy {A} (m : M A) : Prop :=
  forall w x w', m w = (Throw x, w') -> rejection x = true -> w' = w.

Definition blunt {A} (m : M A) : Prop :=
  forall w x w', m w = (Throw x, w') -> rejection x = false.

Definition reads {A} (m : M A) : Prop := forall w, snd (m w) = w.

(** The requests of the authentication controller: the calls of the service
    and the Google callback. *)
Inductive Request :=
| Direct (c : Call)
| Google (now : Z) (dto : GoogleAuthDto).

Definition writes_password (r : Request) : bool :=
  match r with
  | Direct (ChangePassword _ _ _ _) | Direct (ResetPassword _ _ _) => true
  | _ => false
  end.

Section Serve.

Context {crypto : Crypto} {js : Js.Strings} {smtp : Transporter}
        {client : GoogleAuthService.Client} (cfg : Config).

Definition serve (r : Request) : M unit :=
  match r with
  | Direct c => run cfg c
  | Google now dto => outcome (GoogleCallback.googleCallback cfg now dto)
  end.

Fixpoint serve_all (rs : list Request) (w : World) : World :=
  match rs with
  | [] => w
  | r :: rs' => serve_all rs' (snd (serve r w))
  end.

End Serve.

(** * Properties *)

Import AuthService.

Arguments generateOTP : simpl never.
Arguments minutes : simpl never.

(** ** The store *)

Section Store.

Implicit Types (l : list User.t) (u : User.t) (w : World) (e : string) (i : Z).

Lemma find_map_keep (p : User.t -> bool) (g : User.t -> User.t) l :
  (forall u, p (g u) = p u) -> find p (map g l) = g <$> find p l.
Proof.
  intros Hg. induction l as [|x l IH]; simpl; [reflexivity|].
  rewrite Hg. destruct (p x); [reflexivity | exact IH].
Qed.

Lemma find_app_some (p : User.t -> bool) l l' u :
  find p l = Some u -> find p (l ++ l') = Some u.
Proof.
  induction l as [|x l IH]; simpl; [discriminate|].
  destruct (p x); [trivial | exact IH].
Qed.

Lemma find_app_none (p : User.t -> bool) l l' :
  find p l = None -> find p (l ++ l') = find p l'.
Proof.
  induction l as [|x l IH]; simpl; [reflexivity|].
  destruct (p x); [discriminate | exact IH].
Qed.

Lemma byEmail_true e u : Prisma.byEmail e u = true <-> User.email u = e.
Proof. unfold Prisma.byEmail. apply String.eqb_eq. Qed.

Lemma find_byEmail_email e l u : find (Prisma.byEmail e) l = Some u -> User.email u = e.
Proof. intros H. apply find_some in H as [_ H]. now apply byEmail_true. Qed.

Lemma find_byId_id i l u : find (Prisma.byId i) l = Some u -> User.id u = i.
Proof. intros H. apply find_some in H as [_ H]. now apply Z.eqb_eq. Qed.

(** A row found by its address is in the table, so its id is found too. *)
Lemma find_byId_of_found (p : User.t -> bool) l u :
  find p l = Some u -> exists u0, find (Prisma.byId (User.id u)) l = Some u0.
Proof.
  intros H. apply find_some in H as [Hin _].
  destruct (find (Prisma.byId (User.id u)) l) as [u0|] eqn:E; [eauto|].
  pose proof (find_none _ _ E _ Hin) as Hn. unfold Prisma.byId in Hn.
  rewrite Z.eqb_refl in Hn. discriminate.
Qed.

Lemma patch_id i f u : User.keeps_identity f -> User.id (Prisma.patch i f u) = User.id u.
Proof. intros [Hi _]. unfold Prisma.patch. destruct (Prisma.byId i u); auto. Qed.

Lemma patch_email i f u :
  User.keeps_identity f -> User.email (Prisma.patch i f u) = User.email u.
Proof. intros [_ He]. unfold Prisma.patch. destruct (Prisma.byId i u); auto. Qed.

Lemma patch_self f u : Prisma.patch (User.id u) f u = f u.
Proof. unfold Prisma.patch, Prisma.byId. now rewrite Z.eqb_refl. Qed.

(** After [update] of the row found by [e], the same address finds the
    updated row. *)
Lemma find_byEmail_patched e f l u :
  User.keeps_identity f ->
  find (Prisma.byEmail e) l = Some u ->
  find (Prisma.byEmail e) (map (Prisma.patch (User.id u) f) l) = Some (f u).
Proof.
  intros Hf H. rewrite find_map_keep.
  - rewrite H. simpl. now rewrite patch_self.
  - intros x. unfold Prisma.byEmail. now rewrite patch_email.
Qed.

Lemma find_byEmail_patched_at e i f l u :
  User.keeps_identity f ->
  find (Prisma.byEmail e) l = Some u -> User.id u = i ->
  find (Prisma.byEmail e) (map (Prisma.patch i f) l) = Some (f u).
Proof. intros Hf H <-. now apply find_byEmail_patched. Qed.

(** The unique indexes have nothing to say on an update that leaves their
    columns alone. *)
Lemma clash_steady i f u l : steady f -> Prisma.clash i u (f u) l = false.
Proof.
  intros Hs. destruct (Hs u) as [He Hg]. unfold Prisma.clash.
  rewrite He, String.eqb_refl, Hg. cbn [negb andb orb].
  destruct (User.googleId u) as [g|]; [|reflexivity].
  now rewrite bool_decide_eq_true_2.
Qed.

Lemma update_found (p : User.t -> bool) f w u :
  steady f ->
  find p (users w) = Some u ->
  exists u0, Prisma.write (User.id u) f w
             = (Ok (f u0), with_users (map (Prisma.patch (User.id u) f) (users w)) w).
Proof.
  intros Hs H. destruct (find_byId_of_found _ _ _ H) as [u0 E].
  exists u0. unfold Prisma.write. now rewrite E, clash_steady.
Qed.

Lemma update_found_at (p : User.t -> bool) i f w u :
  steady f ->
  find p (users w) = Some u -> User.id u = i ->
  exists u0, Prisma.write i f w
             = (Ok (f u0), with_users (map (Prisma.patch i f) (users w)) w).
Proof. intros Hs H <-. now apply update_found with p. Qed.

(** What an update does: nothing when it fails, the patch otherwise. *)
Lemma update_cases i f w :
  (exists x, Prisma.write i f w = (Throw x, w))
  \/ (exists u, find (Prisma.byId i) (users w) = Some u
                /\ Prisma.write i f w
                   = (Ok (f u), with_users (map (Prisma.patch i f) (users w)) w)).
Proof.
  unfold Prisma.write. destruct (find _ _) as [u|]; [|left; eauto].
  destruct (Prisma.clash _ _ _ _); [left; eauto | right; eauto].
Qed.

End Store.

(** ** The mail service *)

Section Mail.

Context {smtp : Transporter}.

Lemma or_else_empty (s : string) : Js.or_else (Some s) "" = s.
Proof. now destruct s. Qed.

Lemma sendEmailVerificationOTP_run now email otp firstName w :
  MailService.sendEmailVerificationOTP now email otp (Some firstName) w
  = (Ok true, posted (EmailVerificationOTP email otp firstName) w).
Proof.
  unfold MailService.sendEmailVerificationOTP. now rewrite or_else_empty.
Qed.

Lemma sendWelcomeEmail_run now email firstName w :
  exists b, MailService.sendWelcomeEmail now email firstName w
            = (Ok b, posted (WelcomeEmail email firstName) w).
Proof. eexists. reflexivity. Qed.

Lemma sendOTPEmail_run now to name otp w :
  MailService.sendOTPEmail now to name otp w
  = (delivery now (OTPEmail to name otp) tt, posted (OTPEmail to name otp) w).
Proof.
  unfold MailService.sendOTPEmail, delivery, bind, submit.
  destruct (transporter_sendMail _ _ _); reflexivity.
Qed.

End Mail.

(** ** The cache *)

Section Cache.

Implicit Types (cache : gmap string RedisEntry) (key : string) (now : Z).




End Cache.

(** Updates written by the service leave [id] and [email] alone. *)
Ltac keeps := split; intros []; reflexivity.

(** And the Google id. *)
Ltac steady := intros []; split; reflexivity.

(** One [await prisma.user.update]: [Hf] finds the row in the current world,
    [Hi] gives its id; afterwards [Hf] finds the updated row. *)
Ltac updated Hf Hi :=
  unfold bind, Prisma.update; cbn beta;
  match goal with
  | |- context [Prisma.write ?i ?f ?w] =>
      let u0 := fresh "u0" in
      let Hu := fresh "Hu" in
      destruct (update_found_at _ i f w _ ltac:(steady) Hf Hi) as [u0 Hu];
      rewrite Hu; clear u0 Hu; cbn beta iota;
      apply (find_byEmail_patched_at _ i f) in Hf; [| keeps | exact Hi];
      cbn beta in Hf
  end.

(** ** Verification of a stored code *)

Section Verification.

Context {crypto : Crypto} {js : Js.Strings} {smtp : Transporter} (cfg : Config).
Implicit Types (u : User.t) (w : World) (e otp : string) (now : Z).

Lemma mismatch_stored otp : otp <> "" -> mismatch (Some otp) otp = false.
Proof.
  intros H. unfold mismatch. rewrite bool_decide_eq_true_2 by reflexivity.
  destruct otp; [contradiction | reflexivity].
Qed.

Lemma mismatch_other (stored : option string) otp :
  stored <> Some otp -> mismatch stored otp = true.
Proof.
  intros H. unfold mismatch. rewrite bool_decide_eq_false_2 by assumption.
  apply orb_true_r.
Qed.

Lemma mismatch_false (stored : option string) otp :
  mismatch stored otp = false -> stored = Some otp /\ otp <> "".
Proof.
  unfold mismatch. intros H. apply orb_false_elim in H as [H1 H2].
  apply negb_false_iff in H1, H2. apply bool_decide_eq_true_1 in H2. subst.
  split; [reflexivity|]. intros ->. discriminate.
Qed.

Lemma expired_past t now : t < now -> expired (Some t) now = true.
Proof. intros H. simpl. now apply Z.ltb_lt. Qed.

Lemma generateTokens_configured now u :
  Js.truthy (JWT_REFRESH_SECRET cfg) = true ->
  forall w, exists t, generateTokens cfg now u w = (Ok t, w).
Proof. intros H w. unfold generateTokens. rewrite H. simpl. eauto. Qed.

Lemma generateTokens_world now u w :
  snd (generateTokens cfg now u w) = w.
Proof. unfold generateTokens. destruct (negb _); reflexivity. Qed.

(** [verifyOtp] on a row whose code differs from the one supplied. *)
Lemma verifyOtp_mismatch now e otp w u :
  find (Prisma.byEmail e) (users w) = Some u ->
  mismatch (User.resetPasswordToken u) otp = true ->
  verifyOtp cfg now e otp w = (Throw (UnauthorizedException "Invalid or expired OTP."), w).
Proof.
  intros Hf Hm. unfold verifyOtp, bind, Prisma.findUnique. rewrite Hf, Hm. reflexivity.
Qed.

Lemma verifyOtp_expired now e otp w u :
  find (Prisma.byEmail e) (users w) = Some u ->
  mismatch (User.resetPasswordToken u) otp = false ->
  expired (User.resetPasswordExpires u) now = true ->
  verifyOtp cfg now e otp w = (Throw (UnauthorizedException "OTP expired."), w).
Proof.
  intros Hf Hm He. unfold verifyOtp, bind, Prisma.findUnique. rewrite Hf, Hm, He.
  reflexivity.
Qed.

Lemma verifyOtp_accepts now e otp w u :
  find (Prisma.byEmail e) (users w) = Some u ->
  mismatch (User.resetPasswordToken u) otp = false ->
  expired (User.resetPasswordExpires u) now = false ->
  exists r,
    verifyOtp cfg now e otp w
    = (r, with_users (map (Prisma.patch (User.id u) (consumed now)) (users w)) w)
    /\ (Js.truthy (JWT_REFRESH_SECRET cfg) = true -> exists v, r = Ok v)
    /\ (Js.truthy (JWT_REFRESH_SECRET cfg) = false ->
        r = Throw (Error "JWT_REFRESH_SECRET is not configured")).
Proof.
  intros Hf Hm He.
  destruct (update_found _ (consumed now) _ _ ltac:(steady) Hf) as [u0 Hu].
  unfold verifyOtp. unfold bind at 1, Prisma.findUnique. rewrite Hf, Hm, He.
  unfold bind at 1. unfold consumed in Hu. unfold Prisma.update. cbn beta. rewrite Hu. cbn beta iota.
  unfold bind, generateTokens.
  destruct (Js.truthy (JWT_REFRESH_SECRET cfg)); simpl;
    eexists; (split; [reflexivity|]); split; intros; try discriminate; eauto.
Qed.

(** What a call of [verifyOtp] that returned normally has done. *)
Lemma verifyOtp_ok_inv now e otp w v w' :
  verifyOtp cfg now e otp w = (Ok v, w') ->
  exists u, find (Prisma.byEmail e) (users w) = Some u
            /\ w' = with_users (map (Prisma.patch (User.id u) (consumed now)) (users w)) w.
Proof.
  intros H.
  destruct (find (Prisma.byEmail e) (users w)) as [u|] eqn:Hf.
  2:{ unfold verifyOtp, bind, Prisma.findUnique in H. rewrite Hf in H. discriminate. }
  exists u. split; [reflexivity|].
  destruct (mismatch (User.resetPasswordToken u) otp) eqn:Hm.
  { rewrite (verifyOtp_mismatch _ _ _ _ _ Hf Hm) in H. discriminate. }
  destruct (expired (User.resetPasswordExpires u) now) eqn:He.
  { rewrite (verifyOtp_expired _ _ _ _ _ Hf Hm He) in H. discriminate. }
  destruct (verifyOtp_accepts _ _ _ _ _ Hf Hm He) as (r & Hr & _).
  rewrite Hr in H. now inversion H.
Qed.

Lemma resetPassword_unmatched now salt dto w :
  newPassword dto <> confirmPassword dto ->
  resetPassword now salt dto w = (Throw (BadRequestException "Passwords do not match"), w).
Proof.
  intros H. unfold resetPassword.
  apply String.eqb_neq in H. rewrite H. reflexivity.
Qed.

Lemma resetPassword_mismatch now salt dto w u :
  newPassword dto = confirmPassword dto ->
  find (Prisma.byEmail (Js.toLowerCase (reset_email dto))) (users w) = Some u ->
  mismatch (User.resetPasswordToken u) (reset_otp dto) = true ->
  resetPassword now salt dto w = (Throw (BadRequestException "Invalid OTP"), w).
Proof.
  intros Hp Hf Hm. unfold resetPassword.
  apply String.eqb_eq in Hp. rewrite Hp. simpl.
  unfold bind, Prisma.findUnique. rewrite Hf, Hm. reflexivity.
Qed.

Lemma resetPassword_expired now salt dto w u :
  newPassword dto = confirmPassword dto ->
  find (Prisma.byEmail (Js.toLowerCase (reset_email dto))) (users w) = Some u ->
  mismatch (User.resetPasswordToken u) (reset_otp dto) = false ->
  expired (User.resetPasswordExpires u) now = true ->
  resetPassword now salt dto w
  = (Throw (BadRequestException "OTP expired. Please request a new one."), w).
Proof.
  intros Hp Hf Hm He. unfold resetPassword.
  apply String.eqb_eq in Hp. rewrite Hp. simpl.
  unfold bind, Prisma.findUnique. rewrite Hf, Hm, He. reflexivity.
Qed.

Lemma resetPassword_accepts now salt dto w u :
  newPassword dto = confirmPassword dto ->
  find (Prisma.byEmail (Js.toLowerCase (reset_email dto))) (users w) = Some u ->
  mismatch (User.resetPasswordToken u) (reset_otp dto) = false ->
  expired (User.resetPasswordExpires u) now = false ->
  exists w', resetPassword now salt dto w
             = (Ok (envelope "success" "Password reset successfully"), w').
Proof.
  intros Hp Hf Hm He. unfold resetPassword.
  apply String.eqb_eq in Hp. rewrite Hp. simpl.
  unfold bind at 1, Prisma.findUnique. rewrite Hf, Hm, He.
  unfold Prisma.update; cbn beta.
  match goal with |- context [Prisma.write _ ?f] =>
    destruct (update_found _ f _ _ ltac:(steady) Hf) as [u0 Hu] end.
  unfold bind. rewrite Hu. simpl. eauto.
Qed.

(** A failed [resetPassword] writes nothing. *)
Lemma resetPassword_throw_world now salt dto w (x : Exception) w' :
  resetPassword now salt dto w = (Throw x, w') -> w' = w.
Proof.
  unfold resetPassword. destruct (negb _); [now inversion 1|].
  unfold bind at 1, Prisma.findUnique.
  destruct (find _ (users w)) as [u|] eqn:Hf; [|now inversion 1].
  destruct (mismatch _ _); [now inversion 1|].
  destruct (expired _ _); [now inversion 1|].
  unfold Prisma.update; cbn beta.
  match goal with |- context [Prisma.write _ ?f] =>
    destruct (update_found _ f _ _ ltac:(steady) Hf) as [u0 Hu] end.
  unfold bind. rewrite Hu. simpl. discriminate.
Qed.

Lemma verifyEmail_accepts now e otp w u :
  find (Prisma.byEmail (Js.toLowerCase e)) (users w) = Some u ->
  mismatch (User.emailVerificationToken u) otp = false ->
  expired (User.resetPasswordExpires u) now = false ->
  exists msg w', verifyEmail now e otp w = (Ok (envelope "success" msg), w').
Proof.
  intros Hf Hm He. unfold verifyEmail.
  unfold bind at 1, Prisma.findUnique. rewrite Hf.
  destruct (User.emailVerified u); [unfold ret; eauto|].
  rewrite Hm, He.
  unfold Prisma.update; cbn beta.
  match goal with |- context [Prisma.write _ ?f] =>
    destruct (update_found _ f _ _ ltac:(steady) Hf) as [u0 Hu] end.
  unfold bind. rewrite Hu. simpl. eauto.
Qed.

End Verification.

(** ** Issuing a code *)

Section Issuing.

Context {crypto : Crypto} {js : Js.Strings} {smtp : Transporter} (cfg : Config).
Implicit Types (u : User.t) (w : World) (e otp : string) (now rnd : Z).

Lemma login_unknown now rnd dto w :
  find (Prisma.byEmail (login_email dto)) (users w) = None ->
  login cfg now rnd dto w
  = (Throw (UnauthorizedException "No account found with this email."), w).
Proof. intros Hf. unfold login, bind, Prisma.findUnique. now rewrite Hf. Qed.

Lemma login_unverified now rnd dto w u :
  find (Prisma.byEmail (login_email dto)) (users w) = Some u ->
  User.emailVerified u = false ->
  login cfg now rnd dto w
  = (Throw (UnauthorizedException
              "Email not verified. Please check your email for verification OTP."), w).
Proof. intros Hf Hv. unfold login, bind, Prisma.findUnique. now rewrite Hf, Hv. Qed.

Lemma login_wrong_password now rnd dto w u :
  find (Prisma.byEmail (login_email dto)) (users w) = Some u ->
  User.emailVerified u = true ->
  bcrypt_compare (login_password dto) (User.password u) = false ->
  login cfg now rnd dto w = (Throw (UnauthorizedException "Incorrect password."), w).
Proof.
  intros Hf Hv Hp. unfold login, bind, Prisma.findUnique, comparePasswords.
  now rewrite Hf, Hv, Hp.
Qed.

Lemma login_mfa now rnd dto w u :
  find (Prisma.byEmail (login_email dto)) (users w) = Some u ->
  User.emailVerified u = true ->
  bcrypt_compare (login_password dto) (User.password u) = true ->
  User.mfaEnabled u = true ->
  exists w',
    login cfg now rnd dto w
    = (delivery now (OTPEmail (User.email u) (User.name u) (generateOTP rnd))
         (JObj [("message", JStr "OTP sent to your email for verification.");
                ("mfaRequired", JBool true);
                ("email", JStr (User.email u))]), w')
    /\ find (Prisma.byEmail (login_email dto)) (users w')
       = Some (challenged now (login_fcmToken dto) (generateOTP rnd) (now + minutes 5) u)
    /\ outbox w'
       = (outbox w ++ [OTPEmail (User.email u) (User.name u) (generateOTP rnd)])%list.
Proof.
  intros Hf Hv Hp Hm. unfold login, comparePasswords, challenged, registered_device.
  unfold bind at 1, Prisma.findUnique. rewrite Hf, Hv, Hp, Hm. cbn [negb].
  assert (Hi : User.id u = User.id u) by reflexivity.
  destruct (Js.truthy (login_fcmToken dto)).
  - updated Hf Hi. unfold ret at 1. cbn beta iota.
    assert (Hi' : User.id (User.set_fcmToken (login_fcmToken dto)
                              (User.set_updatedAt now u)) = User.id u)
      by (destruct u; reflexivity).
    updated Hf Hi'. rewrite sendOTPEmail_run. unfold delivery.
    destruct (transporter_sendMail _ _ _); unfold ret; simpl; eauto.
  - unfold bind at 1 2. unfold ret at 1. cbn beta iota.
    updated Hf Hi. rewrite sendOTPEmail_run. unfold delivery.
    destruct (transporter_sendMail _ _ _); unfold ret; simpl; eauto.
Qed.

Lemma generateTokens_any_world now u w w1 t :
  generateTokens cfg now u w = (Ok t, w) -> generateTokens cfg now u w1 = (Ok t, w1).
Proof.
  unfold generateTokens. destruct (negb _); unfold throw, ret; intros H; now inversion H.
Qed.

Lemma login_ok now rnd dto w u t :
  find (Prisma.byEmail (login_email dto)) (users w) = Some u ->
  User.emailVerified u = true ->
  bcrypt_compare (login_password dto) (User.password u) = true ->
  User.mfaEnabled u = false ->
  generateTokens cfg now u w = (Ok t, w) ->
  exists w',
    login cfg now rnd dto w
    = (Ok (JObj [("status", JStr "success");
                 ("message", JStr "Successfully logged in.");
                 ("user", login_user u);
                 ("accessToken", JStr (Tokens.accessToken t));
                 ("refreshToken", JStr (Tokens.refreshToken t))]), w')
    /\ find (Prisma.byEmail (login_email dto)) (users w')
       = Some (logged_in now (login_fcmToken dto) u).
Proof.
  intros Hf Hv Hp Hm Ht. unfold login, comparePasswords, logged_in, registered_device.
  unfold bind at 1, Prisma.findUnique. rewrite Hf, Hv, Hp, Hm. cbn [negb].
  assert (Hi : User.id u = User.id u) by reflexivity.
  destruct (Js.truthy (login_fcmToken dto)).
  - updated Hf Hi. unfold ret at 1. cbn beta iota.
    assert (Hi' : User.id (User.set_fcmToken (login_fcmToken dto)
                              (User.set_updatedAt now u)) = User.id u)
      by (destruct u; reflexivity).
    updated Hf Hi'.
    erewrite generateTokens_any_world by exact Ht. unfold ret. eauto.
  - unfold bind at 1 2. unfold ret at 1. cbn beta iota.
    updated Hf Hi.
    erewrite generateTokens_any_world by exact Ht. unfold ret. eauto.
Qed.

Lemma sendOtp_found now rnd e w u :
  find (Prisma.byEmail e) (users w) = Some u ->
  exists w',
    sendOtp now rnd e w
    = (delivery now (OTPEmail (User.email u) (User.name u) (generateOTP rnd))
         (envelope "success" "OTP sent successfully."), w')
    /\ find (Prisma.byEmail e) (users w')
       = Some (challenged now None (generateOTP rnd) (now + minutes 5) u)
    /\ outbox w'
       = (outbox w ++ [OTPEmail (User.email u) (User.name u) (generateOTP rnd)])%list.
Proof.
  intros Hf. unfold sendOtp, challenged.
  unfold bind at 1, Prisma.findUnique. rewrite Hf. cbn [Js.truthy].
  assert (Hi : User.id u = User.id u) by reflexivity.
  updated Hf Hi. rewrite sendOTPEmail_run. unfold delivery.
  destruct (transporter_sendMail _ _ _); unfold ret; simpl; eauto.
Qed.

Lemma forgotPassword_unknown now rnd dto w :
  find (Prisma.byEmail (Js.toLowerCase (forgot_email dto))) (users w) = None ->
  forgotPassword now rnd dto w = (Ok (envelope "success" reset_message), w).
Proof. intros Hf. unfold forgotPassword, bind, Prisma.findUnique. now rewrite Hf. Qed.

Lemma forgotPassword_found now rnd dto w u :
  find (Prisma.byEmail (Js.toLowerCase (forgot_email dto))) (users w) = Some u ->
  exists w',
    forgotPassword now rnd dto w = (Ok (envelope "success" reset_message), w')
    /\ find (Prisma.byEmail (Js.toLowerCase (forgot_email dto))) (users w')
       = Some (challenged now None (generateOTP rnd) (now + minutes 10) u).
Proof.
  intros Hf. unfold forgotPassword, challenged.
  unfold bind at 1, Prisma.findUnique. rewrite Hf. cbn [Js.truthy].
  assert (Hi : User.id u = User.id u) by reflexivity.
  updated Hf Hi.
  destruct (User.isEmail u); [rewrite sendEmailVerificationOTP_run|];
    unfold ret; simpl; eauto.
Qed.

Lemma register_conflict now rnd salt dto w u :
  find (Prisma.byEmail (Js.toLowerCase (reg_email dto))) (users w) = Some u ->
  register now rnd salt dto w
  = (Throw (ConflictException "User with this email already exists"), w).
Proof. intros Hf. unfold register, bind, Prisma.findUnique. now rewrite Hf. Qed.

Lemma register_fresh now rnd salt dto w :
  find (Prisma.byEmail (Js.toLowerCase (reg_email dto))) (users w) = None ->
  exists u w',
    register now rnd salt dto w
    = (Ok (JObj [("status", JStr "success");
                 ("message", JStr "Registration successful. Please check your email for verification OTP.");
                 ("userId", JNum (nextId w))]), w')
    /\ users w' = (users w ++ [u])%list
    /\ find (Prisma.byEmail (Js.toLowerCase (reg_email dto))) (users w') = Some u
    /\ User.email u = Js.toLowerCase (reg_email dto)
    /\ User.status u = PENDING_VERIFICATION
    /\ User.emailVerified u = false
    /\ User.emailVerificationToken u = Some (generateOTP rnd)
    /\ User.resetPasswordToken u = None
    /\ User.resetPasswordExpires u = Some (now + minutes 10).
Proof.
  intros Hf. unfold register.
  unfold bind at 1, Prisma.findUnique. rewrite Hf.
  unfold bind, Prisma.create, Prisma.taken. cbn [User.email User.googleId].
  rewrite Hf. cbn [User.isEmail]. rewrite sendEmailVerificationOTP_run.
  unfold ret, posted. cbn [User.id User.email users].
  do 2 eexists. split; [reflexivity|]. cbn [users].
  split; [reflexivity|]. split; [|repeat split].
  rewrite find_app_none by exact Hf. simpl.
  unfold Prisma.byEmail. cbn [User.email]. now rewrite String.eqb_refl.
Qed.

End Issuing.

(** ** What every call keeps *)

Section Maintains.

Variable R : World -> World -> Prop.
Hypothesis R_refl : forall w, R w w.
Hypothesis R_trans : forall a b c, R a b -> R b c -> R a c.

Lemma maintains_ret {A} (a : A) : maintains R (ret a).
Proof. intros w. apply R_refl. Qed.

Lemma maintains_throw {A} x : maintains R (@throw A x).
Proof. intros w. apply R_refl. Qed.

Lemma maintains_lift {A} (r : Result A) : maintains R (lift r).
Proof. intros w. apply R_refl. Qed.

Lemma maintains_findUnique p : maintains R (Prisma.findUnique p).
Proof. intros w. apply R_refl. Qed.

Lemma maintains_bind {A B} (m : M A) (k : A -> M B) :
  maintains R m -> (forall a, maintains R (k a)) -> maintains R (bind m k).
Proof.
  intros Hm Hk w. unfold bind. specialize (Hm w).
  destruct (m w) as [[a|x] w1]; simpl in *; [|exact Hm].
  eapply R_trans; [exact Hm | apply Hk].
Qed.

Lemma maintains_try_catch {A} (m : M A) h :
  maintains R m -> (forall x, maintains R (h x)) -> maintains R (try_catch m h).
Proof.
  intros Hm Hh w. unfold try_catch. specialize (Hm w).
  destruct (m w) as [[a|x] w1]; simpl in *; [exact Hm|].
  eapply R_trans; [exact Hm | apply Hh].
Qed.

End Maintains.

Section Evolution.

Context {crypto : Crypto} {js : Js.Strings} {smtp : Transporter} (cfg : Config).

Lemma evolves_refl w : evolves w w.
Proof. split; [trivial|]. intros e u H. eauto. Qed.

Lemma evolves_trans a b c : evolves a b -> evolves b c -> evolves a c.
Proof.
  intros [W1 T1] [W2 T2]. split; [auto|].
  intros e u H. destruct (T1 _ _ H) as (u1 & H1 & I1 & S1 & V1).
  destruct (T2 _ _ H1) as (u2 & H2 & I2 & S2 & V2).
  exists u2. repeat split; congruence.
Qed.

(** Only the table matters. *)
Lemma evolves_same_table w w' :
  users w' = users w -> nextId w' = nextId w -> evolves w w'.
Proof.
  intros Hu Hn. split.
  - unfold wf. now rewrite Hu, Hn.
  - intros e u H. rewrite Hu. eauto.
Qed.

Lemma map_id_patch i f l :
  User.keeps_identity f -> map User.id (map (Prisma.patch i f) l) = map User.id l.
Proof.
  intros Hf. rewrite map_map. apply map_ext. intros u. now apply patch_id.
Qed.

Lemma wf_patch i f w :
  User.keeps_identity f -> wf w -> wf (with_users (map (Prisma.patch i f) (users w)) w).
Proof.
  intros Hf [Hn Hb]. split; simpl.
  - now rewrite map_id_patch.
  - rewrite List.Forall_forall in *. intros u Hu.
    apply in_map_iff in Hu as (v & <- & Hv). rewrite patch_id by exact Hf. auto.
Qed.

Lemma discreet_stamp now f : discreet f -> discreet (fun u => f (User.set_updatedAt now u)).
Proof.
  intros [[Hi He] Hd]. split; [split|]; intros u.
  - rewrite Hi. now destruct u.
  - rewrite He. now destruct u.
  - destruct (Hd (User.set_updatedAt now u)) as [-> ->]. now destruct u.
Qed.

Lemma evolves_write i f : discreet f -> maintains evolves (Prisma.write i f).
Proof.
  intros [Hk Hd] w.
  destruct (update_cases i f w) as [[x E]|(u0 & _ & E)]; rewrite E; simpl;
    [apply evolves_refl|].
  split; [now apply wf_patch|].
  intros e u H. exists (Prisma.patch i f u). simpl. split.
  - rewrite find_map_keep; [now rewrite H|].
    intros x. unfold Prisma.byEmail. now rewrite patch_email.
  - split; [now apply patch_id|].
    unfold Prisma.patch. destruct (Prisma.byId i u); [apply Hd | split; reflexivity].
Qed.

Lemma evolves_update now i f : discreet f -> maintains evolves (Prisma.update now i f).
Proof. intros H. apply evolves_write. now apply discreet_stamp. Qed.

Lemma evolves_create data :
  (forall i, User.id (data i) = i) -> maintains evolves (Prisma.create data).
Proof.
  intros Hd w. unfold Prisma.create.
  destruct (Prisma.taken _ _); simpl.
  { split; [|intros e u H; exists u; auto].
    intros [Hn Hb]. split; simpl; [exact Hn|].
    rewrite List.Forall_forall in *. intros u Hu. specialize (Hb _ Hu). lia. }
  split.
  - intros [Hn Hb]. split; simpl.
    + rewrite map_app. simpl. rewrite Hd. apply NoDup_app. repeat split.
      * exact Hn.
      * intros x Hx Hx'. apply list_elem_of_In in Hx, Hx'.
        destruct Hx' as [Hx'|[]]. subst x. apply in_map_iff in Hx as (u & Hu & Hin).
        rewrite List.Forall_forall in Hb. specialize (Hb _ Hin). simpl in Hb. lia.
      * apply NoDup_cons; split; [intros Hx; inversion Hx | apply NoDup_nil; trivial].
    + rewrite List.Forall_forall in *. intros u Hu.
      apply in_app_iff in Hu as [Hu|[<-|[]]]; [specialize (Hb _ Hu); lia|].
      rewrite Hd. lia.
  - intros e u H. exists u. split; [now apply find_app_some | repeat split].
Qed.

Lemma evolves_sendOTPEmail now to name otp :
  maintains evolves (MailService.sendOTPEmail now to name otp).
Proof. intros w. rewrite sendOTPEmail_run. now apply evolves_same_table. Qed.

Lemma evolves_sendEmailVerificationOTP now to otp name :
  maintains evolves (MailService.sendEmailVerificationOTP now to otp name).
Proof. intros w. now apply evolves_same_table. Qed.

Lemma evolves_sendWelcomeEmail now to name :
  maintains evolves (MailService.sendWelcomeEmail now to name).
Proof. intros w. now apply evolves_same_table. Qed.

Lemma evolves_redis_set k v s now : maintains evolves (RedisService.set k v s now).
Proof. intros w. now apply evolves_same_table. Qed.

Lemma evolves_generateTokens now u : maintains evolves (generateTokens cfg now u).
Proof. intros w. rewrite generateTokens_world. apply evolves_refl. Qed.

End Evolution.

Lemma quiet_ret {A} (a : A) : maintains evolves (ret a).
Proof. apply maintains_ret, @evolves_refl. Qed.

Lemma quiet_throw {A} x : maintains evolves (@throw A x).
Proof. apply maintains_throw, @evolves_refl. Qed.

Lemma quiet_lift {A} (r : Result A) : maintains evolves (lift r).
Proof. apply maintains_lift, @evolves_refl. Qed.

Lemma quiet_findUnique p : maintains evolves (Prisma.findUnique p).
Proof. apply maintains_findUnique, @evolves_refl. Qed.

Lemma quiet_bind {A B} (m : M A) (k : A -> M B) :
  maintains evolves m -> (forall a, maintains evolves (k a)) -> maintains evolves (bind m k).
Proof. apply maintains_bind, @evolves_trans. Qed.

Lemma quiet_try_catch {A} (m : M A) h :
  maintains evolves m -> (forall x, maintains evolves (h x)) ->
  maintains evolves (try_catch m h).
Proof. apply maintains_try_catch, @evolves_trans. Qed.

Ltac discreet := split; [keeps | intros []; split; reflexivity].

(** Walk through the body of a method: every step keeps [evolves]. *)
Ltac quiet :=
  repeat first
    [ apply quiet_ret
    | apply quiet_throw
    | apply quiet_lift
    | apply quiet_findUnique
    | apply evolves_sendOTPEmail
    | apply evolves_sendEmailVerificationOTP
    | apply evolves_sendWelcomeEmail
    | apply evolves_redis_set
    | apply evolves_generateTokens
    | apply evolves_update; discreet
    | apply evolves_create; reflexivity
    | apply quiet_bind; [| intros ?]
    | apply quiet_try_catch; [| intros ?]
    | match goal with
      | |- maintains _ (match ?x with _ => _ end) => destruct x
      end ].

Section Quiet.

Context {crypto : Crypto} {js : Js.Strings} {smtp : Transporter} (cfg : Config).

Lemma login_quiet now rnd dto : maintains evolves (login cfg now rnd dto).
Proof. unfold login, comparePasswords. quiet. Qed.

Lemma sendOtp_quiet now rnd e : maintains evolves (sendOtp now rnd e).
Proof. unfold sendOtp. quiet. Qed.

Lemma verifyOtp_quiet now e otp : maintains evolves (verifyOtp cfg now e otp).
Proof. unfold verifyOtp. quiet. Qed.

Lemma register_quiet now rnd salt dto : maintains evolves (register now rnd salt dto).
Proof. unfold register. quiet. Qed.

Lemma resend_quiet now rnd e : maintains evolves (resendEmailVerificationOTP now rnd e).
Proof. unfold resendEmailVerificationOTP. quiet. Qed.

Lemma changePassword_quiet now salt i dto :
  maintains evolves (changePassword now salt i dto).
Proof. unfold changePassword. quiet. Qed.

Lemma forgotPassword_quiet now rnd dto : maintains evolves (forgotPassword now rnd dto).
Proof. unfold forgotPassword. quiet. Qed.

Lemma resetPassword_quiet now salt dto : maintains evolves (resetPassword now salt dto).
Proof. unfold resetPassword. quiet. Qed.

Lemma refreshToken_quiet now token : maintains evolves (refreshToken cfg now token).
Proof. unfold refreshToken. quiet. Qed.

Lemma logout_quiet now i a : maintains evolves (AuthController.logout cfg now i a).
Proof. unfold AuthController.logout, logout. quiet. Qed.

Lemma updateGoogleId_quiet now i g p : maintains evolves (updateGoogleId now i g p).
Proof. unfold updateGoogleId. destruct p; quiet. Qed.

Lemma createGoogleUser_quiet now d : maintains evolves (createGoogleUser now d).
Proof. unfold createGoogleUser. quiet. Qed.

End Quiet.

(** ** Sequences of calls *)

Section Traces.

Context {crypto : Crypto} {js : Js.Strings} {smtp : Transporter} (cfg : Config).

Lemma same_id_same_row (l : list User.t) u v :
  NoDup (map User.id l) -> In u l -> In v l -> User.id u = User.id v -> u = v.
Proof.
  induction l as [|x l IH]; simpl; [contradiction|].
  intros Hn Hu Hv E. apply NoDup_cons in Hn as [Hx Hn].
  assert (forall y, In y l -> User.id y ∈ map User.id l) as Hin
    by (intros y Hy; apply list_elem_of_In, in_map, Hy).
  destruct Hu as [<-|Hu], Hv as [<-|Hv]; auto.
  - exfalso. apply Hx. rewrite E. auto.
  - exfalso. apply Hx. rewrite <- E. auto.
Qed.

(** [verifyEmail] either writes nothing, or activates the row its address
    finds and returns normally. *)
Lemma verifyEmail_cases now e0 otp w :
  (exists r, verifyEmail now e0 otp w = (r, w)) \/
  (exists t w',
      find (Prisma.byEmail (Js.toLowerCase e0)) (users w) = Some t
      /\ verifyEmail now e0 otp w
         = (Ok (envelope "success" "Email verified successfully"), w')
      /\ users w' = map (Prisma.patch (User.id t) (activated now)) (users w)
      /\ nextId w' = nextId w).
Proof.
  unfold verifyEmail, bind, Prisma.findUnique.
  destruct (find _ (users w)) as [t|] eqn:Hf; [|left; eexists; reflexivity].
  destruct (User.emailVerified t); [left; eexists; reflexivity|].
  destruct (mismatch _ _); [left; eexists; reflexivity|].
  destruct (expired _ _); [left; eexists; reflexivity|].
  right. exists t.
  destruct (update_found _ (activated now) _ _ ltac:(steady) Hf) as [u0 Hu].
  unfold activated in Hu. unfold Prisma.update. cbn beta. rewrite Hu. simpl.
  eexists. split; [reflexivity|]. split; [reflexivity|]. split; reflexivity.
Qed.

Lemma outcome_run {A} (m : M A) w :
  snd (outcome m w) = snd (m w)
  /\ (forall a, fst (m w) = Ok a -> fst (outcome m w) = Ok tt).
Proof.
  unfold outcome, bind, ret. destruct (m w) as [[a|x] w1]; simpl; split; auto.
  discriminate.
Qed.

Lemma outcome_quiet {A} (m : M A) : maintains evolves m -> maintains evolves (outcome m).
Proof. intros H w. destruct (outcome_run m w) as [-> _]. apply H. Qed.

(** One call: the key is kept, the row of [e] is still found, and its
    verification state is the same unless the call verified [e]. *)
Lemma run_step c w e u :
  wf w -> find (Prisma.byEmail e) (users w) = Some u ->
  wf (snd (run cfg c w)) /\
  exists u', find (Prisma.byEmail e) (users (snd (run cfg c w))) = Some u'
             /\ ((User.status u' = User.status u
                  /\ User.emailVerified u' = User.emailVerified u)
                 \/ verifies e (c, fst (run cfg c w))).
Proof.
  intros Hw Hf.
  assert (maintains evolves (run cfg c) ->
          wf (snd (run cfg c w)) /\
          exists u', find (Prisma.byEmail e) (users (snd (run cfg c w))) = Some u'
                     /\ ((User.status u' = User.status u
                          /\ User.emailVerified u' = User.emailVerified u)
                         \/ verifies e (c, fst (run cfg c w)))) as Quiet.
  { intros H. destruct (H w) as [W T]. split; [auto|].
    destruct (T _ _ Hf) as (u' & F & _ & S & V). eauto. }
  destruct c;
    [ apply Quiet, outcome_quiet, login_quiet
    | apply Quiet, outcome_quiet, sendOtp_quiet
    | apply Quiet, outcome_quiet, verifyOtp_quiet
    | apply Quiet, outcome_quiet, register_quiet
    |
    | apply Quiet, outcome_quiet, resend_quiet
    | apply Quiet, outcome_quiet, changePassword_quiet
    | apply Quiet, outcome_quiet, forgotPassword_quiet
    | apply Quiet, outcome_quiet, resetPassword_quiet
    | apply Quiet, outcome_quiet, refreshToken_quiet
    | apply Quiet, outcome_quiet, logout_quiet
    | apply Quiet, outcome_quiet, updateGoogleId_quiet
    | apply Quiet, outcome_quiet, createGoogleUser_quiet ].
  clear Quiet. cbn [run].
  destruct (outcome_run (verifyEmail now email otp) w) as [-> Hok].
  destruct (verifyEmail_cases now email otp w) as [[r E]|(t & w' & Ht & E & Hus & Hn)];
    rewrite E in *; cbn [snd fst] in *.
  - split; [exact Hw|]. exists u. auto.
  - destruct Hw as [Hnd Hb]. split.
    + split; rewrite Hus, ?Hn.
      * rewrite map_id_patch; [exact Hnd | keeps].
      * rewrite List.Forall_forall in *. intros x Hx.
        apply in_map_iff in Hx as (v & <- & Hv).
        rewrite patch_id; [auto | keeps].
    + exists (Prisma.patch (User.id t) (activated now) u). split.
      * rewrite Hus, find_map_keep; [now rewrite Hf|].
        intros x. unfold Prisma.byEmail. rewrite patch_email; [reflexivity | keeps].
      * unfold Prisma.patch, Prisma.byId.
        destruct (User.id u =? User.id t) eqn:Ei; [|left; split; reflexivity].
        right. apply Z.eqb_eq in Ei.
        assert (u = t) as ->.
        { apply find_some in Hf as [Hf _], Ht as [Ht _].
          eapply same_id_same_row; eauto. }
        exists now, email, otp. cbn [fst snd]. repeat split.
        -- rewrite <- (find_byEmail_email _ _ _ Ht).
           eapply find_byEmail_email; eauto.
        -- eapply Hok. reflexivity.
Qed.

Lemma run_all_found cs : forall w e u,
  wf w -> find (Prisma.byEmail e) (users w) = Some u ->
  exists u', find (Prisma.byEmail e) (users (snd (run_all cfg cs w))) = Some u'.
Proof.
  induction cs as [|c cs IH]; intros w e u Hw Hf; simpl; [eauto|].
  destruct (run_step c w e u Hw Hf) as (Hw1 & u1 & Hf1 & _).
  destruct (run cfg c w) as [r w1]. simpl in *.
  destruct (IH w1 e u1 Hw1 Hf1) as [u' Hu'].
  destruct (run_all cfg cs w1) as [rs w2]. simpl in *. eauto.
Qed.

(** A row that awaits verification awaits it after any sequence of calls in
    which no [verifyEmail] for its address returned normally. *)
Lemma run_all_pending cs : forall w e u,
  wf w -> find (Prisma.byEmail e) (users w) = Some u -> pending u ->
  exists u', find (Prisma.byEmail e) (users (snd (run_all cfg cs w))) = Some u'
             /\ (pending u'
                 \/ Exists (verifies e) (combine cs (fst (run_all cfg cs w)))).
Proof.
  induction cs as [|c cs IH]; intros w e u Hw Hf Hp; simpl; [eauto|].
  destruct (run_step c w e u Hw Hf) as (Hw1 & u1 & Hf1 & Hs).
  pose proof (run_all_found cs _ _ _ Hw1 Hf1) as Hfound.
  specialize (IH (snd (run cfg c w)) e u1 Hw1 Hf1).
  destruct (run cfg c w) as [r w1]. cbn [fst snd] in *.
  destruct (run_all cfg cs w1) as [rs w2]. cbn [fst snd combine] in *.
  destruct Hs as [[S V]|Hv].
  - destruct IH as (u' & Hu' & [P|E]).
    + destruct Hp as [P1 P2]. split; congruence.
    + exists u'. split; [exact Hu'|]. now left.
    + exists u'. split; [exact Hu'|]. right. now apply Exists_cons_tl.
  - destruct Hfound as [u' Hu']. exists u'. split; [exact Hu'|].
    right. now apply Exists_cons_hd.
Qed.

End Traces.

(** * The claims *)

(** ** C10 *)

Lemma four_digits_range :
  forallb (fun k => four_digits (Js.toString (1000 + Z.of_nat k)) (1000 + Z.of_nat k))
          (seq 0 (Z.to_nat 8999)) = true.
Proof. vm_compute. reflexivity. Qed.

Lemma randomInt_bounds rnd min max :
  min < max -> min <= randomInt rnd min max < max.
Proof. intros H. unfold randomInt. pose proof (Z.mod_pos_bound rnd (max - min)). lia. Qed.

Lemma generateOTP_four_digits rnd :
  four_digits (generateOTP rnd) (randomInt rnd 1000 9999) = true.
Proof.
  unfold generateOTP.
  pose proof (randomInt_bounds rnd 1000 9999 ltac:(lia)) as Hb.
  pose proof four_digits_range as Hc. rewrite forallb_forall in Hc.
  specialize (Hc (Z.to_nat (randomInt rnd 1000 9999 - 1000))).
  replace (1000 + Z.of_nat (Z.to_nat (randomInt rnd 1000 9999 - 1000)))
    with (randomInt rnd 1000 9999) in Hc by lia.
  apply Hc. apply in_seq. lia.
Qed.

Lemma challenged_fields now fcm otp t u :
  User.resetPasswordToken (challenged now fcm otp t u) = Some otp
  /\ User.resetPasswordExpires (challenged now fcm otp t u) = Some t
  /\ User.emailVerificationToken (challenged now fcm otp t u)
     = User.emailVerificationToken u
  /\ User.email (challenged now fcm otp t u) = User.email u.
Proof.
  unfold challenged, registered_device. destruct (Js.truthy fcm), u; repeat split.
Qed.

(** C10.  Every code of [generateOTP] is a string of exactly four decimal
    digits; it reads as a number from 1000 to 9998 (the upper bound 9999 of
    [randomInt] is excluded) and passes [@Length(4, 4)] of the reset DTO.  The
    codes stored by registration, by login with a second factor, by [sendOtp]
    and by [forgotPassword] all come from this generator. *)
Theorem C10_generateOTP_four_digits
  {crypto : Crypto} {js : Js.Strings} {smtp : Transporter} (cfg : Config) (now rnd : Z) :
  (String.length (generateOTP rnd) = 4%nat
   /\ Js.all_digits (generateOTP rnd) = true
   /\ Length 4 4 (generateOTP rnd) = true
   /\ exists n, Js.parseInt (generateOTP rnd) = Some n /\ 1000 <= n <= 9998)
  /\ (forall salt dto w,
        find (Prisma.byEmail (Js.toLowerCase (reg_email dto))) (users w) = None ->
        exists u, find (Prisma.byEmail (Js.toLowerCase (reg_email dto)))
                    (users (snd (register now rnd salt dto w))) = Some u
                  /\ User.emailVerificationToken u = Some (generateOTP rnd))
  /\ (forall dto w u,
        find (Prisma.byEmail (login_email dto)) (users w) = Some u ->
        User.emailVerified u = true ->
        bcrypt_compare (login_password dto) (User.password u) = true ->
        User.mfaEnabled u = true ->
        exists u', find (Prisma.byEmail (login_email dto))
                     (users (snd (login cfg now rnd dto w))) = Some u'
                   /\ User.resetPasswordToken u' = Some (generateOTP rnd))
  /\ (forall e w u,
        find (Prisma.byEmail e) (users w) = Some u ->
        exists u', find (Prisma.byEmail e) (users (snd (sendOtp now rnd e w))) = Some u'
                   /\ User.resetPasswordToken u' = Some (generateOTP rnd))
  /\ (forall dto w u,
        find (Prisma.byEmail (Js.toLowerCase (forgot_email dto))) (users w) = Some u ->
        exists u', find (Prisma.byEmail (Js.toLowerCase (forgot_email dto)))
                     (users (snd (forgotPassword now rnd dto w))) = Some u'
                   /\ User.resetPasswordToken u' = Some (generateOTP rnd)).
Proof.
  split; [|repeat split].
  - pose proof (generateOTP_four_digits rnd) as H. unfold four_digits in H.
    apply andb_true_iff in H as [H H4]. apply andb_true_iff in H as [H H3].
    apply andb_true_iff in H as [H1 H2]. apply Nat.eqb_eq in H1.
    apply bool_decide_eq_true_1 in H3.
    repeat split; auto. exists (randomInt rnd 1000 9999). split; [exact H3|].
    pose proof (randomInt_bounds rnd 1000 9999 ltac:(lia)). lia.
  - intros salt dto w Hf.
    destruct (register_fresh now rnd salt dto w Hf) as (u & w' & E & _ & F & _ & _ & _ & T & _).
    rewrite E. eauto.
  - intros dto w u Hf Hv Hp Hm.
    destruct (login_mfa cfg now rnd dto w u Hf Hv Hp Hm) as (w' & E & F & _).
    rewrite E. eexists. split; [exact F|]. apply challenged_fields.
  - intros e w u Hf. destruct (sendOtp_found now rnd e w u Hf) as (w' & E & F & _).
    rewrite E. eexists. split; [exact F|]. apply challenged_fields.
  - intros dto w u Hf. destruct (forgotPassword_found now rnd dto w u Hf) as (w' & E & F).
    rewrite E. eexists. split; [exact F|]. apply challenged_fields.
Qed.

Lemma C10_witness :
  (exists u, find (Prisma.byEmail "alice@example.com") (users Demo.registered) = Some u
             /\ User.emailVerificationToken u = Some "1234")
  /\ (exists u, find (Prisma.byEmail "alice@example.com") (users Demo.resetting) = Some u
                /\ User.resetPasswordToken u = Some "5678").
Proof.
  split.
  - destruct (C10_generateOTP_four_digits Demo.cfg 0 234) as (_ & H & _).
    apply (H 7 Demo.alice Demo.empty). reflexivity.
  - destruct (C10_generateOTP_four_digits Demo.cfg 1000 4678) as (_ & _ & _ & _ & H).
    destruct (H {| forgot_email := "alice@example.com" |} Demo.registered
                Demo.alice_pending) as (u' & F & T).
    + vm_compute. reflexivity.
    + exists u'. split; [exact F | exact T].
Defined.

(** ** C1 *)





(** ** C2 *)

(** Alice verifies her login code 5678, then sends it again: the second call
    fails with [Unauthorized], not with [NotFound] or [BadRequest]. *)
Lemma C2_counterexample :
  let first := verifyOtp Demo.cfg 3000 "alice@example.com" "5678" Demo.awaiting in
  let second := verifyOtp Demo.cfg 4000 "alice@example.com" "5678" (snd first) in
  (exists v, fst first = Ok v)
  /\ fst second = Throw (UnauthorizedException "Invalid or expired OTP.")
  /\ (forall msg, fst second <> Throw (NotFoundException msg))
  /\ (forall msg, fst second <> Throw (BadRequestException msg)).
Proof.
  vm_compute. split; [eexists; reflexivity|]. repeat split; intros; discriminate.
Qed.

Lemma consumed_fields now u :
  User.resetPasswordToken (consumed now u) = None
  /\ User.resetPasswordExpires (consumed now u) = None
  /\ User.lastLoginAt (consumed now u) = Some now.
Proof. destruct u; repeat split. Qed.

(** C2, amended.  A call of [verifyOtp] that succeeds sets the code and the
    expiry of the row to null; a later call of [verifyOtp] for the same user
    with the same code, made on the store the first one left, fails with
    [Unauthorized] (the message is [Invalid or expired OTP.]) and writes
    nothing. *)
Theorem C2_verifyOtp_single_use {crypto : Crypto} (cfg : Config)
  (now later : Z) (email otp : string) (w w' : World) (v : JsValue) :
  verifyOtp cfg now email otp w = (Ok v, w') ->
  (exists u', find (Prisma.byEmail email) (users w') = Some u'
              /\ User.resetPasswordToken u' = None
              /\ User.resetPasswordExpires u' = None)
  /\ verifyOtp cfg later email otp w'
     = (Throw (UnauthorizedException "Invalid or expired OTP."), w').
Proof.
  intros H. apply verifyOtp_ok_inv in H as (u & Hf & ->).
  assert (find (Prisma.byEmail email)
            (users (with_users (map (Prisma.patch (User.id u) (consumed now)) (users w)) w))
          = Some (consumed now u)) as Hf'.
  { simpl. apply find_byEmail_patched; [keeps | exact Hf]. }
  destruct (consumed_fields now u) as (T & E & _).
  split; [eauto|].
  eapply verifyOtp_mismatch; [exact Hf'|]. now rewrite T.
Qed.

Lemma C2_witness :
  let first := verifyOtp Demo.cfg 3000 "alice@example.com" "5678" Demo.awaiting in
  verifyOtp Demo.cfg 4000 "alice@example.com" "5678" (snd first)
  = (Throw (UnauthorizedException "Invalid or expired OTP."), snd first).
Proof.
  cbv zeta.
  refine (proj2 (C2_verifyOtp_single_use Demo.cfg 3000 4000 "alice@example.com" "5678"
                   Demo.awaiting _
                   (JObj [("status", JStr "success");
                          ("message", JStr "OTP verified successfully.");
                          ("user", verifyOtp_user Demo.alice_active);
                          ("accessToken", JStr "903.1.JWT_SECRET");
                          ("refreshToken", JStr "604803.1.refresh")]) _)).
  vm_compute. reflexivity.
Defined.

(** ** C3 *)

(** Alice registers (code 1234) and, before verifying, asks for a password
    reset (code 5678).  Her row now holds both codes, in two fields, and the
    registration code still verifies her address. *)
Lemma C3_counterexample :
  (exists u, find (Prisma.byEmail "alice@example.com") (users Demo.resetting) = Some u
             /\ User.emailVerificationToken u = Some "1234"
             /\ User.resetPasswordToken u = Some "5678")
  /\ fst (verifyEmail 2000 "alice@example.com" "1234" Demo.resetting)
     = Ok (envelope "success" "Email verified successfully").
Proof. vm_compute. split; [eexists; repeat split | reflexivity]. Qed.

(** C3, amended.  A row has two code fields and one expiry field.  Logging in
    with a second factor and asking for a password reset both write the code
    field [resetPasswordToken] and the expiry [resetPasswordExpires] (five and
    ten minutes ahead), so a code issued earlier by either of them and still
    unconsumed is no longer accepted by [verifyOtp] or [resetPassword]; they
    leave the registration code in [emailVerificationToken] as it is.
    Registration writes [emailVerificationToken] and the same expiry field,
    and leaves [resetPasswordToken] null. *)
Theorem C3_two_code_fields_one_expiry
  {crypto : Crypto} {js : Js.Strings} {smtp : Transporter} (cfg : Config)
  (now rnd : Z) (w : World) (u : User.t) :
  (forall dto,
      find (Prisma.byEmail (login_email dto)) (users w) = Some u ->
      User.emailVerified u = true ->
      bcrypt_compare (login_password dto) (User.password u) = true ->
      User.mfaEnabled u = true ->
      exists u' w',
        snd (login cfg now rnd dto w) = w'
        /\ find (Prisma.byEmail (login_email dto)) (users w') = Some u'
        /\ User.resetPasswordToken u' = Some (generateOTP rnd)
        /\ User.resetPasswordExpires u' = Some (now + minutes 5)
        /\ User.emailVerificationToken u' = User.emailVerificationToken u
        /\ forall later old, old <> generateOTP rnd ->
             verifyOtp cfg later (login_email dto) old w'
             = (Throw (UnauthorizedException "Invalid or expired OTP."), w'))
  /\ (forall dto,
      find (Prisma.byEmail (Js.toLowerCase (forgot_email dto))) (users w) = Some u ->
      exists u' w',
        snd (forgotPassword now rnd dto w) = w'
        /\ find (Prisma.byEmail (Js.toLowerCase (forgot_email dto))) (users w') = Some u'
        /\ User.resetPasswordToken u' = Some (generateOTP rnd)
        /\ User.resetPasswordExpires u' = Some (now + minutes 10)
        /\ User.emailVerificationToken u' = User.emailVerificationToken u
        /\ forall later salt reset,
             Js.toLowerCase (reset_email reset) = Js.toLowerCase (forgot_email dto) ->
             newPassword reset = confirmPassword reset ->
             reset_otp reset <> generateOTP rnd ->
             resetPassword later salt reset w'
             = (Throw (BadRequestException "Invalid OTP"), w'))
  /\ (forall salt dto,
      find (Prisma.byEmail (Js.toLowerCase (reg_email dto))) (users w) = None ->
      exists u',
        find (Prisma.byEmail (Js.toLowerCase (reg_email dto)))
          (users (snd (register now rnd salt dto w))) = Some u'
        /\ User.emailVerificationToken u' = Some (generateOTP rnd)
        /\ User.resetPasswordToken u' = None
        /\ User.resetPasswordExpires u' = Some (now + minutes 10)).
Proof.
  repeat split.
  - intros dto Hf Hv Hp Hm.
    destruct (login_mfa cfg now rnd dto w u Hf Hv Hp Hm) as (w' & E & F & _).
    destruct (challenged_fields now (login_fcmToken dto) (generateOTP rnd) (now + minutes 5) u)
      as (T & X & V & _).
    rewrite E. do 2 eexists. split; [reflexivity|]. split; [exact F|].
    repeat split; auto.
    intros later old Hne. eapply verifyOtp_mismatch; [exact F|].
    apply mismatch_other. rewrite T. congruence.
  - intros dto Hf.
    destruct (forgotPassword_found now rnd dto w u Hf) as (w' & E & F).
    destruct (challenged_fields now None (generateOTP rnd) (now + minutes 10) u)
      as (T & X & V & _).
    rewrite E. do 2 eexists. split; [reflexivity|]. split; [exact F|].
    repeat split; auto.
    intros later salt reset He Hp Hne.
    eapply resetPassword_mismatch; [exact Hp | rewrite He; exact F |].
    apply mismatch_other. rewrite T. congruence.
  - intros salt dto Hf.
    destruct (register_fresh now rnd salt dto w Hf)
      as (u' & w' & E & _ & F & _ & _ & _ & T & R & X).
    rewrite E. eauto.
Qed.

Lemma C3_witness :
  exists u',
    find (Prisma.byEmail "alice@example.com") (users Demo.resetting) = Some u'
    /\ User.resetPasswordToken u' = Some "5678"
    /\ User.resetPasswordExpires u' = Some 601000
    /\ User.emailVerificationToken u' = Some "1234"
    /\ resetPassword 2000 9 {| reset_email := "alice@example.com"; reset_otp := "1234";
                               newPassword := "Secret123"; confirmPassword := "Secret123" |}
         Demo.resetting
       = (Throw (BadRequestException "Invalid OTP"), Demo.resetting).
Proof.
  destruct (C3_two_code_fields_one_expiry Demo.cfg 1000 4678 Demo.registered
              Demo.alice_pending) as (_ & H & _).
  destruct (H {| forgot_email := "alice@example.com" |}) as (u' & w' & E & F & T & X & V & R).
  { vm_compute. reflexivity. }
  change (snd (forgotPassword 1000 4678 {| forgot_email := "alice@example.com" |}
                 Demo.registered)) with Demo.resetting in E.
  subst w'. exists u'.
  split; [exact F|]. split; [exact T|]. split; [exact X|]. split; [exact V|].
  apply R; [reflexivity | reflexivity | discriminate].
Defined.

(** ** C4 *)

(** C4.  When the row holds a code and an expiry that lies in the past,
    [verifyOtp] and [resetPassword] called with that very code fail with their
    expiry errors, and the store is as it was: the code is not cleared.
    ([resetPassword] first compares the new password with its confirmation;
    when they differ it fails on that, and writes nothing either.) *)
Theorem C4_expired_code_is_rejected_and_kept {crypto : Crypto} {js : Js.Strings} (cfg : Config)
  (now t : Z) (email otp : string) (w : World) (u : User.t) :
  find (Prisma.byEmail email) (users w) = Some u ->
  User.resetPasswordToken u = Some otp -> otp <> "" ->
  User.resetPasswordExpires u = Some t -> t < now ->
  verifyOtp cfg now email otp w = (Throw (UnauthorizedException "OTP expired."), w)
  /\ (forall salt dto,
        Js.toLowerCase (reset_email dto) = email -> reset_otp dto = otp ->
        newPassword dto = confirmPassword dto ->
        resetPassword now salt dto w
        = (Throw (BadRequestException "OTP expired. Please request a new one."), w))
  /\ (forall salt dto,
        Js.toLowerCase (reset_email dto) = email -> reset_otp dto = otp ->
        exists x, resetPassword now salt dto w = (Throw x, w)).
Proof.
  intros Hf Ht Hne Hx Hlt.
  assert (forall salt dto,
             Js.toLowerCase (reset_email dto) = email -> reset_otp dto = otp ->
             newPassword dto = confirmPassword dto ->
             resetPassword now salt dto w
             = (Throw (BadRequestException "OTP expired. Please request a new one."), w))
    as Reset.
  { intros salt dto He Ho Hp. subst email otp.
    eapply resetPassword_expired; [exact Hp | exact Hf | |].
    - rewrite Ht. now apply mismatch_stored.
    - rewrite Hx. now apply expired_past. }
  split; [|split; [exact Reset|]].
  - eapply verifyOtp_expired; [exact Hf | |].
    + rewrite Ht. now apply mismatch_stored.
    + rewrite Hx. now apply expired_past.
  - intros salt dto He Ho.
    destruct (String.eqb_spec (newPassword dto) (confirmPassword dto)) as [Hp|Hp].
    + eexists. now apply Reset.
    + eexists. now apply resetPassword_unmatched.
Qed.

Lemma C4_witness :
  verifyOtp Demo.cfg 400000 "alice@example.com" "5678" Demo.awaiting
  = (Throw (UnauthorizedException "OTP expired."), Demo.awaiting)
  /\ resetPassword 400000 9 Demo.alice_reset Demo.awaiting
     = (Throw (BadRequestException "OTP expired. Please request a new one."),
        Demo.awaiting).
Proof.
  destruct (C4_expired_code_is_rejected_and_kept Demo.cfg 400000 302000
              "alice@example.com" "5678" Demo.awaiting
              (challenged 2000 None "5678" 302000 Demo.alice_active)) as (V & R & _).
  - vm_compute. reflexivity.
  - reflexivity.
  - discriminate.
  - reflexivity.
  - lia.
  - split; [exact V|]. apply R; reflexivity.
Defined.

(** ** C9 *)

(** C9.  When the row holds a code and its expiry field is null, the expiry
    check is skipped: [verifyOtp] and [resetPassword] accept the code in
    [resetPasswordToken], and [verifyEmail] the code in
    [emailVerificationToken], whatever the time of the call. *)
Theorem C9_null_expiry_never_expires
  {crypto : Crypto} {js : Js.Strings} {smtp : Transporter} (cfg : Config)
  (now : Z) (email otp : string) (w : World) (u : User.t) :
  find (Prisma.byEmail email) (users w) = Some u ->
  User.resetPasswordExpires u = None -> otp <> "" ->
  (User.resetPasswordToken u = Some otp ->
   Js.truthy (JWT_REFRESH_SECRET cfg) = true ->
   exists v w', verifyOtp cfg now email otp w = (Ok v, w'))
  /\ (User.resetPasswordToken u = Some otp ->
      forall salt dto,
        Js.toLowerCase (reset_email dto) = email -> reset_otp dto = otp ->
        newPassword dto = confirmPassword dto ->
        exists w', resetPassword now salt dto w
                   = (Ok (envelope "success" "Password reset successfully"), w'))
  /\ (User.emailVerificationToken u = Some otp ->
      forall address, Js.toLowerCase address = email ->
        exists msg w', verifyEmail now address otp w = (Ok (envelope "success" msg), w')).
Proof.
  intros Hf Hx Hne. repeat split.
  - intros Ht Hs.
    destruct (verifyOtp_accepts cfg now email otp w u Hf) as (r & E & Hok & _).
    + rewrite Ht. now apply mismatch_stored.
    + now rewrite Hx.
    + destruct (Hok Hs) as [v ->]. eauto.
  - intros Ht salt dto He Ho Hp. subst email otp.
    eapply resetPassword_accepts; [exact Hp | exact Hf | |].
    + rewrite Ht. now apply mismatch_stored.
    + now rewrite Hx.
  - intros Ht address He. subst email.
    eapply verifyEmail_accepts; [exact Hf | |].
    + rewrite Ht. now apply mismatch_stored.
    + now rewrite Hx.
Qed.

Lemma C9_witness :
  (exists v w', verifyOtp Demo.cfg 1000000000000 "alice@example.com" "5678" Demo.lingering
                = (Ok v, w'))
  /\ (exists w', resetPassword 1000000000000 9 Demo.alice_reset Demo.lingering
                 = (Ok (envelope "success" "Password reset successfully"), w'))
  /\ (exists msg w', verifyEmail 1000000000000 "Alice@Example.com" "1234" Demo.stale
                     = (Ok (envelope "success" msg), w')).
Proof.
  split; [|split].
  - destruct (C9_null_expiry_never_expires Demo.cfg 1000000000000 "alice@example.com"
                "5678" Demo.lingering
                (activated 2000 (challenged 1000 None "5678" 601000 Demo.alice_pending)))
      as (H & _); [vm_compute; reflexivity | reflexivity | discriminate |].
    apply H; reflexivity.
  - destruct (C9_null_expiry_never_expires Demo.cfg 1000000000000 "alice@example.com"
                "5678" Demo.lingering
                (activated 2000 (challenged 1000 None "5678" 601000 Demo.alice_pending)))
      as (_ & H & _); [vm_compute; reflexivity | reflexivity | discriminate |].
    apply H; reflexivity.
  - destruct (C9_null_expiry_never_expires Demo.cfg 1000000000000 "alice@example.com"
                "1234" Demo.stale
                (User.set_updatedAt 2000
                   (User.set_resetPasswordExpires None
                      (User.set_resetPasswordToken None
                         (User.set_password "9$Secret123"
                            (challenged 1000 None "5678" 601000 Demo.alice_pending))))))
      as (_ & _ & H); [vm_compute; reflexivity | reflexivity | discriminate |].
    apply H; reflexivity.
Defined.

(** ** C5 *)

Lemma refreshToken_throws {crypto : Crypto} (cfg : Config) now token w x w' :
  refreshToken cfg now token w = (Throw x, w') ->
  x = UnauthorizedException "Invalid refresh token"
  \/ (Js.truthy (JWT_REFRESH_SECRET cfg) = false
      /\ x = Error "JWT_REFRESH_SECRET is not configured").
Proof.
  unfold refreshToken. unfold bind at 1. unfold try_catch.
  destruct (bind _ _ w) as [[t|y] w1].
  - unfold generateTokens.
    destruct (Js.truthy (JWT_REFRESH_SECRET cfg)); cbn [negb]; unfold throw, ret;
      intros H; inversion H. right. split; reflexivity.
  - unfold throw. intros H. inversion H. now left.
Qed.

(** C5.  Whatever makes the verification of [refreshToken] fail, the caller
    gets the same [Unauthorized] error, [Invalid refresh token]: a token the
    JWT service rejects (bad signature, expired, malformed), a payload whose
    subject is not a number, and a subject with no user all end there, and
    nothing is written.  It is the only error of the method when the refresh
    secret is configured; without the secret an accepted token ends in the
    error of [generateTokens], whose promise the [try] block returns without
    awaiting it. *)
Theorem C5_refreshToken_uniform_failure {crypto : Crypto} (cfg : Config)
  (now : Z) (token : string) (w : World) :
  let invalid := Throw (UnauthorizedException "Invalid refresh token") in
  (forall x w', refreshToken cfg now token w = (Throw x, w') ->
                x = UnauthorizedException "Invalid refresh token"
                \/ (Js.truthy (JWT_REFRESH_SECRET cfg) = false
                    /\ x = Error "JWT_REFRESH_SECRET is not configured"))
  /\ (forall x, jwt_verify token (JWT_REFRESH_SECRET cfg) now = Throw x ->
                refreshToken cfg now token w = (invalid, w))
  /\ (forall p, jwt_verify token (JWT_REFRESH_SECRET cfg) now = Ok p ->
                sub_number p = None ->
                refreshToken cfg now token w = (invalid, w))
  /\ (forall p i, jwt_verify token (JWT_REFRESH_SECRET cfg) now = Ok p ->
                  sub_number p = Some i ->
                  find (Prisma.byId i) (users w) = None ->
                  refreshToken cfg now token w = (invalid, w)).
Proof.
  cbv zeta. split; [apply refreshToken_throws|].
  unfold refreshToken, try_catch, bind, lift. repeat split.
  - intros x ->. reflexivity.
  - intros p -> ->. reflexivity.
  - intros p i -> ->. unfold Prisma.findUnique. intros ->. reflexivity.
Qed.

Lemma C5_witness :
  let invalid := Throw (UnauthorizedException "Invalid refresh token") in
  refreshToken Demo.cfg 5000 "604800.1.forged" Demo.verified = (invalid, Demo.verified)
  /\ refreshToken Demo.cfg 700000000 "604800.1.refresh" Demo.verified
     = (invalid, Demo.verified)
  /\ refreshToken Demo.cfg 5000 "not a token" Demo.verified = (invalid, Demo.verified)
  /\ refreshToken Demo.cfg 5000 "604800.2.refresh" Demo.verified = (invalid, Demo.verified).
Proof.
  cbv zeta. split; [|split; [|split]].
  - destruct (C5_refreshToken_uniform_failure Demo.cfg 5000 "604800.1.forged" Demo.verified)
      as (_ & H & _).
    apply (H (JsonWebTokenError "invalid signature")). reflexivity.
  - destruct (C5_refreshToken_uniform_failure Demo.cfg 700000000 "604800.1.refresh"
                Demo.verified) as (_ & H & _).
    apply (H TokenExpiredError). reflexivity.
  - destruct (C5_refreshToken_uniform_failure Demo.cfg 5000 "not a token" Demo.verified)
      as (_ & H & _).
    apply (H (JsonWebTokenError "jwt malformed")). reflexivity.
  - destruct (C5_refreshToken_uniform_failure Demo.cfg 5000 "604800.2.refresh"
                Demo.verified) as (_ & _ & _ & H).
    apply (H {| sub_number := Some 2; exp := 604800 |} 2); reflexivity.
Defined.

(** ** C6 *)

(** C6.  [forgotPassword] for an address that is in the store and
    [forgotPassword] for one that is not return the same envelope, status and
    message alike. *)
Theorem C6_forgotPassword_same_answer {crypto : Crypto} {js : Js.Strings} {smtp : Transporter}
  (now now' rnd rnd' : Z) (known unknown : ForgotPasswordDto) (w w' : World) (u : User.t) :
  find (Prisma.byEmail (Js.toLowerCase (forgot_email known))) (users w) = Some u ->
  find (Prisma.byEmail (Js.toLowerCase (forgot_email unknown))) (users w') = None ->
  fst (forgotPassword now rnd known w) = fst (forgotPassword now' rnd' unknown w')
  /\ fst (forgotPassword now rnd known w) = Ok (envelope "success" reset_message).
Proof.
  intros Hk Hu.
  destruct (forgotPassword_found now rnd known w u Hk) as (w1 & -> & _).
  now rewrite (forgotPassword_unknown now' rnd' unknown w' Hu).
Qed.

Lemma C6_witness :
  fst (forgotPassword 1000 4678 {| forgot_email := "Alice@Example.com" |} Demo.registered)
  = fst (forgotPassword 1000 4678 {| forgot_email := "bob@example.com" |} Demo.registered).
Proof.
  apply (C6_forgotPassword_same_answer 1000 1000 4678 4678
           {| forgot_email := "Alice@Example.com" |}
           {| forgot_email := "bob@example.com" |}
           Demo.registered Demo.registered Demo.alice_pending); reflexivity.
Defined.

(** ** C7 *)

Lemma login_user_keys u :
  keys (login_user u)
  = ["id"; "email"; "firstname"; "lastname"; "role"; "emailVerified"; "mfaEnabled";
     "isEmail"; "isNotification"; "profilePicture"].
Proof. reflexivity. Qed.

Lemma login_user_no_password u h :
  ~ In "password" (keys (login_user u))
  /\ login_user (User.set_password h u) = login_user u.
Proof.
  split; [|destruct u; reflexivity].
  rewrite login_user_keys. simpl. intros H.
  repeat (destruct H as [H|H]; [discriminate|]). exact H.
Qed.

(** C7.  [login] checks, in this order, that the address has an account, that
    the account is verified and that the password matches the stored hash;
    each failure is an [Unauthorized] error raised before anything is written,
    sent or signed.  When all three pass and the account has no second factor,
    [lastLoginAt] is stamped and the response carries the token pair and a
    [user] object with no [password] key, the same whatever the hash. *)
Theorem C7_login_checks_before_issuing {crypto : Crypto} {smtp : Transporter} (cfg : Config)
  (now rnd : Z) (dto : LoginDto) (w : World) :
  (find (Prisma.byEmail (login_email dto)) (users w) = None ->
   login cfg now rnd dto w
   = (Throw (UnauthorizedException "No account found with this email."), w))
  /\ (forall u,
        find (Prisma.byEmail (login_email dto)) (users w) = Some u ->
        User.emailVerified u = false ->
        login cfg now rnd dto w
        = (Throw (UnauthorizedException
                    "Email not verified. Please check your email for verification OTP."),
           w))
  /\ (forall u,
        find (Prisma.byEmail (login_email dto)) (users w) = Some u ->
        User.emailVerified u = true ->
        bcrypt_compare (login_password dto) (User.password u) = false ->
        login cfg now rnd dto w
        = (Throw (UnauthorizedException "Incorrect password."), w))
  /\ (forall u,
        find (Prisma.byEmail (login_email dto)) (users w) = Some u ->
        User.emailVerified u = true ->
        bcrypt_compare (login_password dto) (User.password u) = true ->
        User.mfaEnabled u = false ->
        Js.truthy (JWT_REFRESH_SECRET cfg) = true ->
        exists t w' u',
          generateTokens cfg now u w = (Ok t, w)
          /\ login cfg now rnd dto w
             = (Ok (JObj [("status", JStr "success");
                          ("message", JStr "Successfully logged in.");
                          ("user", login_user u);
                          ("accessToken", JStr (Tokens.accessToken t));
                          ("refreshToken", JStr (Tokens.refreshToken t))]), w')
          /\ find (Prisma.byEmail (login_email dto)) (users w') = Some u'
          /\ User.lastLoginAt u' = Some now
          /\ ~ In "password" (keys (login_user u))
          /\ forall h, login_user (User.set_password h u) = login_user u).
Proof.
  split; [apply login_unknown|].
  split; [intros u; apply login_unverified|].
  split; [intros u; apply login_wrong_password|].
  intros u Hf Hv Hp Hm Hs.
  destruct (generateTokens_configured cfg now u Hs w) as [t Ht].
  destruct (login_ok cfg now rnd dto w u t Hf Hv Hp Hm Ht) as (w' & E & F).
  exists t, w'. eexists. split; [exact Ht|]. split; [exact E|]. split; [exact F|].
  split; [unfold logged_in, registered_device;
          destruct (Js.truthy (login_fcmToken dto)), u; reflexivity|].
  split; [apply (login_user_no_password u "") | intros h; apply login_user_no_password].
Qed.

Lemma C7_witness :
  login Demo.cfg 2000 0 Demo.alice_login Demo.registered
  = (Throw (UnauthorizedException
              "Email not verified. Please check your email for verification OTP."),
     Demo.registered)
  /\ exists t w' u',
       generateTokens Demo.cfg 2000 Demo.alice_active Demo.verified = (Ok t, Demo.verified)
       /\ login Demo.cfg 2000 0 Demo.alice_login Demo.verified
          = (Ok (JObj [("status", JStr "success");
                       ("message", JStr "Successfully logged in.");
                       ("user", login_user Demo.alice_active);
                       ("accessToken", JStr (Tokens.accessToken t));
                       ("refreshToken", JStr (Tokens.refreshToken t))]), w')
       /\ find (Prisma.byEmail "alice@example.com") (users w') = Some u'
       /\ User.lastLoginAt u' = Some 2000
       /\ ~ In "password" (keys (login_user Demo.alice_active))
       /\ forall h, login_user (User.set_password h Demo.alice_active)
                    = login_user Demo.alice_active.
Proof.
  split.
  - destruct (C7_login_checks_before_issuing Demo.cfg 2000 0 Demo.alice_login
                Demo.registered) as (_ & H & _).
    apply (H Demo.alice_pending); reflexivity.
  - destruct (C7_login_checks_before_issuing Demo.cfg 2000 0 Demo.alice_login
                Demo.verified) as (_ & _ & _ & H).
    apply (H Demo.alice_active); reflexivity.
Defined.

(** ** C8 *)

(** C8.  After a registration that succeeded, the row of the address awaits
    verification ([PENDING_VERIFICATION], [emailVerified] false).  Whatever
    calls follow, a registration with the same address, in any case of its
    letters, fails with [Conflict] and leaves the store as it is, and the row
    still awaits verification unless one of the calls was a [verifyEmail] for
    the address that returned normally. *)
Theorem C8_register_twice_conflicts
  {crypto : Crypto} {js : Js.Strings} {smtp : Transporter} (cfg : Config)
  (now rnd salt : Z) (dto : RegisterDto) (w : World) :
  wf w ->
  find (Prisma.byEmail (Js.toLowerCase (reg_email dto))) (users w) = None ->
  exists v w1 u,
    register now rnd salt dto w = (Ok v, w1)
    /\ find (Prisma.byEmail (Js.toLowerCase (reg_email dto))) (users w1) = Some u
    /\ pending u
    /\ forall cs now' rnd' salt' dto',
         let w2 := snd (run_all cfg cs w1) in
         Js.toLowerCase (reg_email dto') = Js.toLowerCase (reg_email dto) ->
         register now' rnd' salt' dto' w2
         = (Throw (ConflictException "User with this email already exists"), w2)
         /\ exists u',
              find (Prisma.byEmail (Js.toLowerCase (reg_email dto))) (users w2) = Some u'
              /\ (pending u'
                  \/ Exists (verifies (Js.toLowerCase (reg_email dto)))
                       (combine cs (fst (run_all cfg cs w1)))).
Proof.
  intros Hw Hf.
  destruct (register_fresh now rnd salt dto w Hf)
    as (u & w1 & E & _ & F & _ & S & V & _).
  assert (wf w1) as Hw1.
  { pose proof (register_quiet now rnd salt dto w) as [W _]. rewrite E in W. auto. }
  do 3 eexists. split; [exact E|]. split; [exact F|]. split; [split; assumption|].
  intros cs now' rnd' salt' dto' w2 He.
  destruct (run_all_pending cfg cs w1 _ u Hw1 F (conj S V)) as (u' & F' & P).
  split; [|eauto].
  eapply register_conflict. rewrite He. exact F'.
Qed.

Lemma C8_witness :
  exists v w1 u,
    register 0 234 7 Demo.alice Demo.empty = (Ok v, w1)
    /\ find (Prisma.byEmail "alice@example.com") (users w1) = Some u
    /\ pending u
    /\ forall cs now' rnd' salt' dto',
         let w2 := snd (run_all Demo.cfg cs w1) in
         Js.toLowerCase (reg_email dto') = "alice@example.com" ->
         register now' rnd' salt' dto' w2
         = (Throw (ConflictException "User with this email already exists"), w2)
         /\ exists u',
              find (Prisma.byEmail "alice@example.com") (users w2) = Some u'
              /\ (pending u'
                  \/ Exists (verifies "alice@example.com")
                       (combine cs (fst (run_all Demo.cfg cs w1)))).
Proof.
  refine (C8_register_twice_conflicts Demo.cfg 0 234 7 Demo.alice Demo.empty _ _).
  - split; constructor.
  - reflexivity.
Defined.

(** * Further properties of the service *)

(** ** The rows the methods leave *)

Section Rows.

Context {crypto : Crypto} {js : Js.Strings} {smtp : Transporter} (cfg : Config).
Implicit Types (u : User.t) (w : World) (e otp : string) (now rnd : Z).

Lemma expired_within t now : now <= t -> expired (Some t) now = false.
Proof. intros H. simpl. apply Z.ltb_ge. exact H. Qed.

Lemma generateOTP_nonempty rnd : generateOTP rnd <> "".
Proof.
  pose proof (generateOTP_four_digits rnd) as H. unfold four_digits in H.
  intros E. rewrite E in H. discriminate.
Qed.

Lemma generateOTP_matches rnd : mismatch (Some (generateOTP rnd)) (generateOTP rnd) = false.
Proof. apply mismatch_stored, generateOTP_nonempty. Qed.

Lemma find_byId_patched i (f : User.t -> User.t) (l : list User.t) u :
  User.keeps_identity f ->
  find (Prisma.byId i) l = Some u ->
  find (Prisma.byId i) (map (Prisma.patch i f) l) = Some (f u).
Proof.
  intros Hf H. rewrite find_map_keep.
  - rewrite H. simpl. unfold Prisma.patch.
    apply find_some in H as [_ H]. now rewrite H.
  - intros x. unfold Prisma.byId. now rewrite patch_id.
Qed.

(** The whole answer of a [verifyOtp] call that passes both checks. *)
Lemma verifyOtp_issues now e otp w u t :
  find (Prisma.byEmail e) (users w) = Some u ->
  mismatch (User.resetPasswordToken u) otp = false ->
  expired (User.resetPasswordExpires u) now = false ->
  generateTokens cfg now u w = (Ok t, w) ->
  verifyOtp cfg now e otp w
  = (Ok (JObj [("status", JStr "success");
               ("message", JStr "OTP verified successfully.");
               ("user", verifyOtp_user u);
               ("accessToken", JStr (Tokens.accessToken t));
               ("refreshToken", JStr (Tokens.refreshToken t))]),
     with_users (map (Prisma.patch (User.id u) (consumed now)) (users w)) w).
Proof.
  intros Hf Hm He Ht.
  destruct (update_found _ (consumed now) _ _ ltac:(steady) Hf) as [u0 Hu].
  unfold verifyOtp. unfold bind at 1, Prisma.findUnique. rewrite Hf, Hm, He.
  unfold consumed in Hu. unfold bind, Prisma.update. cbn beta. rewrite Hu. cbn beta iota.
  erewrite generateTokens_any_world by exact Ht. reflexivity.
Qed.

Lemma verifyEmail_activates now e otp w u :
  find (Prisma.byEmail (Js.toLowerCase e)) (users w) = Some u ->
  User.emailVerified u = false ->
  mismatch (User.emailVerificationToken u) otp = false ->
  expired (User.resetPasswordExpires u) now = false ->
  exists w',
    verifyEmail now e otp w = (Ok (envelope "success" "Email verified successfully"), w')
    /\ find (Prisma.byEmail (Js.toLowerCase e)) (users w') = Some (activated now u)
    /\ outbox w' = (outbox w ++ [WelcomeEmail (User.email u)
                                   (Js.or_else (User.firstName u) (User.name u))])%list
    /\ length (users w') = length (users w).
Proof.
  intros Hf Hv Hm He. unfold verifyEmail, activated.
  unfold bind at 1, Prisma.findUnique. rewrite Hf, Hv, Hm, He.
  assert (Hi : User.id u = User.id u) by reflexivity.
  updated Hf Hi.
  unfold MailService.sendWelcomeEmail, MailService.sendMail, bind, submit, ret.
  cbn beta iota.
  eexists. split; [reflexivity|]. simpl. rewrite length_map. auto.
Qed.

Lemma verifyEmail_mismatch now e otp w u :
  find (Prisma.byEmail (Js.toLowerCase e)) (users w) = Some u ->
  User.emailVerified u = false ->
  mismatch (User.emailVerificationToken u) otp = true ->
  verifyEmail now e otp w = (Throw (BadRequestException "Invalid OTP"), w).
Proof.
  intros Hf Hv Hm. unfold verifyEmail, bind, Prisma.findUnique.
  now rewrite Hf, Hv, Hm.
Qed.

Lemma verifyEmail_verified now e otp w u :
  find (Prisma.byEmail (Js.toLowerCase e)) (users w) = Some u ->
  User.emailVerified u = true ->
  verifyEmail now e otp w = (Ok (envelope "success" "Email already verified"), w).
Proof.
  intros Hf Hv. unfold verifyEmail, bind, Prisma.findUnique. now rewrite Hf, Hv.
Qed.

Lemma resetPassword_resets now salt dto w u :
  newPassword dto = confirmPassword dto ->
  find (Prisma.byEmail (Js.toLowerCase (reset_email dto))) (users w) = Some u ->
  mismatch (User.resetPasswordToken u) (reset_otp dto) = false ->
  expired (User.resetPasswordExpires u) now = false ->
  exists w',
    resetPassword now salt dto w
    = (Ok (envelope "success" "Password reset successfully"), w')
    /\ find (Prisma.byEmail (Js.toLowerCase (reset_email dto))) (users w')
       = Some (reset_to now (bcrypt_hash (newPassword dto) 12 salt) u)
    /\ outbox w' = outbox w.
Proof.
  intros Hp Hf Hm He. unfold resetPassword, reset_to.
  apply String.eqb_eq in Hp. rewrite Hp. cbn [negb].
  unfold bind at 1, Prisma.findUnique. rewrite Hf, Hm, He.
  assert (Hi : User.id u = User.id u) by reflexivity.
  updated Hf Hi. unfold ret. eexists. split; [reflexivity|]. simpl. auto.
Qed.

Lemma resend_reissues now rnd e w u :
  find (Prisma.byEmail (Js.toLowerCase e)) (users w) = Some u ->
  User.emailVerified u = false ->
  exists w',
    resendEmailVerificationOTP now rnd e w
    = (Ok (envelope "success" "Verification OTP sent successfully."), w')
    /\ find (Prisma.byEmail (Js.toLowerCase e)) (users w')
       = Some (reissued now (generateOTP rnd) (now + minutes 10) u)
    /\ outbox w' = (outbox w ++ [EmailVerificationOTP (User.email u) (generateOTP rnd)
                                   (Js.or_else (User.firstName u) (User.name u))])%list.
Proof.
  intros Hf Hv. unfold resendEmailVerificationOTP, reissued.
  unfold bind at 1, Prisma.findUnique. rewrite Hf, Hv.
  assert (Hi : User.id u = User.id u) by reflexivity.
  updated Hf Hi. rewrite sendEmailVerificationOTP_run. unfold ret, posted.
  eexists. split; [reflexivity|]. simpl. auto.
Qed.

Lemma forgotPassword_sends now rnd dto w u :
  find (Prisma.byEmail (Js.toLowerCase (forgot_email dto))) (users w) = Some u ->
  exists w',
    forgotPassword now rnd dto w = (Ok (envelope "success" reset_message), w')
    /\ find (Prisma.byEmail (Js.toLowerCase (forgot_email dto))) (users w')
       = Some (challenged now None (generateOTP rnd) (now + minutes 10) u)
    /\ outbox w'
       = (outbox w ++
          if User.isEmail u
          then [EmailVerificationOTP (User.email u) (generateOTP rnd)
                  (Js.or_else (User.firstName u) (User.name u))]
          else [])%list.
Proof.
  intros Hf. unfold forgotPassword, challenged.
  unfold bind at 1, Prisma.findUnique. rewrite Hf. cbn [Js.truthy].
  assert (Hi : User.id u = User.id u) by reflexivity.
  updated Hf Hi.
  destruct (User.isEmail u); [rewrite sendEmailVerificationOTP_run|];
    unfold ret, posted; eexists; (split; [reflexivity|]);
    simpl; rewrite ?app_nil_r; auto.
Qed.

(** [login] and [verifyOtp] without a refresh secret: the row is written,
    then the call throws. *)
Lemma login_unconfigured now rnd dto w u :
  find (Prisma.byEmail (login_email dto)) (users w) = Some u ->
  User.emailVerified u = true ->
  bcrypt_compare (login_password dto) (User.password u) = true ->
  User.mfaEnabled u = false ->
  Js.truthy (JWT_REFRESH_SECRET cfg) = false ->
  exists w',
    login cfg now rnd dto w = (Throw (Error "JWT_REFRESH_SECRET is not configured"), w')
    /\ find (Prisma.byEmail (login_email dto)) (users w')
       = Some (logged_in now (login_fcmToken dto) u).
Proof.
  intros Hf Hv Hp Hm Hs. unfold login, comparePasswords, logged_in, registered_device.
  unfold bind at 1, Prisma.findUnique. rewrite Hf, Hv, Hp, Hm. cbn [negb].
  assert (Hi : User.id u = User.id u) by reflexivity.
  destruct (Js.truthy (login_fcmToken dto)).
  - updated Hf Hi. unfold ret at 1. cbn beta iota.
    assert (Hi' : User.id (User.set_fcmToken (login_fcmToken dto)
                              (User.set_updatedAt now u)) = User.id u)
      by (destruct u; reflexivity).
    updated Hf Hi'. unfold generateTokens. rewrite Hs. unfold throw. simpl. eauto.
  - unfold bind at 1 2. unfold ret at 1. cbn beta iota.
    updated Hf Hi. unfold generateTokens. rewrite Hs. unfold throw. simpl. eauto.
Qed.

Lemma changePassword_changes now salt i dto w u :
  find (Prisma.byId i) (users w) = Some u ->
  bcrypt_compare (currentPassword dto) (User.password u) = true ->
  changePassword now salt i dto w
  = (Ok (envelope "success" "Password changed successfully"),
     with_users (map (Prisma.patch i
                        (changed_to now (bcrypt_hash (cp_newPassword dto) 12 salt)))
                   (users w)) w).
Proof.
  intros Hf Hp. unfold changePassword.
  unfold bind at 1, Prisma.findUnique. rewrite Hf, Hp. cbn [negb].
  destruct (update_found_at _ i
              (changed_to now (bcrypt_hash (cp_newPassword dto) 12 salt)) w u
              ltac:(steady) Hf (find_byId_id _ _ _ Hf)) as [u0 Hu].
  unfold changed_to in Hu. unfold bind, Prisma.update. cbn beta. rewrite Hu. reflexivity.
Qed.

Lemma changePassword_unknown now salt i dto w :
  find (Prisma.byId i) (users w) = None ->
  changePassword now salt i dto w = (Throw (UnauthorizedException "User not found"), w).
Proof. intros Hf. unfold changePassword, bind, Prisma.findUnique. now rewrite Hf. Qed.

Lemma changePassword_wrong now salt i dto w u :
  find (Prisma.byId i) (users w) = Some u ->
  bcrypt_compare (currentPassword dto) (User.password u) = false ->
  changePassword now salt i dto w
  = (Throw (UnauthorizedException "Current password is incorrect"), w).
Proof.
  intros Hf Hp. unfold changePassword, bind, Prisma.findUnique. now rewrite Hf, Hp.
Qed.

Lemma refreshToken_rotates now token w p i u t :
  jwt_verify token (JWT_REFRESH_SECRET cfg) now = Ok p ->
  sub_number p = Some i ->
  find (Prisma.byId i) (users w) = Some u ->
  generateTokens cfg now u w = (Ok t, w) ->
  refreshToken cfg now token w
  = (Ok t, with_users (map (Prisma.patch (User.id u) (logged_in now None))
                         (users w)) w).
Proof.
  intros Hv Hs Hf Ht. unfold refreshToken, try_catch, bind, lift.
  rewrite Hv, Hs. unfold Prisma.findUnique. rewrite Hf.
  destruct (update_found _ (logged_in now None) _ _ ltac:(steady) Hf) as [u0 Hu].
  unfold logged_in, registered_device in Hu. cbn [Js.truthy] in Hu.
  unfold Prisma.update. cbn beta. rewrite Hu. unfold ret. erewrite generateTokens_any_world by exact Ht. reflexivity.
Qed.

End Rows.

(** ** Issuing a code, then redeeming it *)

Section RoundTrips.

Context {crypto : Crypto} {js : Js.Strings} {smtp : Transporter} (cfg : Config).
Implicit Types (u : User.t) (w : World) (e otp : string) (now rnd : Z).

Lemma consumed_challenged now issued fcm otp t u :
  User.resetPasswordToken (consumed now (challenged issued fcm otp t u)) = None
  /\ User.resetPasswordExpires (consumed now (challenged issued fcm otp t u)) = None
  /\ User.lastLoginAt (consumed now (challenged issued fcm otp t u)) = Some now
  /\ User.lastLoginAt (challenged issued fcm otp t u) = User.lastLoginAt u
  /\ User.emailVerified (challenged issued fcm otp t u) = User.emailVerified u
  /\ User.status (challenged issued fcm otp t u) = User.status u.
Proof.
  unfold challenged, registered_device. destruct (Js.truthy fcm), u; repeat split.
Qed.

Lemma activated_fields now u :
  User.status (activated now u) = ACTIVE
  /\ User.emailVerified (activated now u) = true
  /\ User.emailVerificationToken (activated now u) = None
  /\ User.resetPasswordExpires (activated now u) = None
  /\ User.password (activated now u) = User.password u
  /\ User.mfaEnabled (activated now u) = User.mfaEnabled u
  /\ User.resetPasswordToken (activated now u) = User.resetPasswordToken u.
Proof. destruct u; repeat split. Qed.

Lemma reissued_fields now otp t u :
  User.emailVerificationToken (reissued now otp t u) = Some otp
  /\ User.resetPasswordExpires (reissued now otp t u) = Some t
  /\ User.emailVerified (reissued now otp t u) = User.emailVerified u
  /\ User.resetPasswordToken (reissued now otp t u) = User.resetPasswordToken u.
Proof. destruct u; repeat split. Qed.

Lemma reset_to_fields now h u :
  User.password (reset_to now h u) = h
  /\ User.resetPasswordToken (reset_to now h u) = None
  /\ User.resetPasswordExpires (reset_to now h u) = None
  /\ User.emailVerified (reset_to now h u) = User.emailVerified u
  /\ User.status (reset_to now h u) = User.status u
  /\ User.emailVerificationToken (reset_to now h u) = User.emailVerificationToken u.
Proof. destruct u; repeat split. Qed.

(** A code stored by [challenged] is accepted by [verifyOtp] until its expiry
    and refused after it. *)
Lemma redeem later issued e rnd fcm expiry w u :
  find (Prisma.byEmail e) (users w)
  = Some (challenged issued fcm (generateOTP rnd) expiry u) ->
  (later <= expiry -> Js.truthy (JWT_REFRESH_SECRET cfg) = true ->
   exists t w',
     verifyOtp cfg later e (generateOTP rnd) w
     = (Ok (JObj [("status", JStr "success");
                  ("message", JStr "OTP verified successfully.");
                  ("user", verifyOtp_user (challenged issued fcm (generateOTP rnd) expiry u));
                  ("accessToken", JStr (Tokens.accessToken t));
                  ("refreshToken", JStr (Tokens.refreshToken t))]), w')
     /\ find (Prisma.byEmail e) (users w')
        = Some (consumed later (challenged issued fcm (generateOTP rnd) expiry u)))
  /\ (expiry < later ->
      verifyOtp cfg later e (generateOTP rnd) w
      = (Throw (UnauthorizedException "OTP expired."), w)).
Proof.
  intros Hf.
  destruct (challenged_fields issued fcm (generateOTP rnd) expiry u) as (T & X & _).
  split.
  - intros Hl Hs.
    destruct (generateTokens_configured cfg later
                (challenged issued fcm (generateOTP rnd) expiry u) Hs w) as [t Ht].
    exists t. eexists. split.
    + apply verifyOtp_issues; [exact Hf | | | exact Ht].
      * rewrite T. apply generateOTP_matches.
      * rewrite X. now apply expired_within.
    + simpl. apply find_byEmail_patched; [keeps | exact Hf].
  - intros Hl. eapply verifyOtp_expired; [exact Hf | |].
    + rewrite T. apply generateOTP_matches.
    + rewrite X. now apply expired_past.
Qed.

End RoundTrips.

(** X1.  [sendOtp] stores a fresh code with an expiry five minutes ahead and
    hands the mail with the code to the transporter: it answers with the
    success envelope when the server takes the message, and fails with the
    error of the transporter when it does not, the code staying stored.
    Within five minutes [verifyOtp] exchanges the code for a token pair, stamps
    [lastLoginAt] and clears the code; after five minutes the same code is
    refused as expired and nothing is written. *)
Theorem X1_sendOtp_then_verifyOtp {crypto : Crypto} {smtp : Transporter} (cfg : Config)
  (now later rnd : Z) (email : string) (w : World) (u : User.t) :
  let mail := OTPEmail (User.email u) (User.name u) (generateOTP rnd) in
  let w1 := snd (sendOtp now rnd email w) in
  find (Prisma.byEmail email) (users w) = Some u ->
  Js.truthy (JWT_REFRESH_SECRET cfg) = true ->
  later <= now + minutes 5 ->
  (transporter_sendMail now mail 1 = None ->
   fst (sendOtp now rnd email w) = Ok (envelope "success" "OTP sent successfully."))
  /\ (forall msg, transporter_sendMail now mail 1 = Some msg ->
      fst (sendOtp now rnd email w) = Throw (Error msg))
  /\ outbox w1 = (outbox w ++ [mail])%list
  /\ exists v w2 u2,
       verifyOtp cfg later email (generateOTP rnd) w1 = (Ok v, w2)
       /\ (exists a r, field "accessToken" v = Some (JStr a)
                       /\ field "refreshToken" v = Some (JStr r))
       /\ find (Prisma.byEmail email) (users w2) = Some u2
       /\ User.resetPasswordToken u2 = None
       /\ User.resetPasswordExpires u2 = None
       /\ User.lastLoginAt u2 = Some later
       /\ forall late, now + minutes 5 < late ->
            verifyOtp cfg late email (generateOTP rnd) w1
            = (Throw (UnauthorizedException "OTP expired."), w1).
Proof.
  cbv zeta. intros Hf Hs Hl.
  destruct (sendOtp_found now rnd email w u Hf) as (w1 & E1 & F1 & O1).
  rewrite E1. cbn [fst snd]. unfold delivery.
  destruct (redeem cfg later now email rnd None (now + minutes 5) w1 u F1) as [Hok _].
  destruct (Hok Hl Hs) as (t & w2 & E2 & F2).
  destruct (consumed_challenged later now None (generateOTP rnd) (now + minutes 5) u)
    as (T & X & L & _).
  split; [intros ->; reflexivity|]. split; [intros msg ->; reflexivity|].
  split; [exact O1|].
  eexists. exists w2. eexists.
  split; [exact E2|].
  split; [do 2 eexists; split; reflexivity|].
  split; [exact F2|]. split; [exact T|]. split; [exact X|]. split; [exact L|].
  intros late Hlate.
  now apply (redeem cfg late now email rnd None (now + minutes 5) w1 u F1).
Qed.

Lemma X1_witness :
  let w1 := snd (sendOtp 2000 4678 "alice@example.com" Demo.verified) in
  let w1' := snd (sendOtp (smtp := Examples.offline) 2000 4678 "alice@example.com"
                    Demo.verified) in
  (fst (sendOtp 2000 4678 "alice@example.com" Demo.verified)
   = Ok (envelope "success" "OTP sent successfully.")
   /\ exists v w2 u2,
        verifyOtp Demo.cfg 302000 "alice@example.com" "5678" w1 = (Ok v, w2)
        /\ find (Prisma.byEmail "alice@example.com") (users w2) = Some u2
        /\ User.lastLoginAt u2 = Some 302000)
  /\ (fst (sendOtp (smtp := Examples.offline) 2000 4678 "alice@example.com" Demo.verified)
      = Throw (Error "connect ECONNREFUSED 127.0.0.1:587")
      /\ exists v w2, verifyOtp Demo.cfg 302000 "alice@example.com" "5678" w1' = (Ok v, w2)).
Proof.
  cbv zeta. split.
  - destruct (X1_sendOtp_then_verifyOtp Demo.cfg 2000 302000 4678 "alice@example.com"
                Demo.verified Demo.alice_active)
      as (H & _ & _ & v & w2 & u2 & E & _ & F & _ & _ & L & _);
      [reflexivity | reflexivity | vm_compute; discriminate |].
    split; [apply H; reflexivity|]. exists v, w2, u2. auto.
  - destruct (X1_sendOtp_then_verifyOtp (smtp := Examples.offline) Demo.cfg 2000 302000
                4678 "alice@example.com" Demo.verified Demo.alice_active)
      as (_ & H & _ & v & w2 & u2 & E & _);
      [reflexivity | reflexivity | vm_compute; discriminate |].
    split; [apply H; reflexivity|]. exists v, w2. exact E.
Defined.

(** X2.  A login with the second factor enabled stores a fresh code and hands
    the mail with it to the transporter, leaving [lastLoginAt] alone: it
    answers without tokens when the server takes the message, and fails with
    the error of the transporter when it does not, the code staying stored.
    [verifyOtp] with that code, within five minutes, returns the token pair
    and stamps [lastLoginAt]. *)
Theorem X2_login_second_factor_then_verifyOtp {crypto : Crypto} {smtp : Transporter}
  (cfg : Config) (now later rnd : Z) (dto : LoginDto) (w : World) (u : User.t) :
  let mail := OTPEmail (User.email u) (User.name u) (generateOTP rnd) in
  let w1 := snd (login cfg now rnd dto w) in
  find (Prisma.byEmail (login_email dto)) (users w) = Some u ->
  User.emailVerified u = true ->
  bcrypt_compare (login_password dto) (User.password u) = true ->
  User.mfaEnabled u = true ->
  Js.truthy (JWT_REFRESH_SECRET cfg) = true ->
  later <= now + minutes 5 ->
  (transporter_sendMail now mail 1 = None ->
   exists v1, fst (login cfg now rnd dto w) = Ok v1
              /\ keys v1 = ["message"; "mfaRequired"; "email"])
  /\ (forall msg, transporter_sendMail now mail 1 = Some msg ->
      fst (login cfg now rnd dto w) = Throw (Error msg))
  /\ outbox w1 = (outbox w ++ [mail])%list
  /\ exists u1 v2 w2 u2,
       find (Prisma.byEmail (login_email dto)) (users w1) = Some u1
       /\ User.lastLoginAt u1 = User.lastLoginAt u
       /\ verifyOtp cfg later (login_email dto) (generateOTP rnd) w1 = (Ok v2, w2)
       /\ (exists a r, field "accessToken" v2 = Some (JStr a)
                       /\ field "refreshToken" v2 = Some (JStr r))
       /\ find (Prisma.byEmail (login_email dto)) (users w2) = Some u2
       /\ User.lastLoginAt u2 = Some later
       /\ User.resetPasswordToken u2 = None.
Proof.
  cbv zeta. intros Hf Hv Hp Hm Hs Hl.
  destruct (login_mfa cfg now rnd dto w u Hf Hv Hp Hm) as (w1 & E1 & F1 & O1).
  rewrite E1. cbn [fst snd]. unfold delivery.
  destruct (redeem cfg later now (login_email dto) rnd (login_fcmToken dto)
              (now + minutes 5) w1 u F1) as [Hok _].
  destruct (Hok Hl Hs) as (t & w2 & E2 & F2).
  destruct (consumed_challenged later now (login_fcmToken dto) (generateOTP rnd) (now + minutes 5) u) as (T & _ & L & L0 & _).
  split; [intros ->; eexists; split; reflexivity|].
  split; [intros msg ->; reflexivity|].
  split; [exact O1|].
  eexists. eexists. exists w2. eexists.
  split; [exact F1|]. split; [exact L0|]. split; [exact E2|].
  split; [do 2 eexists; split; reflexivity|].
  split; [exact F2|]. split; [exact L | exact T].
Qed.

Lemma X2_witness :
  let w1 := snd (login Demo.cfg 1000 4678 Examples.dave_login Examples.world) in
  (exists v1, fst (login Demo.cfg 1000 4678 Examples.dave_login Examples.world) = Ok v1
              /\ keys v1 = ["message"; "mfaRequired"; "email"])
  /\ outbox w1 = [OTPEmail "dave@example.com" "Dave" "5678"]
  /\ exists u1 v2 w2 u2,
       find (Prisma.byEmail "dave@example.com") (users w1) = Some u1
       /\ User.lastLoginAt u1 = None
       /\ verifyOtp Demo.cfg 200000 "dave@example.com" "5678" w1 = (Ok v2, w2)
       /\ find (Prisma.byEmail "dave@example.com") (users w2) = Some u2
       /\ User.lastLoginAt u2 = Some 200000.
Proof.
  cbv zeta.
  destruct (X2_login_second_factor_then_verifyOtp Demo.cfg 1000 200000 4678
              Examples.dave_login Examples.world Examples.dave)
    as (H & _ & O & u1 & v2 & w2 & u2 & F1 & L1 & E & _ & F2 & L2 & _);
    [reflexivity | reflexivity | reflexivity | reflexivity | reflexivity
     | vm_compute; discriminate |].
  split; [apply H; reflexivity|]. split; [exact O|].
  exists u1, v2, w2, u2. auto.
Defined.

(** ** Registration, verification, login *)

Lemma register_row {crypto : Crypto} {js : Js.Strings} {smtp : Transporter} now rnd salt dto w :
  find (Prisma.byEmail (Js.toLowerCase (reg_email dto))) (users w) = None ->
  exists u w',
    register now rnd salt dto w
    = (Ok (JObj [("status", JStr "success");
                 ("message", JStr "Registration successful. Please check your email for verification OTP.");
                 ("userId", JNum (nextId w))]), w')
    /\ users w' = (users w ++ [u])%list
    /\ find (Prisma.byEmail (Js.toLowerCase (reg_email dto))) (users w') = Some u
    /\ outbox w' = (outbox w ++ [EmailVerificationOTP (Js.toLowerCase (reg_email dto))
                                   (generateOTP rnd) (reg_firstName dto)])%list
    /\ User.id u = nextId w
    /\ User.email u = Js.toLowerCase (reg_email dto)
    /\ User.password u = bcrypt_hash (reg_password dto) 12 salt
    /\ User.emailVerified u = false
    /\ User.mfaEnabled u = false
    /\ User.emailVerificationToken u = Some (generateOTP rnd)
    /\ User.resetPasswordExpires u = Some (now + minutes 10).
Proof.
  intros Hf. unfold register.
  unfold bind at 1, Prisma.findUnique. rewrite Hf.
  unfold bind, Prisma.create, Prisma.taken. cbn [User.email User.googleId].
  rewrite Hf. cbn [User.isEmail]. rewrite sendEmailVerificationOTP_run.
  unfold ret, posted. cbn [User.id User.email users].
  do 2 eexists. split; [reflexivity|]. cbn [users outbox].
  split; [reflexivity|]. split; [|repeat split].
  rewrite find_app_none by exact Hf. simpl.
  unfold Prisma.byEmail. cbn [User.email]. now rewrite String.eqb_refl.
Qed.

(** X3.  The whole way in: a fresh registration mails its code; [verifyEmail]
    with that code, within ten minutes, makes the account [ACTIVE] and
    verified, clears the code and mails the welcome; [login] with the
    registered password then returns a token pair.  Before the verification
    the same [login] is refused. *)
Theorem X3_register_verify_login
  {crypto : Crypto} {js : Js.Strings} {smtp : Transporter} (cfg : Config)
  (now later after rnd rnd' salt : Z) (dto : RegisterDto) (w : World) :
  let address := Js.toLowerCase (reg_email dto) in
  let credentials := {| login_email := address; login_password := reg_password dto;
                        login_fcmToken := None |} in
  find (Prisma.byEmail address) (users w) = None ->
  later <= now + minutes 10 ->
  bcrypt_compare (reg_password dto) (bcrypt_hash (reg_password dto) 12 salt) = true ->
  Js.truthy (JWT_REFRESH_SECRET cfg) = true ->
  exists v1 w1 w2 u2 v3 w3,
    register now rnd salt dto w = (Ok v1, w1)
    /\ outbox w1 = (outbox w ++ [EmailVerificationOTP address (generateOTP rnd)
                                   (reg_firstName dto)])%list
    /\ login cfg after rnd' credentials w1
       = (Throw (UnauthorizedException
                   "Email not verified. Please check your email for verification OTP."),
          w1)
    /\ verifyEmail later (reg_email dto) (generateOTP rnd) w1
       = (Ok (envelope "success" "Email verified successfully"), w2)
    /\ find (Prisma.byEmail address) (users w2) = Some u2
    /\ User.status u2 = ACTIVE
    /\ User.emailVerified u2 = true
    /\ User.emailVerificationToken u2 = None
    /\ login cfg after rnd' credentials w2 = (Ok v3, w3)
    /\ (exists a r, field "accessToken" v3 = Some (JStr a)
                    /\ field "refreshToken" v3 = Some (JStr r)).
Proof.
  cbv zeta. intros Hf Hl Hp Hs.
  destruct (register_row now rnd salt dto w Hf)
    as (u & w1 & E1 & _ & F1 & O1 & _ & _ & P & V & M & T & X).
  destruct (verifyEmail_activates later (reg_email dto) (generateOTP rnd) w1 u F1 V)
    as (w2 & E2 & F2 & _).
  { rewrite T. apply generateOTP_matches. }
  { rewrite X. now apply expired_within. }
  destruct (activated_fields later u) as (S2 & V2 & T2 & _ & P2 & M2 & _).
  destruct (generateTokens_configured cfg after (activated later u) Hs w2) as [t Ht].
  destruct (login_ok cfg after rnd'
              {| login_email := Js.toLowerCase (reg_email dto);
                 login_password := reg_password dto; login_fcmToken := None |}
              w2 (activated later u) t F2 V2) as (w3 & E3 & _).
  { cbn [login_password]. now rewrite P2, P. }
  { now rewrite M2. }
  { exact Ht. }
  eexists. exists w1, w2. eexists. eexists. exists w3.
  split; [exact E1|]. split; [exact O1|].
  split; [eapply login_unverified; [exact F1 | exact V]|].
  split; [exact E2|]. split; [exact F2|].
  split; [exact S2|]. split; [exact V2|]. split; [exact T2|].
  split; [exact E3|]. do 2 eexists; split; reflexivity.
Qed.

Lemma X3_witness :
  exists v1 w1 w2 u2 v3 w3,
    register 0 234 7 Demo.alice Demo.empty = (Ok v1, w1)
    /\ outbox w1 = [EmailVerificationOTP "alice@example.com" "1234" "Alice"]
    /\ login Demo.cfg 700000 0 Demo.alice_login w1
       = (Throw (UnauthorizedException
                   "Email not verified. Please check your email for verification OTP."),
          w1)
    /\ verifyEmail 600000 "Alice@Example.com" "1234" w1
       = (Ok (envelope "success" "Email verified successfully"), w2)
    /\ find (Prisma.byEmail "alice@example.com") (users w2) = Some u2
    /\ User.status u2 = ACTIVE
    /\ User.emailVerified u2 = true
    /\ User.emailVerificationToken u2 = None
    /\ login Demo.cfg 700000 0 Demo.alice_login w2 = (Ok v3, w3)
    /\ (exists a r, field "accessToken" v3 = Some (JStr a)
                    /\ field "refreshToken" v3 = Some (JStr r)).
Proof.
  refine (X3_register_verify_login Demo.cfg 0 600000 700000 234 0 7 Demo.alice Demo.empty
            _ _ _ _).
  - reflexivity.
  - vm_compute. discriminate.
  - reflexivity.
  - reflexivity.
Defined.

(** X4.  [verifyEmail] verifies once: after a call that verified the address,
    every later call for it, with any code, answers [Email already verified]
    and writes nothing. *)
Theorem X4_verifyEmail_once {crypto : Crypto} {js : Js.Strings} {smtp : Transporter}
  (now later : Z) (email otp otp' : string) (w w' : World) :
  verifyEmail now email otp w
  = (Ok (envelope "success" "Email verified successfully"), w') ->
  verifyEmail later email otp' w'
  = (Ok (envelope "success" "Email already verified"), w').
Proof.
  intros H.
  destruct (find (Prisma.byEmail (Js.toLowerCase email)) (users w)) as [u|] eqn:Hf.
  2:{ unfold verifyEmail, bind, Prisma.findUnique in H. rewrite Hf in H. discriminate. }
  destruct (User.emailVerified u) eqn:Hv.
  { rewrite (verifyEmail_verified now email otp w u Hf Hv) in H. discriminate. }
  destruct (mismatch (User.emailVerificationToken u) otp) eqn:Hm.
  { rewrite (verifyEmail_mismatch now email otp w u Hf Hv Hm) in H. discriminate. }
  destruct (expired (User.resetPasswordExpires u) now) eqn:He.
  { unfold verifyEmail, bind, Prisma.findUnique in H. rewrite Hf, Hv, Hm, He in H.
    discriminate. }
  destruct (verifyEmail_activates now email otp w u Hf Hv Hm He) as (w2 & E & F & _).
  rewrite E in H. inversion H. subst w2.
  eapply verifyEmail_verified; [exact F|]. apply activated_fields.
Qed.

Lemma X4_witness :
  verifyEmail 5000 "alice@example.com" "0000" Demo.verified
  = (Ok (envelope "success" "Email already verified"), Demo.verified).
Proof.
  apply (X4_verifyEmail_once 1000 5000 "alice@example.com" "1234" "0000"
           Demo.registered Demo.verified).
  reflexivity.
Defined.

(** X5.  [resendEmailVerificationOTP] replaces the registration code: the new
    code is mailed and verifies the address for ten minutes, any other code,
    the one it replaced included, is refused as invalid.  For a verified
    address it writes and mails nothing. *)
Theorem X5_resend_replaces_code {crypto : Crypto} {js : Js.Strings} {smtp : Transporter}
  (now later rnd : Z) (email : string) (w : World) (u : User.t) :
  find (Prisma.byEmail (Js.toLowerCase email)) (users w) = Some u ->
  (User.emailVerified u = false ->
   exists w1,
     resendEmailVerificationOTP now rnd email w
     = (Ok (envelope "success" "Verification OTP sent successfully."), w1)
     /\ outbox w1 = (outbox w ++ [EmailVerificationOTP (User.email u) (generateOTP rnd)
                                    (Js.or_else (User.firstName u) (User.name u))])%list
     /\ (later <= now + minutes 10 ->
         exists w2, verifyEmail later email (generateOTP rnd) w1
                    = (Ok (envelope "success" "Email verified successfully"), w2))
     /\ (forall old, old <> generateOTP rnd ->
         verifyEmail later email old w1 = (Throw (BadRequestException "Invalid OTP"), w1)))
  /\ (User.emailVerified u = true ->
      resendEmailVerificationOTP now rnd email w
      = (Ok (envelope "success" "Email already verified"), w)).
Proof.
  intros Hf. split.
  - intros Hv.
    destruct (resend_reissues now rnd email w u Hf Hv) as (w1 & E & F & O).
    destruct (reissued_fields now (generateOTP rnd) (now + minutes 10) u) as (T & X & V & _).
    exists w1. split; [exact E|]. split; [exact O|]. split.
    + intros Hl.
      destruct (verifyEmail_activates later email (generateOTP rnd) w1 _ F)
        as (w2 & E2 & _).
      * now rewrite V.
      * rewrite T. apply generateOTP_matches.
      * rewrite X. now apply expired_within.
      * eauto.
    + intros old Hne. eapply verifyEmail_mismatch; [exact F | now rewrite V |].
      apply mismatch_other. rewrite T. congruence.
  - intros Hv. unfold resendEmailVerificationOTP, bind, Prisma.findUnique.
    now rewrite Hf, Hv.
Qed.

Lemma X5_witness :
  exists w1,
    resendEmailVerificationOTP 300000 4678 "Alice@Example.com" Demo.registered
    = (Ok (envelope "success" "Verification OTP sent successfully."), w1)
    /\ (exists w2, verifyEmail 900000 "Alice@Example.com" "5678" w1
                   = (Ok (envelope "success" "Email verified successfully"), w2))
    /\ verifyEmail 400000 "Alice@Example.com" "1234" w1
       = (Throw (BadRequestException "Invalid OTP"), w1).
Proof.
  destruct (X5_resend_replaces_code 300000 900000 4678 "Alice@Example.com"
              Demo.registered Demo.alice_pending) as [H _]; [reflexivity|].
  destruct H as (w1 & E & _ & Hnew & _); [reflexivity|].
  destruct (X5_resend_replaces_code 300000 400000 4678 "Alice@Example.com"
              Demo.registered Demo.alice_pending) as [H' _]; [reflexivity|].
  destruct H' as (w1' & E' & _ & _ & Hold); [reflexivity|].
  rewrite E in E'. inversion E'. subst w1'.
  exists w1. split; [exact E|]. split.
  - apply Hnew. vm_compute. discriminate.
  - apply Hold. discriminate.
Defined.

(** ** Passwords *)

(** X6.  [forgotPassword] followed by [resetPassword] with the code it stored,
    within ten minutes and with matching passwords, stores the hash of the new
    password and clears the code; the verification state of the account is
    not touched.  The code is spent: a second [resetPassword] with it is
    refused as invalid. *)
Theorem X6_forgotPassword_then_resetPassword
  {crypto : Crypto} {js : Js.Strings} {smtp : Transporter}
  (now later rnd salt : Z) (dto : ResetPasswordDto) (w : World) (u : User.t) :
  let address := Js.toLowerCase (reset_email dto) in
  find (Prisma.byEmail address) (users w) = Some u ->
  reset_otp dto = generateOTP rnd ->
  newPassword dto = confirmPassword dto ->
  later <= now + minutes 10 ->
  exists w1 w2 u2,
    forgotPassword now rnd {| forgot_email := reset_email dto |} w
    = (Ok (envelope "success" reset_message), w1)
    /\ resetPassword later salt dto w1
       = (Ok (envelope "success" "Password reset successfully"), w2)
    /\ find (Prisma.byEmail address) (users w2) = Some u2
    /\ User.password u2 = bcrypt_hash (newPassword dto) 12 salt
    /\ User.resetPasswordToken u2 = None
    /\ User.resetPasswordExpires u2 = None
    /\ User.emailVerified u2 = User.emailVerified u
    /\ User.status u2 = User.status u
    /\ forall later' salt',
         resetPassword later' salt' dto w2
         = (Throw (BadRequestException "Invalid OTP"), w2).
Proof.
  cbv zeta. intros Hf Ho Hp Hl.
  destruct (forgotPassword_sends now rnd {| forgot_email := reset_email dto |} w u Hf)
    as (w1 & E1 & F1 & _).
  cbn [forgot_email] in F1.
  destruct (challenged_fields now None (generateOTP rnd) (now + minutes 10) u)
    as (T & X & _).
  destruct (consumed_challenged 0 now None (generateOTP rnd) (now + minutes 10) u)
    as (_ & _ & _ & _ & V & S).
  destruct (resetPassword_resets later salt dto w1 _ Hp F1) as (w2 & E2 & F2 & _).
  { rewrite T, Ho. apply generateOTP_matches. }
  { rewrite X. now apply expired_within. }
  destruct (reset_to_fields later (bcrypt_hash (newPassword dto) 12 salt)
              (challenged now None (generateOTP rnd) (now + minutes 10) u))
    as (P2 & T2 & X2 & V2 & S2 & _).
  exists w1, w2. eexists.
  split; [exact E1|]. split; [exact E2|]. split; [exact F2|].
  split; [exact P2|]. split; [exact T2|]. split; [exact X2|].
  split; [now rewrite V2, V|]. split; [now rewrite S2, S|].
  intros later' salt'. eapply resetPassword_mismatch; [exact Hp | exact F2 |].
  rewrite T2. reflexivity.
Qed.

Lemma X6_witness :
  exists w1 w2 u2,
    forgotPassword 1000 4678 {| forgot_email := "alice@example.com" |} Demo.registered
    = (Ok (envelope "success" reset_message), w1)
    /\ resetPassword 2000 9 Demo.alice_reset w1
       = (Ok (envelope "success" "Password reset successfully"), w2)
    /\ find (Prisma.byEmail "alice@example.com") (users w2) = Some u2
    /\ User.password u2 = "9$Secret123"
    /\ User.resetPasswordToken u2 = None
    /\ User.resetPasswordExpires u2 = None
    /\ User.emailVerified u2 = false
    /\ User.status u2 = PENDING_VERIFICATION
    /\ forall later' salt',
         resetPassword later' salt' Demo.alice_reset w2
         = (Throw (BadRequestException "Invalid OTP"), w2).
Proof.
  refine (X6_forgotPassword_then_resetPassword 1000 2000 4678 9 Demo.alice_reset
            Demo.registered Demo.alice_pending _ _ _ _).
  - reflexivity.
  - reflexivity.
  - reflexivity.
  - vm_compute. discriminate.
Defined.

Lemma changed_to_fields now h u :
  User.password (changed_to now h u) = h
  /\ User.id (changed_to now h u) = User.id u
  /\ User.email (changed_to now h u) = User.email u
  /\ User.resetPasswordToken (changed_to now h u) = User.resetPasswordToken u
  /\ User.resetPasswordExpires (changed_to now h u) = User.resetPasswordExpires u
  /\ User.emailVerified (changed_to now h u) = User.emailVerified u
  /\ User.mfaEnabled (changed_to now h u) = User.mfaEnabled u
  /\ User.lastLoginAt (changed_to now h u) = User.lastLoginAt u.
Proof. destruct u; repeat split. Qed.

(** X7.  [changePassword] checks the current password against the stored
    hash: when it does not match, the call fails with [Unauthorized] and
    writes nothing.  When it matches, the row of the account becomes the row
    it was with the hash of the new password and the time of the call as
    [updatedAt]: no other field changes, an outstanding reset code included,
    and neither do the other rows, the cache, the outbox or the sequence of
    ids.  From then on [login] refuses every password the new hash does not
    match, and accepts one it matches. *)
Theorem X7_changePassword_replaces_hash {crypto : Crypto} {smtp : Transporter} (cfg : Config)
  (now later salt rnd i : Z) (dto : ChangePasswordDto) (w : World) (u : User.t) :
  let hash := bcrypt_hash (cp_newPassword dto) 12 salt in
  find (Prisma.byId i) (users w) = Some u ->
  (bcrypt_compare (currentPassword dto) (User.password u) = false ->
   changePassword now salt i dto w
   = (Throw (UnauthorizedException "Current password is incorrect"), w))
  /\ (bcrypt_compare (currentPassword dto) (User.password u) = true ->
      exists w1 u1,
        changePassword now salt i dto w
        = (Ok (envelope "success" "Password changed successfully"), w1)
        /\ find (Prisma.byId i) (users w1) = Some u1
        /\ u1 = User.set_updatedAt now (User.set_password hash u)
        /\ users w1 = map (fun v => if User.id v =? i
                                    then User.set_updatedAt now (User.set_password hash v)
                                    else v) (users w)
        /\ nextId w1 = nextId w
        /\ redis w1 = redis w
        /\ User.password u1 = hash
        /\ User.resetPasswordToken u1 = User.resetPasswordToken u
        /\ User.resetPasswordExpires u1 = User.resetPasswordExpires u
        /\ User.emailVerified u1 = User.emailVerified u
        /\ User.lastLoginAt u1 = User.lastLoginAt u
        /\ outbox w1 = outbox w
        /\ (find (Prisma.byEmail (User.email u)) (users w) = Some u ->
            User.emailVerified u = true ->
            forall password fcm,
              let credentials := {| login_email := User.email u;
                                    login_password := password;
                                    login_fcmToken := fcm |} in
              (bcrypt_compare password hash = false ->
               login cfg later rnd credentials w1
               = (Throw (UnauthorizedException "Incorrect password."), w1))
              /\ (bcrypt_compare password hash = true ->
                  User.mfaEnabled u = false ->
                  Js.truthy (JWT_REFRESH_SECRET cfg) = true ->
                  exists v w2, login cfg later rnd credentials w1 = (Ok v, w2)))).
Proof.
  cbv zeta. intros Hf. split; [intros Hc; eapply changePassword_wrong; eassumption|].
  intros Hp.
  set (hash := bcrypt_hash (cp_newPassword dto) 12 salt).
  destruct (changed_to_fields now hash u) as (P & _ & _ & T & X & V & M & L).
  do 2 eexists. split; [eapply changePassword_changes; eassumption|].
  cbn [users outbox with_users].
  split; [apply find_byId_patched; [keeps | exact Hf]|].
  split; [now destruct u|].
  split.
  { apply map_ext. intros v. unfold Prisma.patch, Prisma.byId.
    destruct (User.id v =? i); [now destruct v | reflexivity]. }
  split; [reflexivity|]. split; [reflexivity|].
  split; [exact P|]. split; [exact T|]. split; [exact X|]. split; [exact V|].
  split; [exact L|]. split; [reflexivity|].
  intros He Hv password fcm.
  assert (find (Prisma.byEmail (User.email u))
            (users (with_users (map (Prisma.patch i (changed_to now hash)) (users w)) w))
          = Some (changed_to now hash u)) as He'.
  { simpl. apply find_byEmail_patched_at; [keeps | exact He |].
    now apply find_byId_id in Hf. }
  split.
  - intros Hc. eapply login_wrong_password; [exact He' | now rewrite V |].
    cbn [login_password]. now rewrite P.
  - intros Hc Hm Hs.
    destruct (generateTokens_configured cfg later (changed_to now hash u) Hs
                (with_users (map (Prisma.patch i (changed_to now hash)) (users w)) w))
      as [t Ht].
    destruct (login_ok cfg later rnd
                {| login_email := User.email u; login_password := password;
                   login_fcmToken := fcm |} _ _ t He') as (w2 & E & _).
    + now rewrite V.
    + cbn [login_password]. now rewrite P.
    + now rewrite M.
    + exact Ht.
    + eauto.
Qed.

Lemma X7_witness :
  let dto := {| currentPassword := "Passw0rd!"; cp_newPassword := "Secret123" |} in
  exists w1 u1,
    changePassword 5000 9 1 dto Demo.verified
    = (Ok (envelope "success" "Password changed successfully"), w1)
    /\ find (Prisma.byId 1) (users w1) = Some u1
    /\ u1 = User.set_updatedAt 5000 (User.set_password "9$Secret123" Demo.alice_active)
    /\ User.password u1 = "9$Secret123"
    /\ login Demo.cfg 6000 0 Demo.alice_login w1
       = (Throw (UnauthorizedException "Incorrect password."), w1)
    /\ exists v w2,
         login Demo.cfg 6000 0 {| login_email := "alice@example.com";
                                  login_password := "Secret123";
                                  login_fcmToken := None |} w1 = (Ok v, w2).
Proof.
  cbv zeta.
  destruct (X7_changePassword_replaces_hash Demo.cfg 5000 6000 9 0 1
              {| currentPassword := "Passw0rd!"; cp_newPassword := "Secret123" |}
              Demo.verified Demo.alice_active) as [_ H]; [reflexivity|].
  destruct H as (w1 & u1 & E & F & R & _ & _ & _ & P & _ & _ & _ & _ & _ & L);
    [reflexivity|].
  exists w1, u1. split; [exact E|]. split; [exact F|]. split; [exact R|].
  split; [exact P|].
  split.
  - apply (L eq_refl eq_refl "Passw0rd!" None). reflexivity.
  - apply (L eq_refl eq_refl "Secret123" None); reflexivity.
Defined.

(** ** What [verifyOtp] does not check *)

(** X8.  [verifyOtp] asks neither what the code was issued for nor whether
    the address is verified: the code of a password-reset request, sent to
    [verifyOtp] within its ten minutes, returns a token pair, also for an
    account that [login] refuses as unverified. *)
Theorem X8_verifyOtp_accepts_reset_code
  {crypto : Crypto} {js : Js.Strings} {smtp : Transporter} (cfg : Config)
  (now later rnd : Z) (dto : ForgotPasswordDto) (w : World) (u : User.t) :
  let address := Js.toLowerCase (forgot_email dto) in
  find (Prisma.byEmail address) (users w) = Some u ->
  Js.truthy (JWT_REFRESH_SECRET cfg) = true ->
  later <= now + minutes 10 ->
  exists w1 v w2,
    forgotPassword now rnd dto w = (Ok (envelope "success" reset_message), w1)
    /\ verifyOtp cfg later address (generateOTP rnd) w1 = (Ok v, w2)
    /\ (exists a r, field "accessToken" v = Some (JStr a)
                    /\ field "refreshToken" v = Some (JStr r))
    /\ (User.emailVerified u = false ->
        forall rnd' password fcm,
          login cfg later rnd' {| login_email := address; login_password := password;
                                  login_fcmToken := fcm |} w1
          = (Throw (UnauthorizedException
                      "Email not verified. Please check your email for verification OTP."),
             w1)).
Proof.
  cbv zeta. intros Hf Hs Hl.
  destruct (forgotPassword_sends now rnd dto w u Hf) as (w1 & E1 & F1 & _).
  destruct (redeem cfg later now (Js.toLowerCase (forgot_email dto)) rnd None
              (now + minutes 10) w1 u F1) as [Hok _].
  destruct (Hok Hl Hs) as (t & w2 & E2 & _).
  exists w1. eexists. exists w2.
  split; [exact E1|]. split; [exact E2|].
  split; [do 2 eexists; split; reflexivity|].
  intros Hv rnd' password fcm. eapply login_unverified; [exact F1|].
  destruct (consumed_challenged 0 now None (generateOTP rnd) (now + minutes 10) u)
    as (_ & _ & _ & _ & V & _).
  now rewrite V.
Qed.

Lemma X8_witness :
  exists w1 v w2,
    forgotPassword 1000 4678 {| forgot_email := "Alice@Example.com" |} Demo.registered
    = (Ok (envelope "success" reset_message), w1)
    /\ verifyOtp Demo.cfg 2000 "alice@example.com" "5678" w1 = (Ok v, w2)
    /\ (exists a r, field "accessToken" v = Some (JStr a)
                    /\ field "refreshToken" v = Some (JStr r))
    /\ login Demo.cfg 2000 0 Demo.alice_login w1
       = (Throw (UnauthorizedException
                   "Email not verified. Please check your email for verification OTP."),
          w1).
Proof.
  destruct (X8_verifyOtp_accepts_reset_code Demo.cfg 1000 2000 4678
              {| forgot_email := "Alice@Example.com" |} Demo.registered
              Demo.alice_pending) as (w1 & v & w2 & E1 & E2 & T & L).
  - reflexivity.
  - reflexivity.
  - vm_compute. discriminate.
  - exists w1, v, w2. split; [exact E1|]. split; [exact E2|]. split; [exact T|].
    apply (L eq_refl 0 "Passw0rd!" None).
Defined.

(** X9.  Without a refresh secret the tokens cannot be signed, but the write
    comes first: [verifyOtp] spends the code and then throws, so the code is
    refused from then on; [login] stamps [lastLoginAt] and then throws. *)
Theorem X9_unconfigured_secret_after_the_write
  {crypto : Crypto} {smtp : Transporter} (cfg : Config)
  (now later rnd : Z) (email otp : string) (dto : LoginDto) (w : World) (u : User.t) :
  Js.truthy (JWT_REFRESH_SECRET cfg) = false ->
  (find (Prisma.byEmail email) (users w) = Some u ->
   User.resetPasswordToken u = Some otp -> otp <> "" ->
   expired (User.resetPasswordExpires u) now = false ->
   exists w',
     verifyOtp cfg now email otp w
     = (Throw (Error "JWT_REFRESH_SECRET is not configured"), w')
     /\ find (Prisma.byEmail email) (users w') = Some (consumed now u)
     /\ verifyOtp cfg later email otp w'
        = (Throw (UnauthorizedException "Invalid or expired OTP."), w'))
  /\ (find (Prisma.byEmail (login_email dto)) (users w) = Some u ->
      User.emailVerified u = true ->
      bcrypt_compare (login_password dto) (User.password u) = true ->
      User.mfaEnabled u = false ->
      exists w' u',
        login cfg now rnd dto w
        = (Throw (Error "JWT_REFRESH_SECRET is not configured"), w')
        /\ find (Prisma.byEmail (login_email dto)) (users w') = Some u'
        /\ User.lastLoginAt u' = Some now).
Proof.
  intros Hs. split.
  - intros Hf Ht Hne He.
    destruct (verifyOtp_accepts cfg now email otp w u Hf) as (r & E & _ & Hthrow).
    + rewrite Ht. now apply mismatch_stored.
    + exact He.
    + rewrite (Hthrow Hs) in E. eexists. split; [exact E|].
      assert (find (Prisma.byEmail email)
                (users (with_users (map (Prisma.patch (User.id u) (consumed now))
                                      (users w)) w)) = Some (consumed now u)) as F.
      { simpl. apply find_byEmail_patched; [keeps | exact Hf]. }
      split; [exact F|].
      eapply verifyOtp_mismatch; [exact F|].
      destruct (consumed_fields now u) as (T & _). now rewrite T.
  - intros Hf Hv Hp Hm.
    destruct (login_unconfigured cfg now rnd dto w u Hf Hv Hp Hm Hs) as (w' & E & F).
    exists w'. eexists. split; [exact E|]. split; [exact F|].
    unfold logged_in, registered_device.
    destruct (Js.truthy (login_fcmToken dto)), u; reflexivity.
Qed.

Lemma X9_witness :
  exists w',
    verifyOtp Examples.unconfigured 3000 "alice@example.com" "5678" Demo.awaiting
    = (Throw (Error "JWT_REFRESH_SECRET is not configured"), w')
    /\ find (Prisma.byEmail "alice@example.com") (users w')
       = Some (consumed 3000 (challenged 2000 None "5678" 302000 Demo.alice_active))
    /\ verifyOtp Examples.unconfigured 4000 "alice@example.com" "5678" w'
       = (Throw (UnauthorizedException "Invalid or expired OTP."), w').
Proof.
  destruct (X9_unconfigured_secret_after_the_write Examples.unconfigured 3000 4000 0
              "alice@example.com" "5678" Demo.alice_login Demo.awaiting
              (challenged 2000 None "5678" 302000 Demo.alice_active)) as [H _].
  - reflexivity.
  - apply H; [vm_compute; reflexivity | reflexivity | discriminate | reflexivity].
Defined.

(** ** Mails *)

(** X10.  [forgotPassword] stores the reset code for every account it finds,
    but mails it only to an account with [isEmail] on: with mails off the
    outbox stays as it is, while the stored code is as good as any. *)
Theorem X10_forgotPassword_mails_if_subscribed
  {crypto : Crypto} {js : Js.Strings} {smtp : Transporter}
  (now later salt rnd : Z) (dto : ForgotPasswordDto) (w : World) (u : User.t) :
  find (Prisma.byEmail (Js.toLowerCase (forgot_email dto))) (users w) = Some u ->
  exists w1 u1,
    forgotPassword now rnd dto w = (Ok (envelope "success" reset_message), w1)
    /\ find (Prisma.byEmail (Js.toLowerCase (forgot_email dto))) (users w1) = Some u1
    /\ User.resetPasswordToken u1 = Some (generateOTP rnd)
    /\ User.resetPasswordExpires u1 = Some (now + minutes 10)
    /\ (User.isEmail u = true ->
        outbox w1 = (outbox w ++ [EmailVerificationOTP (User.email u) (generateOTP rnd)
                                    (Js.or_else (User.firstName u) (User.name u))])%list)
    /\ (User.isEmail u = false -> outbox w1 = outbox w)
    /\ (later <= now + minutes 10 ->
        forall reset,
          Js.toLowerCase (reset_email reset) = Js.toLowerCase (forgot_email dto) ->
          reset_otp reset = generateOTP rnd ->
          newPassword reset = confirmPassword reset ->
          exists w2, resetPassword later salt reset w1
                     = (Ok (envelope "success" "Password reset successfully"), w2)).
Proof.
  intros Hf.
  destruct (forgotPassword_sends now rnd dto w u Hf) as (w1 & E & F & O).
  destruct (challenged_fields now None (generateOTP rnd) (now + minutes 10) u) as (T & X & _).
  exists w1. eexists. split; [exact E|]. split; [exact F|].
  split; [exact T|]. split; [exact X|].
  split; [intros Hi; now rewrite O, Hi|].
  split; [intros Hi; now rewrite O, Hi, app_nil_r|].
  intros Hl reset He Ho Hp.
  eapply resetPassword_accepts; [exact Hp | rewrite He; exact F | |].
  - rewrite T, Ho. apply generateOTP_matches.
  - rewrite X. now apply expired_within.
Qed.

Lemma X10_witness :
  exists w1 u1,
    forgotPassword 1000 4678 {| forgot_email := "erin@example.com" |} Examples.world
    = (Ok (envelope "success" reset_message), w1)
    /\ find (Prisma.byEmail "erin@example.com") (users w1) = Some u1
    /\ User.resetPasswordToken u1 = Some "5678"
    /\ outbox w1 = [].
Proof.
  destruct (X10_forgotPassword_mails_if_subscribed 1000 2000 9 4678
              {| forgot_email := "erin@example.com" |} Examples.world Examples.erin)
    as (w1 & u1 & E & F & T & _ & _ & O & _).
  - reflexivity.
  - exists w1, u1. split; [exact E|]. split; [exact F|]. split; [exact T|].
    apply O. reflexivity.
Defined.

(** ** The blacklist and the refresh tokens *)





Lemma generateTokens_payload {crypto : Crypto} cfg now (u u' : User.t) w w' :
  User.id u' = User.id u -> User.email u' = User.email u -> User.role u' = User.role u ->
  fst (generateTokens cfg now u' w') = fst (generateTokens cfg now u w).
Proof.
  intros Hi He Hr. unfold generateTokens. rewrite Hi, He, Hr.
  destruct (negb _); reflexivity.
Qed.

Lemma refreshToken_reads_users {crypto : Crypto} cfg now token w w' :
  users w = users w' ->
  fst (refreshToken cfg now token w) = fst (refreshToken cfg now token w').
Proof.
  intros H. unfold refreshToken, try_catch, bind, lift.
  destruct (jwt_verify token (JWT_REFRESH_SECRET cfg) now) as [p|x]; [|reflexivity].
  destruct (sub_number p) as [i|]; [|reflexivity].
  unfold Prisma.findUnique, Prisma.update, Prisma.write. rewrite H.
  destruct (find (Prisma.byId i) (users w')) as [u|]; [|reflexivity].
  cbn beta iota. rewrite H.
  destruct (find (Prisma.byId (User.id u)) (users w')) as [u0|]; [|reflexivity].
  rewrite (clash_steady _ (logged_in now None)) by steady.
  unfold ret, generateTokens. destruct (negb _); reflexivity.
Qed.

(** X12.  Logging out does not touch the refresh tokens: whatever
    [refreshToken] answers for a token, it answers the same after any logout,
    a logout with that very token in the header included. *)
Theorem X12_logout_keeps_refresh_tokens {crypto : Crypto} (cfg : Config)
  (now later userId : Z) (authorization : option string) (token : string) (w : World) :
  fst (refreshToken cfg later token
         (snd (AuthController.logout cfg now userId authorization w)))
  = fst (refreshToken cfg later token w).
Proof.
  apply refreshToken_reads_users.
  unfold AuthController.logout. destruct (negb _); [reflexivity|].
  unfold logout, bind, RedisService.set, ret. reflexivity.
Qed.

(** X13.  [refreshToken] with a token the JWT service accepts, whose subject
    is the id of a user, returns a new pair for that user and stamps
    [lastLoginAt]; it does not retire the token it was given, which buys
    another pair for the same user for as long as the JWT service accepts
    it. *)
Theorem X13_refreshToken_rotates_and_reuses {crypto : Crypto} (cfg : Config)
  (now later i : Z) (token : string) (p p' : Verified) (w : World) (u : User.t) :
  jwt_verify token (JWT_REFRESH_SECRET cfg) now = Ok p -> sub_number p = Some i ->
  jwt_verify token (JWT_REFRESH_SECRET cfg) later = Ok p' -> sub_number p' = Some i ->
  find (Prisma.byId i) (users w) = Some u ->
  Js.truthy (JWT_REFRESH_SECRET cfg) = true ->
  exists t w1 t' w2 u2,
    refreshToken cfg now token w = (Ok t, w1)
    /\ fst (generateTokens cfg now u w) = Ok t
    /\ refreshToken cfg later token w1 = (Ok t', w2)
    /\ fst (generateTokens cfg later u w) = Ok t'
    /\ find (Prisma.byId i) (users w2) = Some u2
    /\ User.lastLoginAt u2 = Some later
    /\ User.password u2 = User.password u.
Proof.
  intros Hv Hs Hv' Hs' Hf Hc.
  pose proof (find_byId_id _ _ _ Hf) as Hi.
  destruct (generateTokens_configured cfg now u Hc w) as [t Ht].
  pose proof (refreshToken_rotates cfg now token w p i u t Hv Hs Hf Ht) as E1.
  rewrite Hi in E1.
  set (stamp := logged_in now None) in *.
  set (w1 := with_users (map (Prisma.patch i stamp) (users w)) w) in *.
  assert (find (Prisma.byId i) (users w1) = Some (stamp u)) as Hf1.
  { apply find_byId_patched; [keeps | exact Hf]. }
  destruct (generateTokens_configured cfg later (stamp u) Hc w1) as [t' Ht'].
  pose proof (refreshToken_rotates cfg later token w1 p' i (stamp u) t' Hv' Hs' Hf1 Ht')
    as E2.
  assert (User.id (stamp u) = i) as Hi' by (destruct u; exact Hi).
  rewrite Hi' in E2.
  exists t, w1, t'. do 2 eexists.
  split; [exact E1|]. split; [now rewrite Ht|]. split; [exact E2|].
  split.
  - rewrite <- (generateTokens_payload cfg later u (stamp u) w w1);
      [now rewrite Ht' | | |]; destruct u; reflexivity.
  - split; [apply find_byId_patched; [keeps | exact Hf1]|].
    destruct u; split; reflexivity.
Qed.

Lemma X13_witness :
  exists t w1 t' w2 u2,
    refreshToken Demo.cfg 5000 "604802.1.refresh" Demo.verified = (Ok t, w1)
    /\ fst (generateTokens Demo.cfg 5000 Demo.alice_active Demo.verified) = Ok t
    /\ refreshToken Demo.cfg 9000 "604802.1.refresh" w1 = (Ok t', w2)
    /\ fst (generateTokens Demo.cfg 9000 Demo.alice_active Demo.verified) = Ok t'
    /\ find (Prisma.byId 1) (users w2) = Some u2
    /\ User.lastLoginAt u2 = Some 9000
    /\ User.password u2 = "7$Passw0rd!".
Proof.
  refine (X13_refreshToken_rotates_and_reuses Demo.cfg 5000 9000 1 "604802.1.refresh"
            {| sub_number := Some 1; exp := 604802 |}
            {| sub_number := Some 1; exp := 604802 |}
            Demo.verified Demo.alice_active _ _ _ _ _ _); reflexivity.
Defined.

(** ** What no request does *)

Section Follows.

Context {crypto : Crypto} {js : Js.Strings} {smtp : Transporter} (cfg : Config).
Variable P : User.t -> User.t -> Prop.
Hypothesis P_refl : forall u, P u u.
Hypothesis P_trans : forall a b c, P a b -> P b c -> P a c.

Lemma follows_refl w : follows P w w.
Proof. split; [trivial|]. split; [lia|]. intros e u H. eauto. Qed.

Lemma follows_trans a b c : follows P a b -> follows P b c -> follows P a c.
Proof.
  intros (S1 & L1 & T1) (S2 & L2 & T2). split; [auto|]. split; [lia|].
  intros e u H. destruct (T1 _ _ H) as (u1 & H1 & P1).
  destruct (T2 _ _ H1) as (u2 & H2 & P2). eauto.
Qed.

Lemma follows_same_table w w' :
  users w' = users w -> nextId w' = nextId w -> follows P w w'.
Proof.
  intros Hu Hn. split; [|split].
  - unfold sound, wf. now rewrite Hu, Hn.
  - now rewrite Hu.
  - intros e u H. rewrite Hu. eauto.
Qed.

Lemma map_email_patch i f (l : list User.t) :
  User.keeps_identity f -> map User.email (map (Prisma.patch i f) l) = map User.email l.
Proof.
  intros Hf. rewrite map_map. apply map_ext. intros u. now apply patch_email.
Qed.

Lemma follows_write i f :
  User.keeps_identity f -> (forall u, P u (f u)) -> maintains (follows P) (Prisma.write i f).
Proof.
  intros Hk Hp w.
  destruct (update_cases i f w) as [[x E]|(u0 & _ & E)]; rewrite E; cbn [snd];
    [apply follows_refl|].
  split; [|split].
  - intros [Hw Hn]. split; [now apply wf_patch|].
    cbn [users with_users]. now rewrite map_email_patch.
  - cbn [users with_users]. now rewrite length_map.
  - intros e u H. exists (Prisma.patch i f u). cbn [users with_users]. split.
    + rewrite find_map_keep; [now rewrite H|].
      intros x. unfold Prisma.byEmail. now rewrite patch_email.
    + unfold Prisma.patch. destruct (Prisma.byId i u); auto.
Qed.

Lemma follows_update now i f :
  User.keeps_identity f -> (forall u, P u (f (User.set_updatedAt now u))) ->
  maintains (follows P) (Prisma.update now i f).
Proof.
  intros [Hi He] Hp. apply follows_write; [|exact Hp].
  split; intros u; [rewrite Hi | rewrite He]; now destruct u.
Qed.

Lemma find_byEmail_none_fresh e (l : list User.t) :
  find (Prisma.byEmail e) l = None -> ~ In e (map User.email l).
Proof.
  intros H Hin. apply in_map_iff in Hin as (u & He & Hu).
  pose proof (find_none _ _ H _ Hu) as Hn. unfold Prisma.byEmail in Hn.
  rewrite He, String.eqb_refl in Hn. discriminate.
Qed.

Lemma follows_create data :
  (forall i, User.id (data i) = i) -> maintains (follows P) (Prisma.create data).
Proof.
  intros Hd w. pose proof (evolves_create data Hd w) as [Hwf _].
  unfold Prisma.create in *.
  destruct (Prisma.taken _ _) eqn:Ht; cbn [snd] in *.
  { split; [|split; [reflexivity | intros e u H; eauto]].
    intros [Hw Hn]. split; [auto | exact Hn]. }
  assert (find (Prisma.byEmail (User.email (data (nextId w)))) (users w) = None) as Hf.
  { unfold Prisma.taken in Ht. destruct (find _ _); [discriminate | reflexivity]. }
  split; [|split].
  - intros [Hw Hn]. split; [auto|]. cbn [users]. rewrite map_app. cbn [map].
    apply NoDup_app. repeat split.
    + exact Hn.
    + intros x Hx Hx'. apply list_elem_of_In in Hx, Hx'.
      destruct Hx' as [<-|[]]. now apply find_byEmail_none_fresh in Hf.
    + apply NoDup_cons; split; [intros Hx; inversion Hx | apply NoDup_nil; trivial].
  - cbn [users]. rewrite length_app. lia.
  - intros e u H. exists u. cbn [users]. split; [now apply find_app_some | apply P_refl].
Qed.

Lemma follows_ret {A} (a : A) : maintains (follows P) (ret a).
Proof. apply maintains_ret, follows_refl. Qed.

Lemma follows_throw {A} x : maintains (follows P) (@throw A x).
Proof. apply maintains_throw, follows_refl. Qed.

Lemma follows_lift {A} (r : Result A) : maintains (follows P) (lift r).
Proof. apply maintains_lift, follows_refl. Qed.

Lemma follows_findUnique p : maintains (follows P) (Prisma.findUnique p).
Proof. apply maintains_findUnique, follows_refl. Qed.

Lemma follows_bind {A B} (m : M A) (k : A -> M B) :
  maintains (follows P) m -> (forall a, maintains (follows P) (k a)) ->
  maintains (follows P) (bind m k).
Proof. apply maintains_bind, follows_trans. Qed.

Lemma follows_try_catch {A} (m : M A) h :
  maintains (follows P) m -> (forall x, maintains (follows P) (h x)) ->
  maintains (follows P) (try_catch m h).
Proof. apply maintains_try_catch, follows_trans. Qed.

Lemma follows_sendOTPEmail now to name otp :
  maintains (follows P) (MailService.sendOTPEmail now to name otp).
Proof. intros w. rewrite sendOTPEmail_run. now apply follows_same_table. Qed.

Lemma follows_sendEmailVerificationOTP now to otp name :
  maintains (follows P) (MailService.sendEmailVerificationOTP now to otp name).
Proof. intros w. now apply follows_same_table. Qed.

Lemma follows_sendWelcomeEmail now to name :
  maintains (follows P) (MailService.sendWelcomeEmail now to name).
Proof. intros w. now apply follows_same_table. Qed.

Lemma follows_redis_set k v s now : maintains (follows P) (RedisService.set k v s now).
Proof. intros w. now apply follows_same_table. Qed.

Lemma follows_generateTokens now u : maintains (follows P) (generateTokens cfg now u).
Proof. intros w. rewrite generateTokens_world. apply follows_refl. Qed.

End Follows.

(** Walk through the body of a handler; [side] shows that an update keeps the
    relation. *)
Ltac walk Hr Ht side :=
  repeat first
    [ apply follows_ret; exact Hr
    | apply follows_throw; exact Hr
    | apply follows_lift; exact Hr
    | apply follows_findUnique; exact Hr
    | apply follows_sendOTPEmail; exact Hr
    | apply follows_sendEmailVerificationOTP; exact Hr
    | apply follows_sendWelcomeEmail; exact Hr
    | apply follows_redis_set; exact Hr
    | apply follows_generateTokens; exact Hr
    | apply follows_update; [exact Hr | keeps | side]
    | apply follows_create; [exact Hr | reflexivity]
    | apply follows_bind; [exact Ht | | intros ?]
    | apply follows_try_catch; [exact Ht | | intros ?]
    | match goal with
      | |- maintains _ (match ?x with _ => _ end) => destruct x
      end ].

(** Unfold a request down to the calls of the store and the collaborators. *)
Ltac handlers :=
  cbn [serve run];
  unfold outcome, GoogleCallback.googleCallback, GoogleAuthService.verifyToken,
    AuthController.logout, login, sendOtp, verifyOtp, register, verifyEmail,
    resendEmailVerificationOTP, changePassword, forgotPassword, resetPassword,
    refreshToken, logout, updateGoogleId, createGoogleUser, findUserByEmail,
    comparePasswords;
  cbn beta iota.

Section Requests.

Context {crypto : Crypto} {js : Js.Strings} {smtp : Transporter}
        {client : GoogleAuthService.Client} (cfg : Config).

Lemma same_identity_refl u : same_identity u u.
Proof. repeat split. Qed.

Lemma same_identity_trans a b c : same_identity a b -> same_identity b c -> same_identity a c.
Proof.
  intros (A1 & A2 & A3 & A4 & A5) (B1 & B2 & B3 & B4 & B5). repeat split; congruence.
Qed.

Lemma same_password_refl u : same_password u u.
Proof. reflexivity. Qed.

Lemma same_password_trans a b c : same_password a b -> same_password b c -> same_password a c.
Proof. unfold same_password. congruence. Qed.

Lemma serve_keeps_identity r : maintains (follows same_identity) (serve cfg r).
Proof.
  destruct r as [c|now dto]; [destruct c|]; handlers;
    try match goal with picture : option string |- _ => destruct picture end;
    walk same_identity_refl same_identity_trans ltac:(intros []; repeat split).
Qed.

Lemma serve_keeps_password r :
  writes_password r = false -> maintains (follows same_password) (serve cfg r).
Proof.
  destruct r as [c|now dto]; [destruct c|]; try discriminate; intros _; handlers;
    try match goal with picture : option string |- _ => destruct picture end;
    walk same_password_refl same_password_trans ltac:(intros []; reflexivity).
Qed.

Lemma serve_all_follows P rs :
  (forall u, P u u) -> (forall a b c, P a b -> P b c -> P a c) ->
  Forall (fun r => maintains (follows P) (serve cfg r)) rs ->
  forall w, follows P w (serve_all cfg rs w).
Proof.
  intros Hr Ht H. induction H as [|r rs Hrs _ IH]; intros w; cbn [serve_all].
  - now apply follows_refl.
  - eapply follows_trans; [exact Ht | apply Hrs | apply IH].
Qed.

End Requests.

(** X14.  No sequence of requests deletes an account or changes its id,
    address, role, second-factor flag or creation time, and ids and addresses
    stay distinct: the number of rows never decreases, and every address keeps
    finding a row with the same id, address, role, [mfaEnabled] and
    [createdAt]. *)
Theorem X14_requests_keep_accounts
  {crypto : Crypto} {js : Js.Strings} {smtp : Transporter}
  {client : GoogleAuthService.Client} (cfg : Config)
  (rs : list Request) (w : World) :
  let w' := serve_all cfg rs w in
  (sound w -> sound w')
  /\ (length (users w) <= length (users w'))%nat
  /\ forall e u, find (Prisma.byEmail e) (users w) = Some u ->
       exists u', find (Prisma.byEmail e) (users w') = Some u'
                  /\ User.id u' = User.id u
                  /\ User.email u' = User.email u
                  /\ User.role u' = User.role u
                  /\ User.mfaEnabled u' = User.mfaEnabled u
                  /\ User.createdAt u' = User.createdAt u.
Proof.
  cbv zeta.
  apply (serve_all_follows cfg same_identity rs same_identity_refl same_identity_trans).
  apply List.Forall_forall. intros r _. apply serve_keeps_identity.
Qed.

Lemma X14_witness :
  let rs := [Direct (Register 0 234 7 Demo.alice);
             Google 500 {| google_token := "bob"; google_role := Some ADMIN |};
             Direct (VerifyEmail 1000 "alice@example.com" "1234");
             Direct (Register 2000 1 1 Demo.alice);
             Google 3000 {| google_token := "alice"; google_role := Some ADMIN |}] in
  sound (serve_all Demo.cfg rs Demo.empty)
  /\ map User.email (users (serve_all Demo.cfg rs Demo.empty))
     = ["alice@example.com"; "bob@example.com"].
Proof.
  cbv zeta. split; [|reflexivity].
  refine (proj1 (X14_requests_keep_accounts Demo.cfg _ Demo.empty) _).
  split; [split|]; constructor.
Defined.

(** X15.  Only [changePassword] and [resetPassword] write a password hash:
    after any sequence of other requests, every address finds a row with the
    hash it had. *)
Theorem X15_only_two_methods_write_the_hash
  {crypto : Crypto} {js : Js.Strings} {smtp : Transporter}
  {client : GoogleAuthService.Client} (cfg : Config)
  (rs : list Request) (w : World) (e : string) (u : User.t) :
  Forall (fun r => writes_password r = false) rs ->
  find (Prisma.byEmail e) (users w) = Some u ->
  exists u', find (Prisma.byEmail e) (users (serve_all cfg rs w)) = Some u'
             /\ User.password u' = User.password u.
Proof.
  intros Hrs Hf.
  refine (proj2 (proj2 (serve_all_follows cfg same_password rs same_password_refl
                          same_password_trans _ w)) e u Hf).
  eapply List.Forall_impl; [|exact Hrs]. intros r Hr. now apply serve_keeps_password.
Qed.

Lemma X15_witness :
  let rs := [Direct (ForgotPassword 1000 4678 {| forgot_email := "alice@example.com" |});
             Direct (VerifyOtp 2000 "alice@example.com" "5678");
             Google 3000 {| google_token := "alice"; google_role := None |};
             Direct (Logout 4000 1 (Some "Bearer 902.1.JWT_SECRET"))] in
  exists u', find (Prisma.byEmail "alice@example.com")
               (users (serve_all Demo.cfg rs Demo.registered)) = Some u'
             /\ User.password u' = "7$Passw0rd!".
Proof.
  cbv zeta.
  refine (X15_only_two_methods_write_the_hash Demo.cfg _ Demo.registered
            "alice@example.com" Demo.alice_pending _ _).
  - repeat constructor.
  - reflexivity.
Defined.

(** ** Signing in with Google *)

Section Google.

Context {crypto : Crypto} {js : Js.Strings} {smtp : Transporter}
        {client : GoogleAuthService.Client} (cfg : Config).

Lemma verifyToken_accepts token raw w :
  GoogleAuthService.verifyIdToken token = Ok (Some raw) ->
  GoogleAuthService.tp_email_verified raw = Some true ->
  GoogleAuthService.verifyToken token w
  = (Ok {| GoogleAuthService.email := GoogleAuthService.tp_email raw;
           GoogleAuthService.email_verified := true;
           GoogleAuthService.name := GoogleAuthService.tp_name raw;
           GoogleAuthService.picture := GoogleAuthService.tp_picture raw;
           GoogleAuthService.given_name := GoogleAuthService.tp_given_name raw;
           GoogleAuthService.family_name := GoogleAuthService.tp_family_name raw;
           GoogleAuthService.locale := GoogleAuthService.tp_locale raw;
           GoogleAuthService.sub := GoogleAuthService.tp_sub raw |}, w).
Proof.
  intros Hv He. unfold GoogleAuthService.verifyToken, try_catch, bind, lift.
  rewrite Hv, He. reflexivity.
Qed.

End Google.

(** X16.  [verifyToken] answers only for an identity whose address Google
    has verified, and writes nothing.  Every failure, the two the method
    raises itself included, reaches the caller as [Unauthorized] with the
    message [Failed to verify Google token: ] followed by the message of the
    cause. *)
Theorem X16_verifyToken_verified_or_unauthorized
  {client : GoogleAuthService.Client} (token : string) (w : World) :
  (forall p w', GoogleAuthService.verifyToken token w = (Ok p, w') ->
     w' = w /\ GoogleAuthService.email_verified p = true
     /\ exists raw, GoogleAuthService.verifyIdToken token = Ok (Some raw)
                    /\ GoogleAuthService.tp_email_verified raw = Some true
                    /\ GoogleAuthService.email p = GoogleAuthService.tp_email raw
                    /\ GoogleAuthService.sub p = GoogleAuthService.tp_sub raw)
  /\ (GoogleAuthService.verifyIdToken token = Ok None ->
      GoogleAuthService.verifyToken token w
      = (Throw (UnauthorizedException
                  "Failed to verify Google token: Invalid Google token"), w))
  /\ (forall raw, GoogleAuthService.verifyIdToken token = Ok (Some raw) ->
        GoogleAuthService.tp_email_verified raw <> Some true ->
        GoogleAuthService.verifyToken token w
        = (Throw (UnauthorizedException
                    "Failed to verify Google token: Google email not verified"), w))
  /\ (forall x, GoogleAuthService.verifyIdToken token = Throw x ->
        GoogleAuthService.verifyToken token w
        = (Throw (UnauthorizedException
                    ("Failed to verify Google token: " +:+ message x)), w)).
Proof.
  unfold GoogleAuthService.verifyToken, try_catch, bind, lift.
  destruct (GoogleAuthService.verifyIdToken token) as [[raw|]|x] eqn:Hv.
  - destruct (GoogleAuthService.tp_email_verified raw) as [[]|] eqn:He; cbn.
    + split.
      * intros p w' H. inversion H. subst. cbn.
        split; [reflexivity|]. split; [reflexivity|]. exists raw. auto.
      * split; [discriminate|]. split; [|discriminate].
        intros raw' H. inversion H. subst. congruence.
    + split; [discriminate|]. split; [discriminate|]. split; [|discriminate].
      intros raw' _ _. reflexivity.
    + split; [discriminate|]. split; [discriminate|]. split; [|discriminate].
      intros raw' _ _. reflexivity.
  - cbn. split; [discriminate|]. split; [reflexivity|]. split; discriminate.
  - cbn. split; [discriminate|]. split; [discriminate|]. split; [discriminate|].
    intros y H. inversion H. reflexivity.
Qed.

Lemma X16_witness :
  GoogleAuthService.verifyToken "empty" Demo.empty
  = (Throw (UnauthorizedException "Failed to verify Google token: Invalid Google token"),
     Demo.empty)
  /\ GoogleAuthService.verifyToken "carol" Demo.empty
     = (Throw (UnauthorizedException
                 "Failed to verify Google token: Google email not verified"), Demo.empty)
  /\ GoogleAuthService.verifyToken "garbage" Demo.empty
     = (Throw (UnauthorizedException
                 "Failed to verify Google token: Wrong number of segments in token"),
        Demo.empty).
Proof.
  split; [|split].
  - destruct (X16_verifyToken_verified_or_unauthorized "empty" Demo.empty)
      as (_ & H & _).
    apply H. reflexivity.
  - destruct (X16_verifyToken_verified_or_unauthorized "carol" Demo.empty)
      as (_ & _ & H & _).
    apply (H DemoGoogle.carol); [reflexivity | discriminate].
  - destruct (X16_verifyToken_verified_or_unauthorized "garbage" Demo.empty)
      as (_ & _ & _ & H).
    apply (H (Error "Wrong number of segments in token")). reflexivity.
Defined.

Section GoogleCallbackRows.

Context {crypto : Crypto} {client : GoogleAuthService.Client} (cfg : Config).

Lemma others_none i g (l : list User.t) :
  (forall v, In v l -> User.googleId v = Some g -> User.id v = i) ->
  existsb (fun v => negb (Prisma.byId i v) && Prisma.byGoogleId g v) l = false.
Proof.
  intros H. apply not_true_is_false. intros E.
  apply existsb_exists in E as (v & Hin & Hv).
  apply andb_true_iff in Hv as [Hi Hg]. apply bool_decide_eq_true_1 in Hg.
  specialize (H v Hin Hg). unfold Prisma.byId in Hi.
  rewrite H, Z.eqb_refl in Hi. discriminate.
Qed.

Lemma others_some i g (l : list User.t) v :
  In v l -> User.googleId v = Some g -> User.id v <> i ->
  existsb (fun v => negb (Prisma.byId i v) && Prisma.byGoogleId g v) l = true.
Proof.
  intros Hin Hg Hi. apply existsb_exists. exists v. split; [exact Hin|].
  apply andb_true_iff. split.
  - apply negb_true_iff. now apply Z.eqb_neq.
  - now apply bool_decide_eq_true_2.
Qed.

Lemma unclaimed_none g w : unclaimed g w -> existsb (Prisma.byGoogleId g) (users w) = false.
Proof.
  intros H. apply not_true_is_false. intros E.
  apply existsb_exists in E as (v & Hin & Hv). apply bool_decide_eq_true_1 in Hv.
  exact (H v Hin Hv).
Qed.

Lemma claimed_some g w v :
  In v (users w) -> User.googleId v = Some g ->
  existsb (Prisma.byGoogleId g) (users w) = true.
Proof.
  intros Hin Hg. apply existsb_exists. exists v. split; [exact Hin|].
  now apply bool_decide_eq_true_2.
Qed.

Lemma linked_fields now g picture u :
  User.id (linked now g picture u) = User.id u
  /\ User.email (linked now g picture u) = User.email u
  /\ User.googleId (linked now g picture u) = Some g
  /\ User.emailVerified (linked now g picture u) = User.emailVerified u
  /\ User.status (linked now g picture u) = User.status u
  /\ User.password (linked now g picture u) = User.password u
  /\ User.role (linked now g picture u) = User.role u
  /\ (forall p, picture = Some p -> User.profilePicture (linked now g picture u) = Some p).
Proof.
  destruct picture, u; repeat split; cbn; intros p0 H; now inversion H.
Qed.

Lemma updateGoogleId_write now i g picture :
  updateGoogleId now i g picture = Prisma.write i (linked now g picture).
Proof. reflexivity. Qed.

(** [updateGoogleId] when no other row carries the id. *)
Lemma updateGoogleId_free (p : User.t -> bool) now g picture w u :
  find p (users w) = Some u -> only_of g u w ->
  exists u0, updateGoogleId now (User.id u) g picture w
             = (Ok (linked now g picture u0),
                with_users (map (Prisma.patch (User.id u) (linked now g picture))
                              (users w)) w).
Proof.
  intros Hf Ho. destruct (find_byId_of_found _ _ _ Hf) as [u0 E].
  exists u0. rewrite updateGoogleId_write. unfold Prisma.write. rewrite E.
  assert (Prisma.clash (User.id u) u0 (linked now g picture u0) (users w) = false) as ->;
    [|reflexivity].
  destruct (linked_fields now g picture u0) as (_ & He & Hg & _).
  unfold Prisma.clash. rewrite He, String.eqb_refl, Hg, others_none by exact Ho.
  cbn [negb andb orb]. apply andb_false_r.
Qed.

(** [updateGoogleId] when another row carries the id. *)
Lemma updateGoogleId_claimed now g picture w u v :
  wf w -> In u (users w) -> User.googleId u <> Some g ->
  In v (users w) -> User.googleId v = Some g ->
  updateGoogleId now (User.id u) g picture w = (Throw (PrismaClientError "P2002"), w).
Proof.
  intros [Hn _] Hu Hg Hv Hgv.
  destruct (find (Prisma.byId (User.id u)) (users w)) as [u0|] eqn:E.
  2:{ pose proof (find_none _ _ E _ Hu) as H. unfold Prisma.byId in H.
      rewrite Z.eqb_refl in H. discriminate. }
  assert (u0 = u) as ->.
  { pose proof (find_byId_id _ _ _ E) as Hi. apply find_some in E as [Hin _].
    now apply (same_id_same_row (users w)). }
  rewrite updateGoogleId_write. unfold Prisma.write. rewrite E.
  assert (Prisma.clash (User.id u) u (linked now g picture u) (users w) = true) as ->;
    [|reflexivity].
  destruct (linked_fields now g picture u) as (_ & _ & Hl & _).
  unfold Prisma.clash. rewrite Hl. apply orb_true_iff. right.
  apply andb_true_iff. split.
  - apply negb_true_iff. now apply bool_decide_eq_false_2.
  - apply (others_some _ _ _ v Hv Hgv). intros Hi. apply Hg.
    now rewrite <- (same_id_same_row (users w) v u Hn Hv Hu Hi).
Qed.

(** The callback for an address that has an account. *)
Lemma googleCallback_existing now dto raw w u t :
  GoogleAuthService.verifyIdToken (google_token dto) = Ok (Some raw) ->
  GoogleAuthService.tp_email_verified raw = Some true ->
  find (Prisma.byEmail (GoogleAuthService.tp_email raw)) (users w) = Some u ->
  generateTokens cfg now u w = (Ok t, w) ->
  User.googleId u = Some (GoogleAuthService.tp_sub raw)
  \/ only_of (GoogleAuthService.tp_sub raw) u w ->
  exists w',
    GoogleCallback.googleCallback cfg now dto w
    = (Ok (JObj [("message", JStr "Login successful");
                 ("user", GoogleCallback.google_user u (GoogleAuthService.tp_picture raw));
                 ("accessToken", JStr (Tokens.accessToken t));
                 ("refreshToken", JStr (Tokens.refreshToken t))]), w')
    /\ find (Prisma.byEmail (GoogleAuthService.tp_email raw)) (users w')
       = Some (if bool_decide (User.googleId u = Some (GoogleAuthService.tp_sub raw))
               then u
               else linked now (GoogleAuthService.tp_sub raw)
                      (Some (GoogleAuthService.tp_picture raw)) u)
    /\ length (users w') = length (users w)
    /\ outbox w' = outbox w
    /\ (User.googleId u = Some (GoogleAuthService.tp_sub raw) -> w' = w).
Proof.
  intros Hv He Hf Ht Hg. unfold GoogleCallback.googleCallback.
  unfold bind at 1. rewrite (verifyToken_accepts _ raw w Hv He).
  cbn [GoogleAuthService.email GoogleAuthService.sub GoogleAuthService.picture].
  unfold bind at 1, findUserByEmail, Prisma.findUnique. rewrite Hf.
  destruct (bool_decide (User.googleId u = Some (GoogleAuthService.tp_sub raw))) eqn:Eb;
    cbn [negb].
  - unfold bind at 1 2. unfold ret at 1. cbn beta iota.
    unfold bind. rewrite Ht. unfold ret. eauto 10.
  - apply bool_decide_eq_false_1 in Eb. destruct Hg as [Hg|Ho]; [contradiction|].
    destruct (updateGoogleId_free _ now (GoogleAuthService.tp_sub raw)
                (Some (GoogleAuthService.tp_picture raw)) w u Hf Ho) as [u0 Hu].
    unfold bind. rewrite Hu. unfold ret. cbn beta iota.
    erewrite generateTokens_any_world by exact Ht.
    eexists. split; [reflexivity|]. cbn [users outbox with_users].
    split; [|split; [apply length_map | split; [reflexivity | contradiction]]].
    apply find_byEmail_patched; [|exact Hf].
    split; intros x; apply linked_fields.
Qed.

(** The callback for an address that has an account, when another account
    carries the Google id. *)
Lemma googleCallback_claimed now dto raw w u v :
  GoogleAuthService.verifyIdToken (google_token dto) = Ok (Some raw) ->
  GoogleAuthService.tp_email_verified raw = Some true ->
  find (Prisma.byEmail (GoogleAuthService.tp_email raw)) (users w) = Some u ->
  wf w -> User.googleId u <> Some (GoogleAuthService.tp_sub raw) ->
  In v (users w) -> User.googleId v = Some (GoogleAuthService.tp_sub raw) ->
  GoogleCallback.googleCallback cfg now dto w = (Throw (PrismaClientError "P2002"), w).
Proof.
  intros Hv He Hf Hw Hg Hin Hgv. unfold GoogleCallback.googleCallback.
  unfold bind at 1. rewrite (verifyToken_accepts _ raw w Hv He).
  cbn [GoogleAuthService.email GoogleAuthService.sub GoogleAuthService.picture].
  unfold bind at 1, findUserByEmail, Prisma.findUnique. rewrite Hf.
  rewrite bool_decide_eq_false_2 by exact Hg. cbn [negb].
  unfold bind.
  rewrite (updateGoogleId_claimed _ _ _ w u v Hw (proj1 (find_some _ _ Hf)) Hg Hin Hgv).
  reflexivity.
Qed.

(** The callback for an address that has none. *)
Lemma googleCallback_new now dto raw w :
  GoogleAuthService.verifyIdToken (google_token dto) = Ok (Some raw) ->
  GoogleAuthService.tp_email_verified raw = Some true ->
  find (Prisma.byEmail (GoogleAuthService.tp_email raw)) (users w) = None ->
  Js.truthy (JWT_REFRESH_SECRET cfg) = true ->
  unclaimed (GoogleAuthService.tp_sub raw) w ->
  exists v w' u',
    GoogleCallback.googleCallback cfg now dto w = (Ok v, w')
    /\ field "message" v = Some (JStr "Registration successful")
    /\ field "isNewUser" v = Some (JBool true)
    /\ (exists a r, field "accessToken" v = Some (JStr a)
                    /\ field "refreshToken" v = Some (JStr r))
    /\ users w' = (users w ++ [u'])%list
    /\ find (Prisma.byEmail (GoogleAuthService.tp_email raw)) (users w') = Some u'
    /\ User.email u' = GoogleAuthService.tp_email raw
    /\ User.password u' = ""
    /\ User.status u' = ACTIVE
    /\ User.emailVerified u' = true
    /\ User.role u' = default USER (google_role dto)
    /\ User.googleId u' = Some (GoogleAuthService.tp_sub raw)
    /\ User.profilePicture u' = Some (GoogleAuthService.tp_picture raw).
Proof.
  intros Hv He Hf Hs Hu. unfold GoogleCallback.googleCallback.
  unfold bind at 1. rewrite (verifyToken_accepts _ raw w Hv He).
  cbn [GoogleAuthService.email GoogleAuthService.sub GoogleAuthService.picture
       GoogleAuthService.name GoogleAuthService.email_verified].
  unfold bind at 1, findUserByEmail, Prisma.findUnique. rewrite Hf.
  unfold bind at 1, createGoogleUser, Prisma.create, Prisma.taken.
  cbn [User.email User.googleId g_email g_googleId]. rewrite Hf, (unclaimed_none _ _ Hu).
  unfold bind, generateTokens. rewrite Hs. cbn [negb]. unfold ret.
  do 3 eexists. split; [reflexivity|]. cbn [users].
  split; [reflexivity|]. split; [reflexivity|].
  split; [do 2 eexists; split; reflexivity|].
  split; [reflexivity|]. split; [|repeat split].
  rewrite find_app_none by exact Hf. simpl.
  unfold Prisma.byEmail. cbn [User.email]. now rewrite String.eqb_refl.
Qed.

(** The callback for an address that has none, when an account carries the
    Google id. *)
Lemma googleCallback_new_claimed now dto raw w v :
  GoogleAuthService.verifyIdToken (google_token dto) = Ok (Some raw) ->
  GoogleAuthService.tp_email_verified raw = Some true ->
  find (Prisma.byEmail (GoogleAuthService.tp_email raw)) (users w) = None ->
  In v (users w) -> User.googleId v = Some (GoogleAuthService.tp_sub raw) ->
  exists w',
    GoogleCallback.googleCallback cfg now dto w = (Throw (PrismaClientError "P2002"), w')
    /\ users w' = users w.
Proof.
  intros Hv He Hf Hin Hg. unfold GoogleCallback.googleCallback.
  unfold bind at 1. rewrite (verifyToken_accepts _ raw w Hv He).
  cbn [GoogleAuthService.email GoogleAuthService.sub GoogleAuthService.picture
       GoogleAuthService.name GoogleAuthService.email_verified].
  unfold bind at 1, findUserByEmail, Prisma.findUnique. rewrite Hf.
  unfold bind at 1, createGoogleUser, Prisma.create, Prisma.taken.
  cbn [User.email User.googleId g_email g_googleId].
  rewrite Hf, (claimed_some _ _ v Hin Hg). eauto.
Qed.

End GoogleCallbackRows.

(** X17.  The first Google callback for an address without an account creates
    one when no account carries the Google id: [ACTIVE], verified, with the
    empty string as password hash, the Google id and picture, and the role the
    request names ([USER] when it names none).  A second callback with the
    same token finds that account and creates nothing.  With a bcrypt that
    matches no password against the empty hash, [login] refuses every password
    for the account.  When an account carries the Google id, under another
    address, the unique index refuses the new row and the callback fails. *)
Theorem X17_googleCallback_creates_once
  {crypto : Crypto} {smtp : Transporter} {client : GoogleAuthService.Client} (cfg : Config)
  (now later : Z) (dto : GoogleAuthDto) (raw : GoogleAuthService.TokenPayload)
  (w : World) :
  GoogleAuthService.verifyIdToken (google_token dto) = Ok (Some raw) ->
  GoogleAuthService.tp_email_verified raw = Some true ->
  find (Prisma.byEmail (GoogleAuthService.tp_email raw)) (users w) = None ->
  Js.truthy (JWT_REFRESH_SECRET cfg) = true ->
  (unclaimed (GoogleAuthService.tp_sub raw) w ->
   exists v w' u' v2,
     GoogleCallback.googleCallback cfg now dto w = (Ok v, w')
     /\ field "isNewUser" v = Some (JBool true)
     /\ users w' = (users w ++ [u'])%list
     /\ User.email u' = GoogleAuthService.tp_email raw
     /\ User.password u' = ""
     /\ User.status u' = ACTIVE
     /\ User.emailVerified u' = true
     /\ User.role u' = default USER (google_role dto)
     /\ User.googleId u' = Some (GoogleAuthService.tp_sub raw)
     /\ User.profilePicture u' = Some (GoogleAuthService.tp_picture raw)
     /\ GoogleCallback.googleCallback cfg later dto w' = (Ok v2, w')
     /\ field "message" v2 = Some (JStr "Login successful")
     /\ field "isNewUser" v2 = None
     /\ forall rnd password fcm,
          bcrypt_compare password "" = false ->
          login cfg later rnd {| login_email := GoogleAuthService.tp_email raw;
                                 login_password := password; login_fcmToken := fcm |} w'
          = (Throw (UnauthorizedException "Incorrect password."), w'))
  /\ (forall other, In other (users w) ->
      User.googleId other = Some (GoogleAuthService.tp_sub raw) ->
      exists w', GoogleCallback.googleCallback cfg now dto w
                 = (Throw (PrismaClientError "P2002"), w')
                 /\ users w' = users w).
Proof.
  intros Hv He Hf Hs. split.
  2:{ intros other Hin Hg. now apply (googleCallback_new_claimed cfg now dto raw w other). }
  intros Hu.
  destruct (googleCallback_new cfg now dto raw w Hv He Hf Hs Hu)
    as (v & w' & u' & E & _ & N & _ & U & F & A & P & S & V & R & G & I).
  destruct (generateTokens_configured cfg later u' Hs w') as [t Ht].
  destruct (googleCallback_existing cfg later dto raw w' u' t Hv He F Ht (or_introl G))
    as (w2 & E2 & _ & _ & _ & W).
  rewrite (W G) in E2.
  exists v, w', u'. eexists.
  split; [exact E|]. split; [exact N|]. split; [exact U|]. split; [exact A|].
  split; [exact P|]. split; [exact S|]. split; [exact V|]. split; [exact R|].
  split; [exact G|]. split; [exact I|]. split; [exact E2|].
  split; [reflexivity|]. split; [reflexivity|].
  intros rnd password fcm Hc.
  eapply login_wrong_password; [exact F | exact V |].
  cbn [login_password]. now rewrite P.
Qed.

Lemma X17_witness :
  let dto := {| google_token := "bob"; google_role := Some ADMIN |} in
  exists v w' u' v2,
    GoogleCallback.googleCallback Demo.cfg 500 dto Demo.registered = (Ok v, w')
    /\ field "isNewUser" v = Some (JBool true)
    /\ users w' = (users Demo.registered ++ [u'])%list
    /\ User.email u' = "bob@example.com"
    /\ User.password u' = ""
    /\ User.status u' = ACTIVE
    /\ User.emailVerified u' = true
    /\ User.role u' = ADMIN
    /\ User.googleId u' = Some "g-1001"
    /\ User.profilePicture u' = Some "bob.png"
    /\ GoogleCallback.googleCallback Demo.cfg 900 dto w' = (Ok v2, w')
    /\ field "message" v2 = Some (JStr "Login successful")
    /\ field "isNewUser" v2 = None
    /\ forall rnd password fcm,
         bcrypt_compare password "" = false ->
         login Demo.cfg 900 rnd {| login_email := "bob@example.com";
                                   login_password := password; login_fcmToken := fcm |} w'
         = (Throw (UnauthorizedException "Incorrect password."), w').
Proof.
  cbv zeta.
  refine (proj1 (X17_googleCallback_creates_once Demo.cfg 500 900
                   {| google_token := "bob"; google_role := Some ADMIN |} DemoGoogle.bob
                   Demo.registered _ _ _ _) _); try reflexivity.
  intros v [<-|[]]. discriminate.
Defined.

(** X18.  The Google callback for an address that has an account signs that
    account in: it returns a token pair for it, without asking for the
    password and whatever the verification state and the status of the
    account, which it leaves as they are together with the password hash and
    the role.  When the account does not carry the Google id yet, the id and
    the picture of the token are stored in its row; when it does, nothing is
    written.  When another account carries the Google id, the unique index
    refuses the update: the callback fails and writes nothing. *)
Theorem X18_googleCallback_signs_in_by_address
  {crypto : Crypto} {client : GoogleAuthService.Client} (cfg : Config)
  (now : Z) (dto : GoogleAuthDto) (raw : GoogleAuthService.TokenPayload)
  (w : World) (u : User.t) :
  GoogleAuthService.verifyIdToken (google_token dto) = Ok (Some raw) ->
  GoogleAuthService.tp_email_verified raw = Some true ->
  find (Prisma.byEmail (GoogleAuthService.tp_email raw)) (users w) = Some u ->
  Js.truthy (JWT_REFRESH_SECRET cfg) = true ->
  (User.googleId u = Some (GoogleAuthService.tp_sub raw)
   \/ only_of (GoogleAuthService.tp_sub raw) u w ->
   exists t w' u',
     fst (generateTokens cfg now u w) = Ok t
     /\ GoogleCallback.googleCallback cfg now dto w
        = (Ok (JObj [("message", JStr "Login successful");
                     ("user", GoogleCallback.google_user u
                                (GoogleAuthService.tp_picture raw));
                     ("accessToken", JStr (Tokens.accessToken t));
                     ("refreshToken", JStr (Tokens.refreshToken t))]), w')
     /\ find (Prisma.byEmail (GoogleAuthService.tp_email raw)) (users w') = Some u'
     /\ User.googleId u' = Some (GoogleAuthService.tp_sub raw)
     /\ User.emailVerified u' = User.emailVerified u
     /\ User.status u' = User.status u
     /\ User.password u' = User.password u
     /\ User.role u' = User.role u
     /\ length (users w') = length (users w)
     /\ (User.googleId u <> Some (GoogleAuthService.tp_sub raw) ->
         u' = linked now (GoogleAuthService.tp_sub raw)
                (Some (GoogleAuthService.tp_picture raw)) u
         /\ User.profilePicture u' = Some (GoogleAuthService.tp_picture raw))
     /\ (User.googleId u = Some (GoogleAuthService.tp_sub raw) -> u' = u /\ w' = w))
  /\ (wf w -> User.googleId u <> Some (GoogleAuthService.tp_sub raw) ->
      forall other, In other (users w) ->
        User.googleId other = Some (GoogleAuthService.tp_sub raw) ->
        GoogleCallback.googleCallback cfg now dto w
        = (Throw (PrismaClientError "P2002"), w)).
Proof.
  intros Hv He Hf Hs. split.
  2:{ intros Hw Hg other Hin Ho.
      now apply (googleCallback_claimed cfg now dto raw w u other). }
  intros Hg.
  destruct (generateTokens_configured cfg now u Hs w) as [t Ht].
  destruct (googleCallback_existing cfg now dto raw w u t Hv He Hf Ht Hg)
    as (w' & E & F & L & _ & W).
  destruct (linked_fields now (GoogleAuthService.tp_sub raw)
              (Some (GoogleAuthService.tp_picture raw)) u)
    as (_ & _ & G1 & G2 & G3 & G4 & G5 & G6).
  exists t, w'. eexists. split; [now rewrite Ht|]. split; [exact E|]. split; [exact F|].
  destruct (bool_decide (User.googleId u = Some (GoogleAuthService.tp_sub raw))) eqn:Eb.
  - apply bool_decide_eq_true_1 in Eb.
    repeat split; auto; contradiction.
  - apply bool_decide_eq_false_1 in Eb.
    repeat split; auto; contradiction.
Qed.

Lemma X18_witness :
  exists t w' u',
    fst (generateTokens Demo.cfg 500 Demo.alice_pending Demo.registered) = Ok t
    /\ GoogleCallback.googleCallback Demo.cfg 500
         {| google_token := "alice"; google_role := Some ADMIN |} Demo.registered
       = (Ok (JObj [("message", JStr "Login successful");
                    ("user", GoogleCallback.google_user Demo.alice_pending "alice.png");
                    ("accessToken", JStr (Tokens.accessToken t));
                    ("refreshToken", JStr (Tokens.refreshToken t))]), w')
    /\ find (Prisma.byEmail "alice@example.com") (users w') = Some u'
    /\ User.googleId u' = Some "g-1000"
    /\ User.emailVerified u' = false
    /\ User.status u' = PENDING_VERIFICATION
    /\ User.password u' = "7$Passw0rd!"
    /\ User.role u' = USER
    /\ length (users w') = 1%nat
    /\ User.profilePicture u' = Some "alice.png".
Proof.
  destruct (X18_googleCallback_signs_in_by_address Demo.cfg 500
              {| google_token := "alice"; google_role := Some ADMIN |} DemoGoogle.alice
              Demo.registered Demo.alice_pending) as [H _];
    [reflexivity | reflexivity | reflexivity | reflexivity |].
  destruct H as (t & w' & u' & T & E & F & G & V & S & P & R & L & N & _).
  { right. intros v [<-|[]]. discriminate. }
  exists t, w', u'.
  split; [exact T|]. split; [exact E|]. split; [exact F|]. split; [exact G|].
  split; [exact V|]. split; [exact S|]. split; [exact P|]. split; [exact R|].
  split; [exact L|]. apply N. discriminate.
Defined.

(** ** Addresses and their case *)

Lemma lower_case_found {js : Js.Strings} w e u :
  lower_case_addresses w -> find (Prisma.byEmail e) (users w) = Some u ->
  Js.toLowerCase e = e.
Proof.
  intros Hl Hf. pose proof (find_byEmail_email _ _ _ Hf) as He.
  apply find_some in Hf as [Hin _].
  unfold lower_case_addresses in Hl. rewrite List.Forall_forall in Hl.
  specialize (Hl _ Hin). now rewrite He in Hl.
Qed.

(** X19.  [register] stores the lower-case form of the address, so a store
    of lower-case addresses stays one (when lowering the case a second time
    changes nothing); [login] looks the address up as it is given.  On such a
    store a login with an address that [toLowerCase] changes, one with a
    capital letter, therefore fails with [No account found with this email.],
    whatever the password, while [validateUser] lowers the case first and
    finds the account. *)
Theorem X19_login_address_is_case_sensitive
  {crypto : Crypto} {js : Js.Strings} {smtp : Transporter} (cfg : Config)
  (now rnd salt : Z) (registration : RegisterDto) (dto : LoginDto) (w : World) :
  lower_case_addresses w ->
  (Js.toLowerCase (Js.toLowerCase (reg_email registration))
   = Js.toLowerCase (reg_email registration) ->
   lower_case_addresses (snd (register now rnd salt registration w)))
  /\ (Js.toLowerCase (login_email dto) <> login_email dto ->
      login cfg now rnd dto w
      = (Throw (UnauthorizedException "No account found with this email."), w))
  /\ (forall u,
        find (Prisma.byEmail (Js.toLowerCase (login_email dto))) (users w) = Some u ->
        bcrypt_compare (login_password dto) (User.password u) = true ->
        validateUser (login_email dto) (login_password dto) w = (Ok (Some u), w)).
Proof.
  intros Hl. split; [|split].
  - intros Hidem.
    destruct (find (Prisma.byEmail (Js.toLowerCase (reg_email registration))) (users w))
      as [u|] eqn:Hf.
    + now rewrite (register_conflict now rnd salt registration w u Hf).
    + destruct (register_row now rnd salt registration w Hf)
        as (u & w' & E & U & _ & _ & _ & A & _).
      rewrite E. cbn [snd]. unfold lower_case_addresses in *. rewrite U.
      apply Forall_app. split; [exact Hl|]. constructor; [|constructor].
      rewrite A. exact Hidem.
  - intros Hne. apply login_unknown.
    destruct (find (Prisma.byEmail (login_email dto)) (users w)) as [u|] eqn:Hf;
      [|reflexivity].
    exfalso. apply Hne. eapply lower_case_found; eauto.
  - intros u Hf Hp. unfold validateUser, bind, Prisma.findUnique, ret.
    now rewrite Hf, Hp.
Qed.

Lemma X19_witness :
  let typed := {| login_email := "Alice@Example.com"; login_password := "Passw0rd!";
                  login_fcmToken := None |} in
  users Demo.verified = [Demo.alice_active]
  /\ lower_case_addresses (snd (register 3000 1 1 Demo.alice Demo.empty))
  /\ login Demo.cfg 2000 0 typed Demo.verified
     = (Throw (UnauthorizedException "No account found with this email."), Demo.verified)
  /\ validateUser "Alice@Example.com" "Passw0rd!" Demo.verified
     = (Ok (Some Demo.alice_active), Demo.verified).
Proof.
  cbv zeta. split; [reflexivity|].
  destruct (X19_login_address_is_case_sensitive Demo.cfg 2000 0 7 Demo.alice
              {| login_email := "Alice@Example.com"; login_password := "Passw0rd!";
                 login_fcmToken := None |} Demo.verified) as (_ & L & V).
  { repeat constructor. }
  destruct (X19_login_address_is_case_sensitive Demo.cfg 3000 1 1 Demo.alice
              {| login_email := "Alice@Example.com"; login_password := "Passw0rd!";
                 login_fcmToken := None |} Demo.empty) as (R & _).
  { constructor. }
  split; [apply R; reflexivity|].
  split; [apply L; discriminate|].
  apply (V Demo.alice_active); reflexivity.
Defined.

(** ** The space of codes *)

(** X20.  The code depends on the draw only through its remainder modulo
    8999: it is the decimal numeral of 1000 plus that remainder, and every
    number from 1000 to 9998 is the code of some draw.  A guess is right with
    one chance in 8999. *)
Theorem X20_generateOTP_code_space (rnd : Z) :
  Js.parseInt (generateOTP rnd) = Some (1000 + rnd mod 8999)
  /\ generateOTP (rnd + 8999) = generateOTP rnd
  /\ forall n, 1000 <= n <= 9998 ->
       exists draw, 0 <= draw < 8999 /\ Js.parseInt (generateOTP draw) = Some n.
Proof.
  assert (forall r, Js.parseInt (generateOTP r) = Some (1000 + r mod 8999)) as Hparse.
  { intros r. pose proof (generateOTP_four_digits r) as H. unfold four_digits in H.
    apply andb_true_iff in H as [H _]. apply andb_true_iff in H as [_ H].
    apply bool_decide_eq_true_1 in H. exact H. }
  split; [apply Hparse|]. split.
  - unfold generateOTP, randomInt. do 2 f_equal.
    replace (rnd + 8999) with (rnd + 1 * (9999 - 1000)) by lia.
    apply Z.mod_add. lia.
  - intros n Hn. exists (n - 1000). split; [lia|].
    rewrite Hparse. f_equal. rewrite Z.mod_small; lia.
Qed.

Lemma X20_witness :
  exists draw, 0 <= draw < 8999 /\ Js.parseInt (generateOTP draw) = Some 9998.
Proof.
  destruct (X20_generateOTP_code_space 0) as (_ & _ & H).
  apply (H 9998). lia.
Defined.

(** ** Requests that are turned down *)

Section Tidy.

Context {crypto : Crypto} {js : Js.Strings} {smtp : Transporter}
        {client : GoogleAuthService.Client} (cfg : Config).

Lemma blunt_tidy {A} (m : M A) : blunt m -> tidy m.
Proof. intros H w x w' E R. rewrite (H _ _ _ E) in R. discriminate. Qed.

Lemma tidy_throw {A} x : tidy (@throw A x).
Proof. intros w y w' E _. now inversion E. Qed.

Lemma tidy_ret {A} (a : A) : tidy (ret a).
Proof. intros w y w' E. discriminate. Qed.

Lemma tidy_bind {A B} (m : M A) (k : A -> M B) :
  reads m -> (forall a, tidy (k a)) -> tidy (bind m k).
Proof.
  intros Hm Hk w x w' E R. unfold bind in E. specialize (Hm w).
  destruct (m w) as [[a|y] w1]; cbn [snd] in Hm; subst w1.
  - eapply Hk; eauto.
  - now inversion E.
Qed.

Lemma tidy_outcome {A} (m : M A) : tidy m -> tidy (outcome m).
Proof.
  intros Hm w x w' E R. unfold outcome, bind, ret in E.
  destruct (m w) as [[a|y] w1] eqn:Em; [discriminate|].
  inversion E. subst. eapply Hm; eauto.
Qed.

Lemma blunt_ret {A} (a : A) : blunt (ret a).
Proof. intros w y w' E. discriminate. Qed.

Lemma blunt_bind {A B} (m : M A) (k : A -> M B) :
  blunt m -> (forall a, blunt (k a)) -> blunt (bind m k).
Proof.
  intros Hm Hk w x w' E. unfold bind in E.
  destruct (m w) as [[a|y] w1] eqn:Em.
  - eapply Hk; eauto.
  - inversion E. subst. eapply Hm; eauto.
Qed.

Lemma blunt_update now i f : blunt (Prisma.update now i f).
Proof.
  intros w x w' E. unfold Prisma.update, Prisma.write in E.
  destruct (find _ (users w)); [destruct (Prisma.clash _ _ _ _)|];
    inversion E; reflexivity.
Qed.

Lemma blunt_create data : blunt (Prisma.create data).
Proof.
  intros w x w' E. unfold Prisma.create in E.
  destruct (Prisma.taken _ _); inversion E. reflexivity.
Qed.

Lemma blunt_sendOTPEmail now to name otp :
  blunt (MailService.sendOTPEmail now to name otp).
Proof.
  intros w x w' E. rewrite sendOTPEmail_run in E. unfold delivery in E.
  destruct (transporter_sendMail _ _ _); inversion E. reflexivity.
Qed.

Lemma blunt_sendEmailVerificationOTP now to otp name :
  blunt (MailService.sendEmailVerificationOTP now to otp name).
Proof. intros w x w' E. discriminate. Qed.

Lemma blunt_sendWelcomeEmail now to name :
  blunt (MailService.sendWelcomeEmail now to name).
Proof. intros w x w' E. discriminate. Qed.

Lemma blunt_redis_set k v s now : blunt (RedisService.set k v s now).
Proof. intros w x w' E. discriminate. Qed.

Lemma blunt_generateTokens now u : blunt (generateTokens cfg now u).
Proof.
  intros w x w' E. unfold generateTokens in E.
  destruct (negb _); inversion E. reflexivity.
Qed.

(** The [try] block of [refreshToken] has written nothing when it throws, and
    what [generateTokens] throws after it is no rejection. *)
Lemma tidy_refreshToken now token : tidy (refreshToken cfg now token).
Proof.
  intros w x w' E R. unfold refreshToken in E. unfold bind at 1 in E.
  unfold try_catch in E.
  match type of E with
  | context [bind ?m ?k w] => destruct (bind m k w) as [[u|y] w1] eqn:Eb
  end.
  - rewrite (blunt_generateTokens now u w1 x w' E) in R. discriminate.
  - unfold throw in E. inversion E. subst. clear E R.
    revert Eb. unfold bind, lift, Prisma.findUnique, Prisma.update.
    destruct (jwt_verify token (JWT_REFRESH_SECRET cfg) now) as [p|e];
      [|intros H; now inversion H].
    destruct (sub_number p) as [i|]; [|intros H; now inversion H].
    destruct (find (Prisma.byId i) (users w)) as [u|]; [|intros H; now inversion H].
    match goal with
    | |- context [Prisma.write ?i ?f w] =>
        destruct (update_cases i f w) as [[e E]|(u0 & _ & E)]; rewrite E
    end; intros H; now inversion H.
Qed.

Lemma reads_findUnique p : reads (Prisma.findUnique p).
Proof. intros w. reflexivity. Qed.

Lemma reads_verifyToken token : reads (GoogleAuthService.verifyToken token).
Proof.
  intros w. unfold GoogleAuthService.verifyToken, try_catch, bind, lift.
  destruct (GoogleAuthService.verifyIdToken token) as [[raw|]|x]; [|reflexivity..].
  destruct (negb _); reflexivity.
Qed.

End Tidy.

Ltac blunt :=
  repeat first
    [ apply blunt_ret
    | apply blunt_update
    | apply blunt_create
    | apply blunt_sendOTPEmail
    | apply blunt_sendEmailVerificationOTP
    | apply blunt_sendWelcomeEmail
    | apply blunt_redis_set
    | apply blunt_generateTokens
    | apply blunt_bind; [| intros ?]
    | match goal with
      | |- blunt (match ?x with _ => _ end) => destruct x
      end ].

Ltac tidy :=
  repeat first
    [ apply tidy_throw
    | apply tidy_ret
    | apply tidy_bind;
      [ first [apply reads_findUnique | apply reads_verifyToken] | intros ? ]
    | match goal with
      | |- tidy (match ?x with _ => _ end) => destruct x
      end
    | apply blunt_tidy; solve [blunt] ].

(** X21.  A request that is turned down with [Unauthorized], [BadRequest] or
    [Conflict] has written nothing: the store, the cache and the outbox are as
    they were. *)
Theorem X21_rejected_requests_write_nothing
  {crypto : Crypto} {js : Js.Strings} {smtp : Transporter}
  {client : GoogleAuthService.Client} (cfg : Config)
  (r : Request) (w w' : World) (x : Exception) :
  serve cfg r w = (Throw x, w') ->
  rejection x = true ->
  w' = w.
Proof.
  revert w x w'. change (tidy (serve cfg r)).
  destruct r as [c|now dto]; [destruct c|];
    cbn [serve run]; apply tidy_outcome; try apply tidy_refreshToken;
    unfold GoogleCallback.googleCallback, AuthController.logout, login, sendOtp,
      verifyOtp, register, verifyEmail, resendEmailVerificationOTP, changePassword,
      forgotPassword, resetPassword, logout, updateGoogleId, createGoogleUser,
      findUserByEmail, comparePasswords;
    cbn beta iota; tidy.
Qed.

Lemma X21_witness :
  snd (login Demo.cfg 2000 0 {| login_email := "alice@example.com";
                                login_password := "guess";
                                login_fcmToken := Some "fcm-token-9" |} Demo.verified)
  = Demo.verified.
Proof.
  refine (X21_rejected_requests_write_nothing Demo.cfg
            (Direct (Login 2000 0 {| login_email := "alice@example.com";
                                     login_password := "guess";
                                     login_fcmToken := Some "fcm-token-9" |}))
            Demo.verified _ (UnauthorizedException "Incorrect password.") _ _).
  - reflexivity.
  - reflexivity.
Defined.

(** ** The shared expiry *)

Lemma verifyEmail_expired
  {crypto : Crypto} {js : Js.Strings} {smtp : Transporter} now e otp w u :
  find (Prisma.byEmail (Js.toLowerCase e)) (users w) = Some u ->
  User.emailVerified u = false ->
  mismatch (User.emailVerificationToken u) otp = false ->
  expired (User.resetPasswordExpires u) now = true ->
  verifyEmail now e otp w
  = (Throw (BadRequestException "OTP expired. Please request a new one."), w).
Proof.
  intros Hf Hv Hm He. unfold verifyEmail, bind, Prisma.findUnique.
  now rewrite Hf, Hv, Hm, He.
Qed.

(** X22.  The registration code has no expiry of its own: it lives as long as
    [resetPasswordExpires] says.  A registration code that has run out after
    its ten minutes is accepted again once a password-reset request for the
    address has moved that expiry forward. *)
Theorem X22_reset_request_revives_registration_code
  {crypto : Crypto} {js : Js.Strings} {smtp : Transporter}
  (now requested later rnd rnd' salt : Z) (dto : RegisterDto) (w : World) :
  find (Prisma.byEmail (Js.toLowerCase (reg_email dto))) (users w) = None ->
  now + minutes 10 < later -> later <= requested + minutes 10 ->
  exists v w1 w2 w3,
    register now rnd salt dto w = (Ok v, w1)
    /\ verifyEmail later (reg_email dto) (generateOTP rnd) w1
       = (Throw (BadRequestException "OTP expired. Please request a new one."), w1)
    /\ forgotPassword requested rnd' {| forgot_email := reg_email dto |} w1
       = (Ok (envelope "success" reset_message), w2)
    /\ verifyEmail later (reg_email dto) (generateOTP rnd) w2
       = (Ok (envelope "success" "Email verified successfully"), w3).
Proof.
  intros Hf Hlate Hl.
  destruct (register_row now rnd salt dto w Hf)
    as (u & w1 & E1 & _ & F1 & _ & _ & _ & _ & V & _ & T & X).
  destruct (forgotPassword_sends requested rnd' {| forgot_email := reg_email dto |}
              w1 u F1) as (w2 & E2 & F2 & _).
  cbn [forgot_email] in F2.
  destruct (challenged_fields requested None (generateOTP rnd') (requested + minutes 10) u)
    as (_ & X2 & T2 & _).
  destruct (consumed_challenged 0 requested None (generateOTP rnd') (requested + minutes 10) u)
    as (_ & _ & _ & _ & V2 & _).
  destruct (verifyEmail_activates later (reg_email dto) (generateOTP rnd) w2 _ F2)
    as (w3 & E3 & _).
  { now rewrite V2. }
  { rewrite T2, T. apply generateOTP_matches. }
  { rewrite X2. now apply expired_within. }
  eexists. exists w1, w2, w3.
  split; [exact E1|]. split; [|split; [exact E2 | exact E3]].
  eapply verifyEmail_expired; [exact F1 | exact V | |].
  - rewrite T. apply generateOTP_matches.
  - rewrite X. now apply expired_past.
Qed.

Lemma X22_witness :
  exists v w1 w2 w3,
    register 0 234 7 Demo.alice Demo.empty = (Ok v, w1)
    /\ verifyEmail 3600000 "Alice@Example.com" "1234" w1
       = (Throw (BadRequestException "OTP expired. Please request a new one."), w1)
    /\ forgotPassword 3500000 4678 {| forgot_email := "Alice@Example.com" |} w1
       = (Ok (envelope "success" reset_message), w2)
    /\ verifyEmail 3600000 "Alice@Example.com" "1234" w2
       = (Ok (envelope "success" "Email verified successfully"), w3).
Proof.
  refine (X22_reset_request_revives_registration_code 0 3500000 3600000 234 4678 7
            Demo.alice Demo.empty _ _ _).
  - reflexivity.
  - vm_compute. reflexivity.
  - vm_compute. discriminate.
Defined.
